(** * price-hound: the Kaufland price-list script ([inline_kf_script.py])

    A shallow embedding of the pure parts of the script and of the
    control flow around its library calls, followed by the properties
    stated for it.

    Python [str] values are sequences of Unicode code points and are
    modelled as [list N]; literals are written as UTF-8 text and decoded
    by [py].  Floating-point cells are IEEE-754 binary64 values, taken
    from the Standard Library's [SpecFloat]; pandas uses NaN as the
    missing value of a float column. *)

From Stdlib Require Import ZArith NArith QArith Bool List Lia String Ascii.
From Stdlib Require Import SpecFloat.
From Stdlib Require Qcanon.
From stdpp Require Import gmap.
Import ListNotations.

Set Default Proof Using "Type".

(* ===================================================================== *)
(** * Part I: the embedding                                               *)
(* ===================================================================== *)

(** ** Python strings *)

Module PyStr.

Local Open Scope N_scope.

(** A Python [str]: a list of code points. *)
Abbreviation pystr := (list N).

(** UTF-8 decoding of a byte list, used only to write literals. *)
Fixpoint decode (bs : list N) : list N :=
  match bs with
  | [] => []
  | b0 :: r0 =>
      if b0 <? 128 then b0 :: decode r0
      else
        match r0 with
        | [] => [b0]
        | b1 :: r1 =>
            if b0 <? 224 then ((b0 - 192) * 64 + (b1 - 128)) :: decode r1
            else
              match r1 with
              | [] => [b0; b1]
              | b2 :: r2 =>
                  if b0 <? 240
                  then ((b0 - 224) * 4096 + (b1 - 128) * 64 + (b2 - 128))
                         :: decode r2
                  else
                    match r2 with
                    | [] => [b0; b1; b2]
                    | b3 :: r3 =>
                        ((b0 - 240) * 262144 + (b1 - 128) * 4096
                         + (b2 - 128) * 64 + (b3 - 128)) :: decode r3
                    end
              end
        end
  end.

Definition py (s : string) : pystr :=
  decode (List.map N_of_ascii (list_ascii_of_string s)).

Definition eqb (a b : pystr) : bool := bool_decide (a = b).

(** [s.startswith(p)] *)
Fixpoint startswith (p s : pystr) : bool :=
  match p, s with
  | [], _ => true
  | _ :: _, [] => false
  | a :: p', b :: s' => (a =? b) && startswith p' s'
  end.

(** [s.endswith(p)] *)
Definition endswith (p s : pystr) : bool :=
  startswith (rev p) (rev s).

(** [s.removeprefix(p)] *)
Definition removeprefix (p s : pystr) : pystr :=
  if startswith p s then skipn (List.length p) s else s.

(** [s.removesuffix(p)] *)
Definition removesuffix (p s : pystr) : pystr :=
  if endswith p s then firstn (List.length s - List.length p)%nat s else s.

(** The code points [str.strip()] removes: those for which
    [str.isspace] holds. *)
Definition isspace (c : N) : bool :=
  ((9 <=? c) && (c <=? 13)) || ((28 <=? c) && (c <=? 32))
  || (c =? 133) || (c =? 160) || (c =? 5760)
  || ((8192 <=? c) && (c <=? 8202))
  || (c =? 8232) || (c =? 8233) || (c =? 8239) || (c =? 8287)
  || (c =? 12288).

Fixpoint lstrip (s : pystr) : pystr :=
  match s with
  | [] => []
  | c :: s' => if isspace c then lstrip s' else s
  end.

Definition rstrip (s : pystr) : pystr := rev (lstrip (rev s)).

(** [s.strip()] *)
Definition strip (s : pystr) : pystr := rstrip (lstrip s).

(** [s.replace(old, new)]: left to right, occurrences do not overlap.
    [skip] counts the code points of a matched [old] still to drop. *)
Fixpoint replace_from (old new : pystr) (skip : nat) (s : pystr) : pystr :=
  match s with
  | [] => []
  | c :: s' =>
      match skip with
      | S k => replace_from old new k s'
      | O =>
          if startswith old s
          then new ++ replace_from old new (List.length old - 1) s'
          else c :: replace_from old new O s'
      end
  end.

Definition replace (old new s : pystr) : pystr :=
  match old with
  | [] => new ++ flat_map (fun c => c :: new) s
  | _ :: _ => replace_from old new O s
  end.

(** [s.count(c)] for a one-character [c]. *)
Definition count_char (c : N) (s : pystr) : nat :=
  List.length (List.filter (N.eqb c) s).

(** [s.split(c, 1)] for a one-character [c] that occurs in [s]: the text
    before and after its first occurrence. *)
Fixpoint split_first (c : N) (s : pystr) : pystr * pystr :=
  match s with
  | [] => ([], [])
  | x :: s' =>
      if x =? c then ([], s')
      else let '(l, r) := split_first c s' in (x :: l, r)
  end.

(** [sep.join(parts)] *)
Fixpoint join (sep : pystr) (parts : list pystr) : pystr :=
  match parts with
  | [] => []
  | [p] => p
  | p :: rest => p ++ sep ++ join sep rest
  end.

(** [re.split(r'_+', s)]: [cur] is the token being read (reversed) and
    [in_run] tells whether the previous code point was an underscore. *)
Fixpoint split_runs (us : N) (cur : pystr) (in_run : bool) (s : pystr)
  : list pystr :=
  match s with
  | [] => [rev cur]
  | c :: s' =>
      if c =? us then
        if in_run then split_runs us [] true s'
        else rev cur :: split_runs us [] true s'
      else split_runs us (c :: cur) false s'
  end.

Definition underscore : N := 95.

Definition re_split_underscores (s : pystr) : list pystr :=
  split_runs underscore [] false s.

Definition isdigit (c : N) : bool := (48 <=? c) && (c <=? 57).

Definition digit_val (c : N) : Z := Z.of_N c - 48.

End PyStr.

Import PyStr.

(** ** The pandas calls the script makes

    The script hands text to [pd.to_numeric] and [pd.to_datetime].  Their
    behaviour is modelled on the forms of text the price lists contain:
    plain decimal numerals and numeric day-month-year dates.  Where a
    function below returns [None] (or [Raises]) the text is outside that
    form: pandas then raises, yields a missing value, or accepts the text
    by a rule that is not modelled here (exponents, [inf], digits outside
    ASCII, the range limits of its timestamp type). *)

Module Pandas.

Local Open Scope N_scope.

Definition in_range (lo hi c : N) : bool := (lo <=? c) && (c <=? hi).

(** *** Decimal numerals *)

Fixpoint take_digits (s : pystr) : pystr * pystr :=
  match s with
  | [] => ([], [])
  | c :: s' =>
      if isdigit c then let '(ds, r) := take_digits s' in (c :: ds, r)
      else ([], s)
  end.

Definition digits_value (ds : pystr) : Z :=
  fold_left (fun acc c => (10 * acc + digit_val c)%Z) ds 0%Z.

Definition nonempty (s : pystr) : bool :=
  match s with [] => false | _ :: _ => true end.

(** Digits, optionally followed by the separator [sep] and more digits;
    at least one digit in all. *)
Definition parse_unsigned (sep : N) (s : pystr) : option Q :=
  let '(ip, r) := take_digits s in
  match r with
  | [] => if nonempty ip then Some (inject_Z (digits_value ip)) else None
  | c :: r' =>
      if c =? sep then
        let '(fp, r'') := take_digits r' in
        match r'' with
        | [] =>
            if nonempty (ip ++ fp)
            then Some (Qred (Qmake (digits_value (ip ++ fp))
                                   (Z.to_pos (10 ^ Z.of_nat (List.length fp)))))
            else None
        | _ :: _ => None
        end
      else None
  end.

(** The number a decimal numeral denotes when [sep] is its decimal
    separator. *)
Definition minus : N := 45.
Definition plus : N := 43.

Definition parse_decimal (sep : N) (s : pystr) : option Q :=
  match s with
  | c :: r =>
      if c =? minus then option_map Qopp (parse_unsigned sep r)
      else if c =? plus then parse_unsigned sep r
      else parse_unsigned sep s
  | [] => None
  end.

Definition dot : N := 46.
Definition comma : N := 44.

(** The white space the numeric parser skips on both sides. *)
Definition isspace_ascii (c : N) : bool := in_range 9 13 c || (c =? 32).

Fixpoint skip_space (s : pystr) : pystr :=
  match s with
  | [] => []
  | c :: s' => if isspace_ascii c then skip_space s' else s
  end.

(** [pd.to_numeric] on one text cell. *)
Definition to_numeric_text (s : pystr) : option Q :=
  parse_decimal dot (rev (skip_space (rev (skip_space s)))).

(** *** Calendar dates *)

Record date := { year : Z; month : Z; day : Z }.

Local Open Scope Z_scope.

Definition is_leap (y : Z) : bool :=
  ((y mod 4 =? 0) && negb (y mod 100 =? 0)) || (y mod 400 =? 0).

Definition days_in_month (y m : Z) : Z :=
  if m =? 2 then (if is_leap y then 29 else 28)
  else if (m =? 4) || (m =? 6) || (m =? 9) || (m =? 11) then 30
  else 31.

Definition valid_date (y m d : Z) : bool :=
  (1 <=? y) && (y <=? 9999) && (1 <=? m) && (m <=? 12)
  && (1 <=? d) && (d <=? days_in_month y m).

Local Open Scope N_scope.

(** The directive [%d]: [3[0-1]|[1-2]\d|0[1-9]|[1-9]| [1-9]].  The
    alternatives that match a prefix of [s], in the order the regular
    expression tries them, each with its value and the text left. *)
Definition match_d (s : pystr) : list (Z * pystr) :=
  match s with
  | [] => []
  | c1 :: r1 =>
      match r1 with
      | c2 :: r2 =>
          if ((c1 =? 51) && in_range 48 49 c2)
             || (in_range 49 50 c1 && isdigit c2)
             || ((c1 =? 48) && in_range 49 57 c2)
          then [((10 * digit_val c1 + digit_val c2)%Z, r2)] else []
      | [] => []
      end
      ++ (if in_range 49 57 c1 then [(digit_val c1, r1)] else [])
      ++ match r1 with
         | c2 :: r2 =>
             if (c1 =? 32) && in_range 49 57 c2 then [(digit_val c2, r2)]
             else []
         | [] => []
         end
  end.

(** The directive [%m]: [1[0-2]|0[1-9]|[1-9]]. *)
Definition match_m (s : pystr) : list (Z * pystr) :=
  match s with
  | [] => []
  | c1 :: r1 =>
      match r1 with
      | c2 :: r2 =>
          if ((c1 =? 49) && in_range 48 50 c2)
             || ((c1 =? 48) && in_range 49 57 c2)
          then [((10 * digit_val c1 + digit_val c2)%Z, r2)] else []
      | [] => []
      end
      ++ (if in_range 49 57 c1 then [(digit_val c1, r1)] else [])
  end.

(** The directive [%Y]: [\d\d\d\d]. *)
Definition match_Y (s : pystr) : option (Z * pystr) :=
  match s with
  | a :: b :: c :: d :: r =>
      if isdigit a && isdigit b && isdigit c && isdigit d
      then Some (digits_value [a; b; c; d], r) else None
  | _ => None
  end.

Definition first_some {A B : Type} (f : A -> option B) (l : list A)
  : option B :=
  fold_right (fun a acc => match f a with Some b => Some b | None => acc end)
             None l.

(** The first match of the format [%d%m%Y] at the start of [s], found by
    backtracking over the alternatives: day, month, year and the text
    left unconsumed. *)
Definition match_dmY (s : pystr) : option (Z * Z * Z * pystr) :=
  first_some
    (fun '(d, r) =>
       first_some
         (fun '(m, r') =>
            match match_Y r' with
            | Some (y, rest) => Some (d, m, y, rest)
            | None => None
            end)
         (match_m r))
    (match_d s).

Inductive parsed := Timestamp (d : date) | NaT | Raises.

(** The strings the parser reads as a missing date. *)
Definition nat_strings : list pystr :=
  Eval vm_compute in
    [py "NaT"; py "nat"; py "NAT"; py "nan"; py "NaN"; py "NAN"].

(** [pd.to_datetime(_, format="%d%m%Y")] on one text cell: the format
    has to match at the start, nothing may be left over, and the fields
    have to form a date of the calendar. *)
Definition to_datetime_dmY (s : pystr) : parsed :=
  if nonempty s && negb (existsb (PyStr.eqb s) nat_strings) then
    match match_dmY s with
    | Some (d, m, y, []) =>
        if valid_date y m d
        then Timestamp {| year := y; month := m; day := d |}
        else Raises
    | _ => Raises
    end
  else NaT.

Definition is_delimiter (c : N) : bool :=
  (c =? 32) || (c =? 47) || (c =? 45) || (c =? 46).

Definition parse_2digit (a b : N) : option Z :=
  if isdigit a && isdigit b then Some (digits_value [a; b]) else None.

(** [pd.to_datetime(_, format="mixed", dayfirst=True, errors="coerce")]
    on one text cell of the ten-character form [NN?NN?NNNN], where [?]
    is one of space, slash, dash and dot.  The first field is the day,
    unless only the other order gives a month up to 12. *)
Definition to_datetime_dayfirst (s : pystr) : option date :=
  match s with
  | [a1; a2; s1; b1; b2; s2; y1; y2; y3; y4] =>
      if is_delimiter s1 && is_delimiter s2
         && isdigit y1 && isdigit y2 && isdigit y3 && isdigit y4
      then
        match parse_2digit a1 a2, parse_2digit b1 b2 with
        | Some f1, Some f2 =>
            let y := digits_value [y1; y2; y3; y4] in
            let '(d, m) := if (f2 <=? 12)%Z then (f1, f2) else (f2, f1) in
            if (1000 <=? y)%Z && valid_date y m d
            then Some {| year := y; month := m; day := d |}
            else None
        | _, _ => None
        end
      else None
  | _ => None
  end.

(** [Series.astype("Int16")] on one number: the value has to be an
    integer that a signed 16-bit cell holds.  [None]: pandas raises. *)
Definition astype_Int16 (q : Q) : option Z :=
  let r := Qred q in
  if (Zpos (Qden r) =? 1)%Z && (-32768 <=? Qnum r)%Z && (Qnum r <=? 32767)%Z
  then Some (Qnum r) else None.

End Pandas.

Import Pandas.

(** ** Manifest Fetcher: file names to metadata *)

Module Manifest.

(** The [replacements] dict of [normalize_filename_txt_kf], in insertion
    order (the order in which the loop applies them). *)
Definition replacements : list (pystr * pystr) :=
  Eval vm_compute in
    [ (py "Dugo_Selo", py "Dugo Selo");
      (py "Slavonski_Brod", py "Slavonski Brod");
      (py "Velika_Gorica", py "Velika Gorica");
      (py "Nova_Gradiska", py "Nova Gradiska");
      (py "Zagreb_Blato", py "Zagreb Blato") ].

Definition csv_suffix : pystr := Eval vm_compute in py ".csv".

Definition normalize_filename_txt_kf (x : pystr) : list pystr :=
  let x := strip (removesuffix csv_suffix x) in
  let x := fold_left (fun x '(old, new) => replace old new x) replacements x in
  re_split_underscores x.

(** The dict built by [filename_structure_match_kf]; all six values are
    still text. *)
Record metadata := {
  store_size : pystr;
  address : pystr;
  city : pystr;
  store_id : pystr;
  date : pystr;
  time : pystr
}.

(** [raise ValueError(f"Invalid component structure: {parts}")]: the
    exception carries the token list it was raised for.  [KeyError] is
    what indexing a table by a column it does not have raises. *)
Inductive exn :=
| ValueError (parts : list pystr)
| KeyError (key : pystr).

Definition space : pystr := [32%N].

(** The sequence pattern
    [[hiper_or_super, *address_parts, city, some_number, date, time]]
    binds the first element, the last four, and everything in between to
    the starred name. *)
Definition filename_structure_match_kf (parts : list pystr) : exn + metadata :=
  match parts with
  | hiper_or_super :: rest =>
      match rev rest with
      | t :: d :: some_number :: c :: rev_address_parts =>
          inr {| store_size := hiper_or_super;
                 address := join space (rev rev_address_parts);
                 city := c;
                 store_id := some_number;
                 date := d;
                 time := t |}
      | _ => inl (ValueError parts)
      end
  | [] => inl (ValueError parts)
  end.

(** One element of the manifest JSON. *)
Record csv_link := { label : pystr; path : pystr }.

(** One row of [df_url]: the metadata with [date] and [store_id] typed,
    and the absolute address of the file.  [e_date = None] is NaT. *)
Record entry := {
  e_store_size : pystr;
  e_address : pystr;
  e_city : pystr;
  e_store_id : Z;
  e_date : option Pandas.date;
  e_time : pystr;
  e_url : pystr
}.

Definition host : pystr := Eval vm_compute in py "https://www.kaufland.hr".

(** The [metadata.assign(url=..., date=..., store_id=...)] step on one
    row.  [None]: one of the two conversions raises, or the text is
    outside the forms modelled in [Pandas]. *)
Definition assign (m : metadata) (item_path : pystr) : option entry :=
  match to_datetime_dmY (date m), to_numeric_text (store_id m) with
  | Raises, _ | _, None => None
  | parsed_date, Some q =>
      match astype_Int16 q with
      | Some id =>
          Some {| e_store_size := store_size m;
                  e_address := address m;
                  e_city := city m;
                  e_store_id := id;
                  e_date := match parsed_date with
                            | Timestamp d => Some d
                            | _ => None
                            end;
                  e_time := time m;
                  e_url := host ++ item_path |}
      | None => None
      end
  end.

(** The list comprehension over the labels: the first label that does
    not match raises, and no table is built. *)
Fixpoint match_all (names : list (list pystr)) : exn + list metadata :=
  match names with
  | [] => inr []
  | nf :: rest =>
      match filename_structure_match_kf nf with
      | inl e => inl e
      | inr m =>
          match match_all rest with
          | inl e => inl e
          | inr ms => inr (m :: ms)
          end
      end
  end.

Fixpoint assign_all (rows : list (metadata * pystr)) : option (list entry) :=
  match rows with
  | [] => Some []
  | (m, p) :: rest =>
      match assign m p, assign_all rest with
      | Some e, Some es => Some (e :: es)
      | _, _ => None
      end
  end.

Definition date_column : pystr := Eval vm_compute in py "date".

(** [fetch_stores_dates], from the decoded manifest on.  A table built
    from no rows has no columns, so that [metadata["date"]] raises. *)
Definition fetch_stores_dates (csv_links : list csv_link)
  : exn + option (list entry) :=
  let filenames := List.map label csv_links in
  let normalized_filenames := List.map normalize_filename_txt_kf filenames in
  match match_all normalized_filenames with
  | inl e => inl e
  | inr [] => inl (KeyError date_column)
  | inr metadata => inr (assign_all (combine metadata (List.map path csv_links)))
  end.

End Manifest.



(** ** CSV Loader *)

Module Loader.

Inductive encoding := utf_8 | windows_1250.

Inductive column_type := as_str.

(** The keyword arguments of one [pd.read_csv] call. *)
Record read_csv_call := {
  filepath : pystr;
  delimiter : pystr;
  decimal : pystr;
  enc : encoding;
  dtype : list (pystr * column_type)
}.

(** What a call can raise, by the handlers that tell them apart:
    [UnicodeDecodeError]; any other subclass of [Exception]; and what
    is a [BaseException] only (an interrupt, an exit). *)
Inductive exn :=
| UnicodeDecodeError (msg : pystr)
| OtherException (msg : pystr)
| NonException (msg : pystr).

Definition is_Exception (e : exn) : bool :=
  match e with NonException _ => false | _ => true end.

Definition str_of (e : exn) : pystr :=
  match e with
  | UnicodeDecodeError m | OtherException m | NonException m => m
  end.

(** What the function does that can be observed: the reads it attempts
    and the lines it prints, in order. *)
Inductive event := Read (c : read_csv_call) | Print (line : pystr).

Inductive outcome (DataFrame : Type) :=
| Return (df : option DataFrame)
| Raise (e : exn).
Arguments Return {DataFrame} df.
Arguments Raise {DataFrame} e.

Definition tab : pystr := [9%N].
Definition comma_text : pystr := [44%N].
Definition best_price_header : pystr :=
  Eval vm_compute in py "Najniža MPC u 30dana".

Definition call (filename : pystr) (e : encoding) : read_csv_call :=
  {| filepath := filename; delimiter := tab; decimal := comma_text;
     enc := e; dtype := [(best_price_header, as_str)] |}.

Section read_csv_kf.

Variable DataFrame : Type.

(** [pd.read_csv]: a table or an exception, for each call. *)
Variable read_csv : read_csv_call -> exn + DataFrame.

Definition read_csv_kf (filename : pystr)
  : list event * outcome DataFrame :=
  let first := call filename utf_8 in
  match read_csv first with
  | inr df =>
      ([Read first; Print (py "UTF-8   : " ++ filename)], Return (Some df))
  | inl (UnicodeDecodeError _) =>
      let second := call filename windows_1250 in
      match read_csv second with
      | inr df =>
          ([Read first; Read second; Print (py "WIN-1250: " ++ filename)],
           Return (Some df))
      | inl e =>
          if is_Exception e
          then ([Read first; Read second;
                 Print (py "Both encodings failed: " ++ str_of e)],
                Return None)
          else ([Read first; Read second], Raise e)
      end
  | inl e => ([Read first], Raise e)
  end.

End read_csv_kf.

(** The reads a trace holds, in order. *)
Definition attempts (trace : list event) : list read_csv_call :=
  flat_map (fun ev => match ev with Read c => [c] | Print _ => [] end) trace.


End Loader.

(** ** Field Normalizer *)

Module Normalizer.

Definition PRICE_MAP : gmap pystr pystr :=
  list_to_map
    [ (py "maloprod.cijena(EUR)", py "price");
      (py "cijena jed.mj.(EUR)", py "unit_price");
      (py "MPC poseb.oblik prod", py "special_price");
      (py "Najniža MPC u 30dana", py "best_price_30");
      (py "Sidrena cijena", py "anchor_price_date") ].

Definition FIELD_MAP : gmap pystr pystr :=
  list_to_map
    [ (py "naziv proizvoda", py "product_name");
      (py "šifra proizvoda", py "product_id");
      (py "marka proizvoda", py "brand");
      (py "akc.cijena, A=akcija", py "is_akcija");
      (py "jed.mj. (1 KOM/L/KG)", py "jed_mj");
      (py "kol.jed.mj.", py "kol_jed_mj");
      (py "neto količina(KG)", py "quantity");
      (py "jedinica mjere", py "unit");
      (py "barkod", py "barcode");
      (py "WG", py "category") ].

(** [a | b] on dicts: the entries of both, those of [b] winning. *)
Definition dict_or (a b : gmap pystr pystr) : gmap pystr pystr := b ∪ a.

(** A table: its columns in order, each a header and its cells. *)
Definition DataFrame (cell : Type) : Type := list (pystr * list cell).

(** [df.rename(columns=mapper)] *)
Definition rename {cell : Type} (mapper : gmap pystr pystr)
  (df : DataFrame cell) : DataFrame cell :=
  List.map (fun '(header, cells) => (default header (mapper !! header), cells)) df.

(** [df_in.rename(columns=PRICE_MAP | FIELD_MAP)] *)
Definition normalize_fields {cell : Type} (df : DataFrame cell)
  : DataFrame cell :=
  rename (dict_or PRICE_MAP FIELD_MAP) df.

End Normalizer.

(** ** binary64 cells *)

Module B64.

Definition prec : Z := 53.
Definition emax : Z := 1024.

Abbreviation float := spec_float.

Definition sub : float -> float -> float := SFsub prec emax.
Definition div : float -> float -> float := SFdiv prec emax.
Definition leb : float -> float -> bool := SFleb.

(** The binary64 value nearest to the integer [z]. *)
Definition of_Z (z : Z) : float := binary_normalize prec emax z 0 false.

(** The literal [m / 10^k], for [m] and [10^k] that binary64 holds
    exactly: one correctly rounded division. *)
Definition decimal (m : Z) (k : Z) : float := div (of_Z m) (of_Z (10 ^ k)).

Definition is_nan (x : float) : bool :=
  match x with S754_nan => true | _ => false end.

Definition is_zero (x : float) : bool :=
  match x with S754_zero _ => true | _ => false end.

(** Neither NaN nor an infinity. *)
Definition is_finite (x : float) : bool :=
  match x with S754_zero _ | S754_finite _ _ _ => true | _ => false end.

Definition sign (x : float) : bool :=
  match x with
  | S754_zero s | S754_infinity s | S754_finite s _ _ => s
  | S754_nan => false
  end.

End B64.

(** ** Tidy Transform *)

Module Tidy.

(** The scalars a cell of an object column can hold. *)
Inductive pyval :=
| PyNone
| PdNA
| PyFloat (f : B64.float)
| PyInt (z : Z)
| PyStr (s : pystr).

(** [pd.isna(x)] on a scalar. *)
Definition isna (x : pyval) : bool :=
  match x with
  | PyNone | PdNA => true
  | PyFloat f => B64.is_nan f
  | PyInt _ | PyStr _ => false
  end.

Definition comma_text : pystr := [Pandas.comma].
Definition dot_text : pystr := [Pandas.dot].

Definition replace_with_dot_if_number (x : pyval) : pyval :=
  if isna x then PdNA
  else
    match x with
    | PyStr s =>
        if (List.length s =? 0)%nat then PdNA
        else PyStr (replace comma_text dot_text s)
    | _ => x
    end.

Definition equals_sign : N := 61.

Definition warn_missing : pystr :=
  Eval vm_compute in py "Encountered missing value".

Definition warn_equals (s : pystr) : pystr :=
  py "No or multiple '=' found in: " ++ s.

Inductive exn := AttributeError.

(** What a call leaves behind: the warnings logged, and either the two
    values of the returned [pd.Series] or the exception raised. *)
Definition logged (A : Type) : Type := list pystr * (exn + A).

Definition prepare_anchor (s : pyval) : logged (pyval * pyval) :=
  if isna s then ([warn_missing], inr (PdNA, PdNA))
  else
    match s with
    | PyStr s =>
        if negb (count_char equals_sign s =? 1)%nat
        then ([warn_equals s], inr (PdNA, PdNA))
        else
          let '(date, price) := split_first equals_sign s in
          ([], inr (PyStr (strip date), PyStr (strip price)))
    | _ => ([], inl AttributeError)
    end.

(** [df.anchor_price_date.apply(prepare_anchor)]: one call per row, in
    order; the rows of the result are the rows of the column. *)
Fixpoint apply_prepare_anchor (column : list pyval)
  : logged (list (pyval * pyval)) :=
  match column with
  | [] => ([], inr [])
  | s :: rest =>
      match prepare_anchor s with
      | (w, inl e) => (w, inl e)
      | (w, inr row) =>
          match apply_prepare_anchor rest with
          | (w', inl e) => (w ++ w', inl e)
          | (w', inr rows) => (w ++ w', inr (row :: rows))
          end
      end
  end.

(** A method of the [.str] accessor on one cell: text is transformed,
    anything else becomes missing. *)
Definition str_method (f : pystr -> pystr) (x : pyval) : pyval :=
  match x with
  | PyStr s => PyStr (f s)
  | _ => PdNA
  end.

Definition MPC : pystr := Eval vm_compute in py "MPC".
Definition euro : pystr := Eval vm_compute in py "€".
Definition euro_ur : pystr := Eval vm_compute in py "€ur".

(** A cell of [anchor_date]: [None] is NaT. *)
Definition anchor_date (date_to_parse : pyval) : option Pandas.date :=
  match str_method strip (str_method (removeprefix MPC) date_to_parse) with
  | PyStr s => to_datetime_dayfirst s
  | _ => None
  end.

(** The text handed to [pd.to_numeric] for a cell of [anchor_price]. *)
Definition anchor_price_text (price_to_parse : pyval) : pyval :=
  replace_with_dot_if_number
    (str_method (removesuffix euro_ur)
       (str_method (removesuffix euro) price_to_parse)).

(** A numeric cell: a number read from text (here the exact value of
    the numeral, before it is rounded to binary64), a number that was
    one already, a missing value, or text that is no plain decimal
    numeral, for which [pd.to_numeric] raises or follows a rule outside
    this model. *)
Inductive numeric :=
| Num (q : Q)
| Float (f : B64.float)
| Missing
| NotDecimal.

(** [pd.to_numeric] on one cell. *)
Definition to_numeric (x : pyval) : numeric :=
  match x with
  | PyStr s =>
      match s with
      | [] => Missing
      | _ :: _ =>
          match to_numeric_text s with
          | Some q => Num q
          | None => NotDecimal
          end
      end
  | PyInt z => Num (inject_Z z)
  | PyFloat f => if B64.is_nan f then Missing else Float f
  | PyNone | PdNA => Missing
  end.

Definition anchor_price (price_to_parse : pyval) : numeric :=
  to_numeric (anchor_price_text price_to_parse).

(** The anchor fields of one row, from its [anchor_price_date] cell. *)
Definition anchor_fields (cell : pyval)
  : logged (option Pandas.date * numeric) :=
  match prepare_anchor cell with
  | (w, inl e) => (w, inl e)
  | (w, inr (date_to_parse, price_to_parse)) =>
      (w, inr (anchor_date date_to_parse, anchor_price price_to_parse))
  end.

(** A cell of [price_anchor_diff]:
    [(df["price"] - df["anchor_price"]) / df["anchor_price"]] on two
    float cells, where NaN is the missing value. *)
Definition price_anchor_diff (price anchor_price : B64.float) : B64.float :=
  B64.div (B64.sub price anchor_price) anchor_price.

(** *** The promotion flag *)

Definition flag_A : pystr := Eval vm_compute in py "A".
Definition text_1 : pystr := Eval vm_compute in py "1".
Definition text_0 : pystr := Eval vm_compute in py "0".

(** A cell of the flag column as read: text, or [None] for a missing
    value. [Series.replace("A", "1")] rewrites the cells equal to
    ["A"]; [fillna("0")] fills the missing ones. *)
Definition replace_A (x : option pystr) : option pystr :=
  match x with
  | Some s => if PyStr.eqb s flag_A then Some text_1 else Some s
  | None => None
  end.

Definition fillna_0 (x : option pystr) : pystr :=
  match x with Some s => s | None => text_0 end.

Inductive int_dtype := int8 | int16 | int32 | int64.

Definition bits (t : int_dtype) : Z :=
  match t with int8 => 8 | int16 => 16 | int32 => 32 | int64 => 64 end.

Definition fits (t : int_dtype) (z : Z) : bool :=
  (- 2 ^ (bits t - 1) <=? z)%Z && (z <? 2 ^ (bits t - 1))%Z.

(** [downcast="integer"]: the first of the signed integer types, from
    the narrowest, that holds every value. *)
Definition downcast_integer (values : list Z) : option int_dtype :=
  List.find (fun t => forallb (fits t) values) [int8; int16; int32; int64].

(** The integer a filled flag cell is read as; [None] when the text is
    not a plain decimal integer. *)
Definition flag_value (s : pystr) : option Z :=
  match to_numeric_text s with
  | Some q => if (Zpos (Qden q) =? 1)%Z then Some (Qnum q) else None
  | None => None
  end.

Fixpoint flag_values (cells : list pystr) : option (list Z) :=
  match cells with
  | [] => Some []
  | s :: rest =>
      match flag_value s, flag_values rest with
      | Some z, Some zs => Some (z :: zs)
      | _, _ => None
      end
  end.

(** The [is_akcija] column of the tidied table:
    [pd.to_numeric(df["is_akcija"].replace("A", "1").fillna("0"),
    downcast="integer")], for a column whose cells all read as
    integers. *)
Definition is_akcija (column : list (option pystr))
  : option (int_dtype * list Z) :=
  match flag_values (List.map (fun x => fillna_0 (replace_A x)) column) with
  | Some values =>
      match downcast_integer values with
      | Some t => Some (t, values)
      | None => None
      end
  | None => None
  end.

End Tidy.

(** ** Watch-list Filters *)

Module Filters.

Local Open Scope N_scope.

Definition is_lower (p : N) : bool := (97 <=? p) && (p <=? 122).

(** A literal code point [p] of a pattern compiled with [case=False]
    matches [c]: [c] is [p] itself or, for a lower-case ASCII letter,
    a code point whose lower case is [p] or that Unicode pairs with
    [p]: the capital, and for [i], [k], [s] the dotted capital I, the
    dotless i, the Kelvin sign and the long s. *)
Definition ci_matches (p c : N) : bool :=
  (c =? p)
  || (is_lower p
      && ((c =? p - 32)
          || ((p =? 105) && ((c =? 304) || (c =? 305)))
          || ((p =? 107) && (c =? 8490))
          || ((p =? 115) && (c =? 383)))).

(** The literal [pat] matches at the start of [s]. *)
Fixpoint matches_here (pat s : pystr) : bool :=
  match pat, s with
  | [], _ => true
  | _ :: _, [] => false
  | p :: pat', c :: s' => ci_matches p c && matches_here pat' s'
  end.

(** [re.search] of an alternation of literals, ignoring case. *)
Fixpoint search (alternatives : list pystr) (s : pystr) : bool :=
  existsb (fun pat => matches_here pat s) alternatives
  || match s with
     | [] => false
     | _ :: s' => search alternatives s'
     end.

(** ["halloumi|parmi|pecorino|padano"] *)
Definition cheese_names : list pystr :=
  Eval vm_compute in
    [py "halloumi"; py "parmi"; py "pecorino"; py "padano"].

(** The columns of the tidied table that [FILT_SIR] reads; [None] is a
    missing value. *)
Record row := {
  product_name : option pystr;
  quantity : option B64.float
}.

(** [&] on nullable booleans. *)
Definition and_kleene (a b : option bool) : option bool :=
  match a, b with
  | Some false, _ | _, Some false => Some false
  | Some true, Some true => Some true
  | _, _ => None
  end.

(** The literal [.2] *)
Definition point_2 : B64.float := Eval vm_compute in B64.decimal 2 1.

(** One element of the mask [FILT_SIR] returns. *)
Definition FILT_SIR (r : row) : option bool :=
  and_kleene
    (option_map (search cheese_names) (product_name r))
    (option_map (fun q => B64.leb point_2 q) (quantity r)).

(** [df[mask]] keeps the rows whose mask element is [True]. *)
Definition selects (mask : option bool) : bool :=
  match mask with Some true => true | _ => false end.

End Filters.


(** ** Notions the stated properties use *)

Module Stated.

(** The ASCII digit for [v], for [0 <= v <= 9]. *)
Definition digit_char (v : Z) : N := Z.to_N (48 + v).

Definition two_digits (v : Z) : pystr :=
  [digit_char (v / 10); digit_char (v mod 10)].

Definition four_digits (v : Z) : pystr :=
  [digit_char (v / 1000); digit_char (v / 100 mod 10);
   digit_char (v / 10 mod 10); digit_char (v mod 10)].

(** A date written as [DDMMYYYY]. *)
Definition DDMMYYYY (d : Pandas.date) : pystr :=
  two_digits (day d) ++ two_digits (month d) ++ four_digits (year d).

(** Every token but the last is non-empty. *)
Fixpoint nonempty_but_last (l : list pystr) : Prop :=
  match l with
  | [] => True
  | t :: rest =>
      match rest with
      | [] => True
      | _ :: _ => t <> [] /\ nonempty_but_last rest
      end
  end.

(** [name] contains [pat], ignoring case: some stretch of [name] matches
    [pat] code point by code point. *)
Definition contains_ignoring_case (pat name : pystr) : Prop :=
  exists l m r,
    name = l ++ m ++ r /\ Forall2 (fun p c => Filters.ci_matches p c = true) pat m.

(** Neither the first nor the last code point is white space. *)
Definition trimmed (t : pystr) : Prop :=
  match t with c :: _ => isspace c = false | [] => True end
  /\ match rev t with c :: _ => isspace c = false | [] => True end.

(** A cell that is text or a missing value. *)
Definition text_or_missing (x : Tidy.pyval) : Prop :=
  Tidy.isna x = true \/ exists s, x = Tidy.PyStr s.

(** What replacing comma by dot does to one code point. *)
Definition comma_to_dot (c : N) : N :=
  if (c =? Pandas.comma)%N then Pandas.dot else c.

(** The code points a decimal numeral with separator [sep] is made of. *)
Definition numeral_char (sep c : N) : Prop :=
  isdigit c = true \/ c = sep \/ c = Pandas.minus \/ c = Pandas.plus.

End Stated.

Import Manifest Loader Normalizer Tidy Filters Stated.

(** ** Source Locator *)

Module Locator.

Local Open Scope N_scope.

(** What [requests.get] hands back, as far as the script reads it. *)
Record response := { status_code : Z; text : pystr }.

Inductive exn :=
| RequestException (msg : pystr)
| HTTPError (status : Z).

(** [response.raise_for_status()]: client and server error codes
    raise. *)
Definition raise_for_status (r : response) : option exn :=
  if ((400 <=? status_code r) && (status_code r <? 600))%Z
  then Some (HTTPError (status_code r)) else None.

Definition asset_prefix : pystr := Eval vm_compute in py "assetList_".
Definition json_suffix : pystr := Eval vm_compute in py ".json".
Definition not_found_line : pystr :=
  Eval vm_compute in py "File pattern not found in static HTML.".

(** [BASE_URL] *)
Definition BASE_URL : pystr :=
  Eval vm_compute in py "https://www.kaufland.hr/akcije-novosti/popis-mpc.html".

(** A double or a single quote. *)
Definition is_quote (c : N) : bool := (c =? 34) || (c =? 39).

Section Search.

(** The class [\d]: the decimal digits of Unicode. *)
Variable decimal : N -> bool.

(** The longest run of [\d] at the start of [s], and what follows. *)
Fixpoint take_decimal (s : pystr) : pystr * pystr :=
  match s with
  | [] => ([], [])
  | c :: s' =>
      if decimal c then let '(ds, r) := take_decimal s' in (c :: ds, r)
      else ([], s)
  end.

(** [assetList_(\d+)\.json] at the start of [s]: the group. *)
Definition core_at (s : pystr) : option pystr :=
  if startswith asset_prefix s then
    let '(ds, r) := take_decimal (skipn (List.length asset_prefix) s) in
    if Pandas.nonempty ds && startswith json_suffix r then Some ds else None
  else None.

(** The whole pattern at the start of [s]: the optional quote is tried
    first, and given up when the rest does not match after it; the
    optional quote at the end takes part in no decision. *)
Definition match_at (s : pystr) : option pystr :=
  match s with
  | c :: s' =>
      if is_quote c then
        match core_at s' with
        | Some d => Some d
        | None => core_at s
        end
      else core_at s
  | [] => core_at s
  end.

(** [re.search(...)] followed by [match.group(1)]: the first position,
    from the left, at which the pattern matches. *)
Fixpoint search_group (s : pystr) : option pystr :=
  match match_at s with
  | Some d => Some d
  | None =>
      match s with
      | [] => None
      | _ :: s' => search_group s'
      end
  end.

(** [requests.get]: a response or an exception. *)
Variable get : pystr -> exn + response.

(** The lines printed, and what is returned or raised. *)
Definition find_assetlist_url_static (base_url : pystr)
  : list pystr * (exn + option pystr) :=
  match get base_url with
  | inl e => ([], inl e)
  | inr response =>
      match raise_for_status response with
      | Some e => ([], inl e)
      | None =>
          let html_content := text response in
          match search_group html_content with
          | Some dynamic_number => ([], inr (Some dynamic_number))
          | None => ([not_found_line], inr None)
          end
      end
  end.

End Search.

End Locator.

(** ** Further notions the properties use *)

Module StatedMore.

(** The text [assetList_<d>.json], with [d] one or more digits of the
    class [decimal], stands in [s] right after [pre]. *)
Definition asset_occurrence (decimal : N -> bool) (s pre d : pystr) : Prop :=
  d <> [] /\ Forall (fun c => decimal c = true) d
  /\ exists post,
       s = pre ++ Locator.asset_prefix ++ d ++ Locator.json_suffix ++ post.

(** [old] stands somewhere in [s]. *)
Definition occurs (old s : pystr) : Prop := exists l r, s = l ++ old ++ r.

(** The header a column has after the Field Normalizer. *)
Definition new_header (header : pystr) : pystr :=
  default header (dict_or PRICE_MAP FIELD_MAP !! header).

(** [name] is one of the names the two tables give. *)
Definition is_target_name (name : pystr) : Prop :=
  exists source, dict_or PRICE_MAP FIELD_MAP !! source = Some name.

End StatedMore.

Import Locator StatedMore.

(** ** The script's main block: choosing and loading today's file *)

Module Main.

Record KauflandStore := { id : Z; adresa : pystr }.

Definition KF_ZD : KauflandStore :=
  {| id := 2030; adresa := py "Andrije Hebranga 2" |}.

Definition date_eqb (a b : Pandas.date) : bool :=
  ((year a =? year b) && (month a =? month b) && (day a =? day b))%Z.

(** One element of the mask
    [(df_url["date"] == TODAY) & (df_url["store_id"] == KF_ZD.id)];
    a missing date equals nothing. *)
Definition todays_file (TODAY : Pandas.date) (e : entry) : bool :=
  match e_date e with
  | Some d => date_eqb d TODAY
  | None => false
  end
  && (e_store_id e =? id KF_ZD)%Z.

(** [Series.squeeze()]: a Series of one element becomes that element,
    any other stays a Series. *)
Inductive squeezed := Scalar (x : pystr) | Series (xs : list pystr).

Definition squeeze (xs : list pystr) : squeezed :=
  match xs with
  | [x] => Scalar x
  | _ => Series xs
  end.

Definition url_filtered (TODAY : Pandas.date) (df_url : list entry) : squeezed :=
  squeeze (List.map e_url (List.filter (todays_file TODAY) df_url)).

(** [None.rename(...)] raises [AttributeError]; what the loader raises
    goes through. *)
Inductive exn := Raised (e : Loader.exn) | AttributeError.

(** [df_in = read_csv_kf(url_filtered)] followed by
    [df_in = df_in.rename(columns=PRICE_MAP | FIELD_MAP)], for an address
    that is one string. *)
Definition load_and_rename {cell : Type}
  (read_csv : read_csv_call -> Loader.exn + DataFrame cell) (url : pystr)
  : list event * (exn + DataFrame cell) :=
  match read_csv_kf (DataFrame cell) read_csv url with
  | (trace, Return (Some df_in)) => (trace, inr (normalize_fields df_in))
  | (trace, Return None) => (trace, inl AttributeError)
  | (trace, Raise e) => (trace, inl (Raised e))
  end.

End Main.

(** ** Tidy Transform: the best price of the last 30 days *)

Module BestPrice.

Local Open Scope N_scope.

Section Sanitize.

(** The class [\d]: the decimal digits of Unicode. *)
Variable decimal : N -> bool.

(** A code point the class [[^\d\.\,\-]] does not match. *)
Definition kept (c : N) : bool :=
  decimal c || (c =? Pandas.dot) || (c =? Pandas.comma) || (c =? Pandas.minus).

(** [re.sub(r"[^\d\.\,\-]", "", s)] *)
Definition sanitize (s : pystr) : pystr := List.filter kept s.

(** [pd.to_numeric(_, errors="coerce")] on one cell of sanitized text or
    a missing value: what cannot be read becomes missing.  Sanitized
    text holds digits, dots, commas and minus signs only, and of such
    text [pd.to_numeric] reads the plain decimal numerals written with
    ASCII digits and nothing else. *)
Definition to_numeric_coerce (x : pyval) : numeric :=
  match to_numeric x with
  | NotDecimal => Missing
  | n => n
  end.

(** A cell of [best_price_30] after [tidy]. *)
Definition best_price_30 (cell : pyval) : numeric :=
  to_numeric_coerce (str_method sanitize cell).

End Sanitize.

End BestPrice.

(** ** More notions the properties use *)

Module StatedTidy.

(** A date written as [DD.MM.YYYY]. *)
Definition DD_MM_YYYY (d : Pandas.date) : pystr :=
  two_digits (day d) ++ [Pandas.dot] ++ two_digits (month d) ++ [Pandas.dot]
  ++ four_digits (year d).

(** The cell [MPC <date>=<price><space>€]. *)
Definition anchor_cell (d : Pandas.date) (price space_after : pystr) : pystr :=
  (Tidy.MPC ++ [32%N] ++ DD_MM_YYYY d)
  ++ Tidy.equals_sign :: (price ++ space_after) ++ Tidy.euro.

(** A cell for which [prepare_anchor] logs a warning. *)
Definition malformed (x : pyval) : bool :=
  isna x
  || match x with
     | PyStr s => negb (count_char Tidy.equals_sign s =? 1)%nat
     | _ => false
     end.

End StatedTidy.

Import BestPrice StatedTidy.

(** ** Regular expressions of the watch-list

    The patterns handed to [str.contains] use three things beyond plain
    code points: [|] between alternatives, [.] for any code point but a
    line feed, and a backslash before a code point meant literally. *)

Module Regex.

Local Open Scope N_scope.

Inductive atom := Lit (c : N) | AnyChar.

Definition bar : N := 124.
Definition backslash : N := 92.
Definition line_feed : N := 10.

(** The alternatives of a pattern, each a sequence of atoms; [cur] is
    the alternative being read, reversed. *)
Fixpoint compile_from (cur : list atom) (s : pystr) : list (list atom) :=
  match s with
  | [] => [rev cur]
  | c :: s' =>
      if c =? bar then rev cur :: compile_from [] s'
      else if c =? Pandas.dot then compile_from (AnyChar :: cur) s'
      else if c =? backslash then
        match s' with
        | e :: s'' => compile_from (Lit e :: cur) s''
        | [] => [rev (Lit c :: cur)]
        end
      else compile_from (Lit c :: cur) s'
  end.

Definition compile (pattern : pystr) : list (list atom) :=
  compile_from [] pattern.

Definition lower_ascii (p : N) : N :=
  if (65 <=? p) && (p <=? 90) then p + 32 else p.

(** A literal [p] of a pattern compiled with [case=False] matches [c],
    for the letters the script's patterns hold: the ASCII letters in
    either case, and the small letters s and c with caron, each of which
    also matches its capital. *)
Definition ci_literal (p c : N) : bool :=
  Filters.ci_matches (lower_ascii p) c
  || ((p =? 353) && (c =? 352))
  || ((p =? 269) && (c =? 268)).

Definition atom_matches (ignore_case : bool) (a : atom) (c : N) : bool :=
  match a with
  | AnyChar => negb (c =? line_feed)
  | Lit p => if ignore_case then ci_literal p c else c =? p
  end.

(** The sequence of atoms matches at the start of [s]. *)
Fixpoint atoms_here (ignore_case : bool) (atoms : list atom) (s : pystr) : bool :=
  match atoms, s with
  | [], _ => true
  | _ :: _, [] => false
  | a :: atoms', c :: s' =>
      atom_matches ignore_case a c && atoms_here ignore_case atoms' s'
  end.

(** Some alternative matches somewhere in [s]. *)
Fixpoint search_atoms (ignore_case : bool) (alternatives : list (list atom))
  (s : pystr) : bool :=
  existsb (fun atoms => atoms_here ignore_case atoms s) alternatives
  || match s with
     | [] => false
     | _ :: s' => search_atoms ignore_case alternatives s'
     end.

(** [bool(re.search(pattern, s))], with [re.IGNORECASE] or without. *)
Definition contains (ignore_case : bool) (pattern s : pystr) : bool :=
  search_atoms ignore_case (compile pattern) s.

End Regex.

(** ** Watch-list Filters: favourites, wheat beer, and the three together *)

Module Watchlist.

(** The columns of the tidied table that the three filters read; [None]
    is a missing value. *)
Record row := {
  name : option pystr;
  brand : option pystr;
  qty : option B64.float
}.

(** [|] on nullable booleans. *)
Definition or_kleene (a b : option bool) : option bool :=
  match a, b with
  | Some true, _ | _, Some true => Some true
  | Some false, Some false => Some false
  | _, _ => None
  end.

Definition point_15 : B64.float := Eval vm_compute in B64.decimal 15 2.
Definition point_5 : B64.float := Eval vm_compute in B64.decimal 5 1.

Definition gt (q : option B64.float) (bound : B64.float) : option bool :=
  option_map (fun x => SFltb bound x) q.

Definition ge (q : option B64.float) (bound : B64.float) : option bool :=
  option_map (fun x => SFleb bound x) q.

(** [column.str.contains(pattern)] and [column.str.startswith(prefix)]
    on one cell. *)
Definition str_contains (cell : option pystr) (pattern : string) : option bool :=
  option_map (Regex.contains false (py pattern)) cell.

Definition str_startswith (cell : option pystr) (prefix : string) : option bool :=
  option_map (startswith (py prefix)) cell.

Declare Scope kleene_scope.
Delimit Scope kleene_scope with kleene.
Infix "&&&" := Filters.and_kleene (at level 40, left associativity) : kleene_scope.
Infix "|||" := or_kleene (at level 50, left associativity) : kleene_scope.
Local Open Scope kleene_scope.

(** One element of the mask [FILT_FAVORITES] returns. *)
Definition FILT_FAVORITES (df : row) : option bool :=
  let product_name := name df in
  let brand := brand df in
  let quantity := qty df in
  str_contains product_name "PILSNER U" &&& str_contains product_name "PB|4X" |||
  str_contains product_name "GARDEN" &&& str_contains product_name "%" |||
  str_contains product_name "ARBORIO|CARNAROLI|ORIGINARIO" &&& str_contains brand "Riso Scotti" |||
  str_contains product_name "TOFU" |||
  str_contains product_name "TJESTENINA" &&& str_startswith brand "K-Fav" |||
  str_contains product_name "KFAV.FARFALLE|KFAV.LINGUINE" |||
  str_contains product_name "MOLISANA" |||
  str_startswith product_name "KVEG" &&& str_contains product_name "NAPITAK ZOB" |||
  str_contains product_name "PROSENA KAŠA" |||
  str_contains product_name "KAVA" &&& str_contains product_name "ZRN" &&& str_contains product_name "BRAS" |||
  str_contains product_name "OCTENA ESENCIJA" |||
  str_contains product_name "INDOMIE" &&& str_contains product_name "POVRĆE" |||
  str_contains product_name "HUMUS|HUMMUS" &&& gt quantity point_15 |||
  str_contains product_name "RICE UP" |||
  str_contains product_name "KLC.LEĆA" |||
  str_contains product_name "TORTERIE" |||
  str_contains product_name "BARATTOLINO" |||
  str_contains product_name "MASLAC" &&& str_contains product_name "DUKAT|BREGOV" &&& gt quantity Filters.point_2 |||
  str_contains product_name "KLC.BIO PAP.VREĆA ZA SMEĆE" |||
  str_contains product_name "KLC.DETERDŽENT ZA PRA. POSU.U PRAHU" |||
  str_contains product_name "KH-7" |||
  str_contains product_name "VEDRINI" |||
  str_contains product_name "KFAV.ČOKOLADA TAMNA" |||
  str_contains product_name "ECOVER" &&& str_contains product_name "UNI" |||
  str_contains product_name "YOGI ČAJ CLASSIC" |||
  str_contains product_name "TORTILL" &&& str_contains brand "K-" |||
  str_contains product_name "TORTILL" &&& str_contains brand "Fiesta" |||
  str_contains product_name "PANETTONE" &&& ge quantity point_5 |||
  str_contains product_name "ELEPHANT SLANO PECIVO SEZAM" &&& gt quantity point_15 |||
  str_contains product_name "ELEPHANT KREKERI TWIST KARAMEL" &&& gt quantity point_15.

Definition weizen_pattern : pystr :=
  Eval vm_compute in
    py "maisels|Krombacher Pivo Weizen|franziskaner|Benediktiner Pivo pše\.|Benediktiner pšenično pivo|Erdinger Pivo svj\.|Erdinger Pivo svjet\.".

(** One element of the mask [FILT_WEIZEN] returns. *)
Definition FILT_WEIZEN (df : row) : option bool :=
  option_map (Regex.contains true weizen_pattern) (name df).

(** [FILT_SIR] on the same row. *)
Definition FILT_SIR (df : row) : option bool :=
  Filters.FILT_SIR {| Filters.product_name := name df; Filters.quantity := qty df |}.

(** One element of the mask in
    [df[(FILT_WEIZEN(df) | FILT_FAVORITES(df) | FILT_SIR(df))]]. *)
Definition report_mask (df : row) : option bool :=
  (FILT_WEIZEN df ||| FILT_FAVORITES df ||| FILT_SIR df)%kleene.

End Watchlist.

(** ** Notions the watch-list properties use *)

Module StatedFilters.

(** Some stretch of [s] matches one alternative of [pattern], atom by
    atom. *)
Definition matches_somewhere (ignore_case : bool) (pattern s : pystr) : Prop :=
  exists atoms l m r,
    In atoms (Regex.compile pattern)
    /\ s = l ++ m ++ r
    /\ Forall2 (fun a c => Regex.atom_matches ignore_case a c = true) atoms m.

(** The patterns of [FILT_FAVORITES] that stand alone in their rule. *)
Definition standalone_patterns : list string :=
  [ "TOFU"; "KFAV.FARFALLE|KFAV.LINGUINE"; "MOLISANA"; "PROSENA KAŠA";
    "OCTENA ESENCIJA"; "RICE UP"; "KLC.LEĆA"; "TORTERIE"; "BARATTOLINO";
    "KLC.BIO PAP.VREĆA ZA SMEĆE"; "KLC.DETERDŽENT ZA PRA. POSU.U PRAHU";
    "KH-7"; "VEDRINI"; "KFAV.ČOKOLADA TAMNA"; "YOGI ČAJ CLASSIC" ]%string.

(** The texts the wheat-beer pattern looks for. *)
Definition weizen_names : list string :=
  [ "maisels"; "Krombacher Pivo Weizen"; "franziskaner";
    "Benediktiner Pivo pše."; "Benediktiner pšenično pivo";
    "Erdinger Pivo svj."; "Erdinger Pivo svjet." ]%string.

End StatedFilters.

Import Regex StatedFilters.

(** ** Report Renderer: highlighting a row *)

Module Renderer.

(** What the function can raise: the label is not in the row; the label
    is there more than once, so that the comparison gives a Series with
    no truth value; the cell is [pd.NA], whose comparison has no truth
    value either. *)
Inductive exn := KeyError (label : pystr) | ValueError | TypeError.








End Renderer.

(* ===================================================================== *)
(** * Part II: properties                                                 *)
(* ===================================================================== *)

(** ** Text helpers *)

Section TextFacts.

Lemma startswith_app (p s : pystr) : startswith p (p ++ s) = true.
Proof.
  induction p as [|a p IH]; simpl; [reflexivity|].
  rewrite N.eqb_refl, IH. reflexivity.
Qed.

Lemma endswith_app (p s : pystr) : endswith p (s ++ p) = true.
Proof.
  unfold endswith. rewrite rev_app_distr. apply startswith_app.
Qed.

(** What [removesuffix] removes is the suffix. *)
Lemma removesuffix_app (p s : pystr) : removesuffix p (s ++ p) = s.
Proof.
  unfold removesuffix. rewrite endswith_app.
  rewrite List.length_app, Nat.add_sub.
  rewrite firstn_app, Nat.sub_diag, firstn_all. simpl.
  apply app_nil_r.
Qed.

Lemma removesuffix_other (p s : pystr) :
  endswith p s = false -> removesuffix p s = s.
Proof. unfold removesuffix. intros ->. reflexivity. Qed.

End TextFacts.

(** ** Manifest Fetcher *)

Section MatcherFacts.

(** A first token, any number of address tokens and four more: the
    pattern matches and binds them in this order. *)
Lemma match_shape (size : pystr) (addr : list pystr) (c n d t : pystr) :
  filename_structure_match_kf (size :: addr ++ [c; n; d; t])
  = inr {| store_size := size; address := join space addr; city := c;
           store_id := n; date := d; time := t |}.
Proof.
  unfold filename_structure_match_kf.
  rewrite rev_app_distr. simpl. rewrite rev_involutive. reflexivity.
Qed.

(** Five tokens or more always have that shape. *)
Lemma long_shape (parts : list pystr) :
  (5 <= List.length parts)%nat ->
  exists size addr c n d t, parts = size :: addr ++ [c; n; d; t].
Proof.
  intros Hlen. destruct parts as [|size rest]; simpl in Hlen; [lia|].
  exists size.
  rewrite <- (rev_involutive rest).
  assert (Hr : (4 <= List.length (rev rest))%nat) by (rewrite length_rev; lia).
  destruct (rev rest) as [|t [|d [|n [|c front]]]]; simpl in Hr; try lia.
  exists (rev front), c, n, d, t. simpl.
  repeat rewrite <- app_assoc. reflexivity.
Qed.

(** Fewer than five tokens: [ValueError], carrying the token list. *)
Lemma match_short (parts : list pystr) :
  (List.length parts < 5)%nat ->
  filename_structure_match_kf parts = inl (ValueError parts).
Proof.
  intros Hlen. destruct parts as [|size rest]; [reflexivity|].
  unfold filename_structure_match_kf.
  assert (Hr : (List.length (rev rest) < 4)%nat)
    by (rewrite length_rev; simpl in Hlen; lia).
  destruct (rev rest) as [|t [|d [|n [|c front]]]]; simpl in Hr;
    try reflexivity; lia.
Qed.

Lemma match_raises_iff (parts : list pystr) :
  (exists e, filename_structure_match_kf parts = inl e)
  <-> (List.length parts < 5)%nat.
Proof.
  split.
  - intros [e He].
    destruct (Nat.lt_ge_cases (List.length parts) 5) as [Hlt|Hge]; [exact Hlt|].
    destruct (long_shape parts Hge) as (size & addr & c & n & d & t & ->).
    rewrite match_shape in He. discriminate.
  - intros Hlen. exists (ValueError parts). apply match_short, Hlen.
Qed.

End MatcherFacts.

Section TokenFacts.

Lemma split_runs_no_separator (us : N) (s cur : pystr) (in_run : bool) :
  ~ In us cur ->
  Forall (fun tok => ~ In us tok) (split_runs us cur in_run s).
Proof.
  revert cur in_run. induction s as [|c s IH]; intros cur in_run Hcur; simpl.
  - constructor; [|constructor]. rewrite <- in_rev. exact Hcur.
  - destruct (N.eqb_spec c us) as [->|Hne].
    + destruct in_run.
      * apply IH. intros [].
      * constructor; [rewrite <- in_rev; exact Hcur|]. apply IH. intros [].
    + apply IH. intros [Heq|Hin]; [congruence|exact (Hcur Hin)].
Qed.

Lemma split_runs_interior (us : N) (s cur : pystr) (in_run : bool) :
  in_run = true \/ cur <> [] ->
  nonempty_but_last (split_runs us cur in_run s).
Proof.
  revert cur in_run. induction s as [|c s IH]; intros cur in_run H; simpl.
  - exact I.
  - destruct (N.eqb_spec c us) as [->|Hne].
    + destruct in_run.
      * apply IH. left. reflexivity.
      * destruct H as [H|H]; [discriminate|].
        assert (Hrec := IH [] true (or_introl eq_refl)).
        destruct (split_runs us [] true s) as [|t ts] eqn:E.
        { exact I. }
        split; [|exact Hrec].
        intros Hrev. apply H.
        rewrite <- (rev_involutive cur), Hrev. reflexivity.
    + apply IH. right. discriminate.
Qed.

Lemma split_runs_cons (us : N) (s cur : pystr) (in_run : bool) :
  exists t ts, split_runs us cur in_run s = t :: ts.
Proof.
  revert cur in_run. induction s as [|c s IH]; intros cur in_run.
  - exists (rev cur), []. reflexivity.
  - cbn [split_runs]. destruct (c =? us)%N; [destruct in_run|]; eauto.
Qed.

(** [re.split(r'_+', s)] gives at least one token; no token holds an
    underscore; only the first and the last can be empty. *)
Lemma re_split_underscores_tokens (s : pystr) :
  Forall (fun tok => ~ In underscore tok) (re_split_underscores s)
  /\ match re_split_underscores s with
     | [] => False
     | _ :: rest => nonempty_but_last rest
     end.
Proof.
  split.
  - apply split_runs_no_separator. intros [].
  - unfold re_split_underscores. destruct s as [|c s]; [exact I|].
    cbn [split_runs]. destruct (c =? underscore)%N.
    + apply split_runs_interior. left. reflexivity.
    + assert (H : nonempty_but_last (split_runs underscore [c] false s)).
      { apply split_runs_interior. right. discriminate. }
      destruct (split_runs_cons underscore s [c] false) as (t & ts & E).
      rewrite E in *. destruct ts as [|t' ts]; [exact I|]. apply H.
Qed.

End TokenFacts.

(** C10: a list of exactly five tokens matches, with the address the empty
    string, and the matcher raises exactly for the lists of fewer than
    five tokens. *)
Theorem C10_five_tokens_empty_address :
  (forall size c n d t : pystr,
      filename_structure_match_kf [size; c; n; d; t]
      = inr {| store_size := size; address := []; city := c;
               store_id := n; date := d; time := t |})
  /\ (forall parts : list pystr,
        (exists e, filename_structure_match_kf parts = inl e)
        <-> (List.length parts < 5)%nat).
Proof.
  split.
  - intros size c n d t. exact (match_shape size [] c n d t).
  - exact match_raises_iff.
Qed.

Section DateFacts.

Local Open Scope Z_scope.

Lemma isdigit_digit_char (v : Z) :
  0 <= v <= 9 -> isdigit (digit_char v) = true.
Proof.
  intros Hv. unfold isdigit, digit_char.
  apply andb_true_intro. split; apply N.leb_le; lia.
Qed.

Lemma digit_val_digit_char (v : Z) : 0 <= v -> digit_val (digit_char v) = v.
Proof. intros Hv. unfold digit_val, digit_char. lia. Qed.

Lemma match_Y_four_digits (y : Z) (rest : pystr) :
  0 <= y <= 9999 -> match_Y (four_digits y ++ rest) = Some (y, rest).
Proof.
  intros Hy. unfold four_digits, match_Y. cbn [app].
  assert (H3 : 0 <= y / 1000 <= 9) by (Z.to_euclidean_division_equations; lia).
  assert (H2 : 0 <= y / 100 mod 10 <= 9) by (Z.to_euclidean_division_equations; lia).
  assert (H1 : 0 <= y / 10 mod 10 <= 9) by (Z.to_euclidean_division_equations; lia).
  assert (H0 : 0 <= y mod 10 <= 9) by (Z.to_euclidean_division_equations; lia).
  rewrite !isdigit_digit_char by assumption. cbn [andb].
  unfold digits_value. cbn [fold_left].
  rewrite !digit_val_digit_char by lia.
  do 2 f_equal. Z.to_euclidean_division_equations; lia.
Qed.

(** A two-digit day is the first alternative [%d] finds. *)
Lemma match_d_two_digits (d : Z) (rest : pystr) :
  1 <= d <= 31 -> exists others, match_d (two_digits d ++ rest) = (d, rest) :: others.
Proof.
  intros Hd.
  destruct d as [|p|p]; try lia.
  do 5 (try (destruct p as [p|p|]; try lia));
    eexists; reflexivity.
Qed.

Lemma match_m_two_digits (m : Z) (rest : pystr) :
  1 <= m <= 12 -> exists others, match_m (two_digits m ++ rest) = (m, rest) :: others.
Proof.
  intros Hm.
  destruct m as [|p|p]; try lia.
  do 4 (try (destruct p as [p|p|]; try lia));
    eexists; reflexivity.
Qed.

Lemma valid_date_bounds (y m d : Z) :
  valid_date y m d = true ->
  1 <= y <= 9999 /\ 1 <= m <= 12 /\ 1 <= d <= 31.
Proof.
  unfold valid_date, days_in_month. intros H.
  repeat (apply andb_prop in H; destruct H as [H ?]).
  destruct (m =? 2); [destruct (is_leap y)|];
    [| |destruct ((m =? 4) || (m =? 6) || (m =? 9) || (m =? 11))%bool]; lia.
Qed.

(** Reading [DDMMYYYY] gives back the date written. *)
Lemma to_datetime_dmY_DDMMYYYY (dt : Pandas.date) :
  valid_date (year dt) (month dt) (day dt) = true ->
  to_datetime_dmY (DDMMYYYY dt) = Timestamp dt.
Proof.
  intros Hvalid. destruct dt as [y m d]. cbn [year month day] in *.
  destruct (valid_date_bounds _ _ _ Hvalid) as (Hy & Hm & Hd).
  unfold to_datetime_dmY.
  assert (Hnat : existsb (PyStr.eqb (DDMMYYYY {| year := y; month := m; day := d |}))
                   nat_strings = false).
  { unfold nat_strings. cbn [existsb]. unfold PyStr.eqb.
    repeat (rewrite bool_decide_eq_false_2;
            [|intros E; apply (f_equal (@List.length N)) in E; discriminate E]).
    reflexivity. }
  rewrite Hnat. cbn [nonempty DDMMYYYY two_digits app andb negb year month day].
  change (digit_char (d / 10) :: digit_char (d mod 10)
            :: digit_char (m / 10) :: digit_char (m mod 10) :: four_digits y)
    with (two_digits d ++ two_digits m ++ four_digits y).
  unfold match_dmY.
  destruct (match_d_two_digits d (two_digits m ++ four_digits y) Hd) as [od ->].
  cbn [first_some fold_right].
  destruct (match_m_two_digits m (four_digits y) Hm) as [om ->].
  cbn [first_some fold_right].
  rewrite <- (app_nil_r (four_digits y)).
  rewrite match_Y_four_digits by lia.
  rewrite Hvalid. reflexivity.
Qed.

Lemma astype_Int16_range (q : Q) (z : Z) :
  astype_Int16 q = Some z -> -32768 <= z <= 32767 /\ Qeq q (inject_Z z).
Proof.
  unfold astype_Int16. intros H.
  destruct (Z.eqb_spec (Zpos (Qden (Qred q))) 1) as [Hden|]; [|discriminate].
  destruct (Z.leb_spec (-32768) (Qnum (Qred q))); [|discriminate].
  destruct (Z.leb_spec (Qnum (Qred q)) 32767); [|discriminate].
  cbn in H. injection H as <-. split; [lia|].
  rewrite <- (Qred_correct q) at 1.
  unfold Qeq. cbn. rewrite Hden. lia.
Qed.

End DateFacts.

Section FetchFacts.

Lemma astype_Int16_of_integer (q : Q) (z : Z) :
  (-32768 <= z <= 32767)%Z -> Qeq q (inject_Z z) -> astype_Int16 q = Some z.
Proof.
  intros Hz Hq. unfold astype_Int16.
  rewrite (Qred_complete _ _ Hq).
  assert (E : Qred (inject_Z z) = inject_Z z).
  { apply Qcanon.Qred_identity. apply Z.gcd_1_r. }
  rewrite E. cbn [inject_Z Qden Qnum].
  destruct (Z.leb_spec (-32768) z); [|lia].
  destruct (Z.leb_spec z 32767); [|lia]. reflexivity.
Qed.

(** The typed row: the date is the one written as [DDMMYYYY], the store
    id the integer the token denotes, the address of the file the host
    followed by the path. *)
Lemma assign_typed (m : metadata) (p : pystr) (dt : Pandas.date) (q : Q) (id : Z) :
  valid_date (year dt) (month dt) (day dt) = true ->
  date m = DDMMYYYY dt ->
  to_numeric_text (store_id m) = Some q ->
  Qeq q (inject_Z id) ->
  (-32768 <= id <= 32767)%Z ->
  assign m p
  = Some {| e_store_size := store_size m; e_address := address m;
            e_city := city m; e_store_id := id; e_date := Some dt;
            e_time := time m; e_url := host ++ p |}.
Proof.
  intros Hvalid Hdate Hnum Hq Hid. unfold assign.
  rewrite Hdate, (to_datetime_dmY_DDMMYYYY dt Hvalid), Hnum.
  rewrite (astype_Int16_of_integer q id Hid Hq). reflexivity.
Qed.

Lemma assign_store_id_16_bit (m : metadata) (p : pystr) (e : entry) :
  assign m p = Some e ->
  (-32768 <= e_store_id e <= 32767)%Z
  /\ exists q, to_numeric_text (store_id m) = Some q
               /\ Qeq q (inject_Z (e_store_id e)).
Proof.
  unfold assign. intros H.
  destruct (to_numeric_text (store_id m)) as [q|] eqn:Hq.
  - destruct (astype_Int16 q) as [id|] eqn:Hid.
    + apply astype_Int16_range in Hid. destruct Hid as [Hr Heq].
      destruct (to_datetime_dmY (date m)); try discriminate;
        injection H as <-; cbn [e_store_id]; eauto.
    + destruct (to_datetime_dmY (date m)); discriminate.
  - destruct (to_datetime_dmY (date m)); discriminate.
Qed.

Lemma match_all_first_short (pre post : list (list pystr)) (bad : list pystr) :
  Forall (fun nf => 5 <= List.length nf)%nat pre ->
  (List.length bad < 5)%nat ->
  match_all (pre ++ bad :: post) = inl (ValueError bad).
Proof.
  intros Hpre Hbad. induction Hpre as [|nf pre Hnf Hpre IH]; cbn [app match_all].
  - rewrite (match_short bad Hbad). reflexivity.
  - destruct (long_shape nf Hnf) as (size & addr & c & n & d & t & ->).
    rewrite match_shape, IH. reflexivity.
Qed.

(** A label the pattern does not match stops [fetch_stores_dates]. *)
Lemma fetch_stores_dates_fatal (pre post : list csv_link) (bad : csv_link) :
  Forall (fun l => 5 <= List.length (normalize_filename_txt_kf (label l)))%nat pre ->
  (List.length (normalize_filename_txt_kf (label bad)) < 5)%nat ->
  fetch_stores_dates (pre ++ bad :: post)
  = inl (ValueError (normalize_filename_txt_kf (label bad))).
Proof.
  intros Hpre Hbad. unfold fetch_stores_dates.
  rewrite !List.map_app. cbn [List.map].
  rewrite match_all_first_short; [reflexivity| |exact Hbad].
  clear -Hpre. induction Hpre; cbn [List.map]; constructor; assumption.
Qed.

End FetchFacts.

(** C10 at work: four tokens raise, five do not. *)
Lemma C10_five_tokens_empty_address_witness :
  (exists e, filename_structure_match_kf [py "Super"; py "Zadar"; py "2030"; py "05032024"]
             = inl e)
  /\ ~ (exists e, filename_structure_match_kf
                    [py "Super"; py "Zadar"; py "2030"; py "05032024"; py "0700"]
                  = inl e).
Proof.
  split.
  - apply (proj2 C10_five_tokens_empty_address). vm_compute. lia.
  - intros H. apply (proj2 C10_five_tokens_empty_address) in H.
    vm_compute in H. lia.
Defined.

(** C2: the tokens of a label come from splitting on runs of underscores;
    a first token, any address tokens and four more are bound to store
    size, address (joined by spaces), city, store id, date and time, in
    that order; any shorter list raises [ValueError] with the token list,
    which stops the whole fetch; the date is read as DDMMYYYY and the
    store id as a signed 16-bit integer (for the years every timestamp
    type of pandas holds); and the label
    ["Hiper_Ilica_123_Zagreb_2030_01012024_1200.csv"] gives the record the
    specification lists. *)
Theorem C2_manifest_label_parser :
  (forall label : pystr,
      Forall (fun tok => ~ In underscore tok) (normalize_filename_txt_kf label)
      /\ match normalize_filename_txt_kf label with
         | [] => False
         | _ :: rest => nonempty_but_last rest
         end)
  /\ (forall (size : pystr) (addr : list pystr) (c n d t : pystr),
        filename_structure_match_kf (size :: addr ++ [c; n; d; t])
        = inr {| store_size := size; address := join space addr; city := c;
                 store_id := n; date := d; time := t |})
  /\ (forall parts : list pystr,
        (5 <= List.length parts)%nat ->
        exists size addr c n d t, parts = size :: addr ++ [c; n; d; t])
  /\ (forall parts : list pystr,
        (List.length parts < 5)%nat ->
        filename_structure_match_kf parts = inl (ValueError parts))
  /\ (forall (pre post : list csv_link) (bad : csv_link),
        Forall (fun l => 5 <= List.length (normalize_filename_txt_kf (label l)))%nat pre ->
        (List.length (normalize_filename_txt_kf (label bad)) < 5)%nat ->
        fetch_stores_dates (pre ++ bad :: post)
        = inl (ValueError (normalize_filename_txt_kf (label bad))))
  /\ (forall (m : metadata) (p : pystr) (dt : Pandas.date) (q : Q) (id : Z),
        valid_date (year dt) (month dt) (day dt) = true ->
        (1678 <= year dt <= 2261)%Z ->
        date m = DDMMYYYY dt ->
        to_numeric_text (store_id m) = Some q ->
        Qeq q (inject_Z id) ->
        (-32768 <= id <= 32767)%Z ->
        assign m p
        = Some {| e_store_size := store_size m; e_address := address m;
                  e_city := city m; e_store_id := id; e_date := Some dt;
                  e_time := time m; e_url := host ++ p |})
  /\ (forall (m : metadata) (p : pystr) (e : entry),
        assign m p = Some e -> (-32768 <= e_store_id e <= 32767)%Z)
  /\ normalize_filename_txt_kf
       (py "Super_Osjecka__5_Slavonski_Brod_4700_02012024_0700.csv")
     = [py "Super"; py "Osjecka"; py "5"; py "Slavonski Brod"; py "4700";
        py "02012024"; py "0700"]
  /\ fetch_stores_dates
       [ {| label := py "Hiper_Ilica_123_Zagreb_2030_01012024_1200.csv";
            path := py "/prices/Hiper_Ilica_123_Zagreb_2030_01012024_1200.csv" |} ]
     = inr (Some
         [ {| e_store_size := py "Hiper";
              e_address := py "Ilica 123";
              e_city := py "Zagreb";
              e_store_id := 2030;
              e_date := Some {| year := 2024; month := 1; day := 1 |};
              e_time := py "1200";
              e_url := py "https://www.kaufland.hr/prices/Hiper_Ilica_123_Zagreb_2030_01012024_1200.csv" |} ]).
Proof.
  split; [|split; [|split; [|split; [|split; [|split; [|split; [|split]]]]]]].
  - intros label. apply re_split_underscores_tokens.
  - exact match_shape.
  - exact long_shape.
  - exact match_short.
  - exact fetch_stores_dates_fatal.
  - intros m p dt q id Hvalid _. exact (assign_typed m p dt q id Hvalid).
  - intros m p e H. apply (assign_store_id_16_bit m p e H).
  - vm_compute. reflexivity.
  - vm_compute. reflexivity.
Qed.

(** C2 at work: a label with no address part, a short one, and the typed
    row of the first. *)
Lemma C2_manifest_label_parser_witness :
  filename_structure_match_kf
    (normalize_filename_txt_kf (py "Super_Zadar_2030_05032024_0700.csv"))
  = inr {| store_size := py "Super"; address := []; city := py "Zadar";
           store_id := py "2030"; date := py "05032024"; time := py "0700" |}
  /\ filename_structure_match_kf (normalize_filename_txt_kf (py "Zadar_2030.csv"))
     = inl (ValueError [py "Zadar"; py "2030"])
  /\ assign {| store_size := py "Super"; address := []; city := py "Zadar";
               store_id := py "2030"; date := py "05032024"; time := py "0700" |}
            (py "/a.csv")
     = Some {| e_store_size := py "Super"; e_address := []; e_city := py "Zadar";
               e_store_id := 2030;
               e_date := Some {| year := 2024; month := 3; day := 5 |};
               e_time := py "0700"; e_url := host ++ py "/a.csv" |}.
Proof.
  destruct C2_manifest_label_parser
    as (_ & Hshape & _ & Hshort & _ & Htyped & _).
  split; [|split].
  - exact (Hshape (py "Super") [] (py "Zadar") (py "2030") (py "05032024")
             (py "0700")).
  - apply (Hshort (normalize_filename_txt_kf (py "Zadar_2030.csv"))).
    vm_compute. lia.
  - apply (Htyped {| store_size := py "Super"; address := []; city := py "Zadar";
                     store_id := py "2030"; date := py "05032024";
                     time := py "0700" |}
             (py "/a.csv") {| year := 2024; month := 3; day := 5 |}
             (inject_Z 2030) 2030%Z).
    + reflexivity.
    + cbn [year]. lia.
    + vm_compute. reflexivity.
    + vm_compute. reflexivity.
    + reflexivity.
    + lia.
Defined.

(** ** CSV Loader *)

Section LoaderFacts.

Variable DataFrame : Type.
Variable read_csv : read_csv_call -> Loader.exn + DataFrame.




End LoaderFacts.


(** ** Field Normalizer *)

Section NormalizerFacts.

Context {cell : Type}.

Lemma dict_or_lookup (a b : gmap pystr pystr) (k : pystr) :
  dict_or a b !! k
  = match b !! k with Some v => Some v | None => a !! k end.
Proof.
  unfold dict_or. destruct (b !! k) as [v|] eqn:Hb.
  - apply lookup_union_Some_l. exact Hb.
  - apply lookup_union_r. exact Hb.
Qed.

Lemma rename_cells (mapper : gmap pystr pystr) (df : DataFrame cell) :
  List.map snd (rename mapper df) = List.map snd df.
Proof.
  unfold rename. rewrite List.map_map.
  apply List.map_ext. intros [header cells]. reflexivity.
Qed.

Lemma rename_nth (mapper : gmap pystr pystr) (df : DataFrame cell)
      (i : nat) (header : pystr) (cells : list cell) :
  nth_error df i = Some (header, cells) ->
  nth_error (rename mapper df) i
  = Some (default header (mapper !! header), cells).
Proof.
  intros H. unfold rename. rewrite nth_error_map, H. reflexivity.
Qed.

(** C9: renaming by the merged tables touches headers only.  The cells
    of every column, the number of columns and their order stay; a
    header in neither table stays as it is, and a header in one of them
    becomes the name the table gives. *)
Theorem C9_field_normalizer_renames_only (df : DataFrame cell) :
  List.map snd (normalize_fields df) = List.map snd df
  /\ List.length (normalize_fields df) = List.length df
  /\ (forall i header cells,
        nth_error df i = Some (header, cells) ->
        PRICE_MAP !! header = None -> FIELD_MAP !! header = None ->
        nth_error (normalize_fields df) i = Some (header, cells))
  /\ (forall i header cells name,
        nth_error df i = Some (header, cells) ->
        FIELD_MAP !! header = Some name
        \/ (FIELD_MAP !! header = None /\ PRICE_MAP !! header = Some name) ->
        nth_error (normalize_fields df) i = Some (name, cells)).
Proof.
  unfold normalize_fields.
  split; [|split; [|split]].
  - apply rename_cells.
  - unfold rename. apply List.length_map.
  - intros i header cells Hi Hp Hf.
    rewrite (rename_nth _ _ _ _ _ Hi), dict_or_lookup, Hf, Hp. reflexivity.
  - intros i header cells name Hi [Hf|[Hf Hp]];
      rewrite (rename_nth _ _ _ _ _ Hi), dict_or_lookup, Hf; [|rewrite Hp];
      reflexivity.
Qed.

End NormalizerFacts.

(** C9 at work: a table with one header of each table and one of
    neither. *)
Lemma C9_field_normalizer_renames_only_witness :
  let df := [ (py "Sidrena cijena", [1%Z; 2%Z]);
              (py "naziv proizvoda", [3%Z; 4%Z]);
              (py "napomena", [5%Z; 6%Z]) ] in
  nth_error (normalize_fields df) 0 = Some (py "anchor_price_date", [1%Z; 2%Z])
  /\ nth_error (normalize_fields df) 1 = Some (py "product_name", [3%Z; 4%Z])
  /\ nth_error (normalize_fields df) 2 = Some (py "napomena", [5%Z; 6%Z]).
Proof.
  intros df.
  destruct (C9_field_normalizer_renames_only df) as (_ & _ & Hkeep & Hname).
  split; [|split].
  - apply (Hname 0%nat (py "Sidrena cijena")); [reflexivity|].
    right. split; reflexivity.
  - apply (Hname 1%nat (py "naziv proizvoda")); [reflexivity|].
    left. reflexivity.
  - apply (Hkeep 2%nat); reflexivity.
Defined.

(** ** Tidy Transform: the anchor field *)

Section StripFacts.

Lemma lstrip_spec (s : pystr) :
  exists a, s = a ++ lstrip s
            /\ Forall (fun c => isspace c = true) a
            /\ match lstrip s with c :: _ => isspace c = false | [] => True end.
Proof.
  induction s as [|c s (a & Hs & Ha & Hhd)].
  - exists []. repeat split. constructor.
  - cbn [lstrip]. destruct (isspace c) eqn:Hc.
    + exists (c :: a). cbn [app]. rewrite <- Hs. repeat split; [|exact Hhd].
      constructor; assumption.
    + exists []. repeat split; [constructor|exact Hc].
Qed.

(** [strip] removes white space at both ends and nothing else. *)
Lemma strip_spec (s : pystr) :
  exists a b, s = a ++ strip s ++ b
              /\ Forall (fun c => isspace c = true) a
              /\ Forall (fun c => isspace c = true) b
              /\ trimmed (strip s).
Proof.
  destruct (lstrip_spec s) as (a & Hs & Ha & Hhd).
  destruct (lstrip_spec (rev (lstrip s))) as (b' & Hr & Hb & Hhd').
  unfold strip, rstrip.
  set (u := lstrip (rev (lstrip s))) in *.
  assert (Hs1 : lstrip s = rev u ++ rev b').
  { rewrite <- (rev_involutive (lstrip s)), Hr, rev_app_distr. reflexivity. }
  exists a, (rev b'). split; [|split; [|split]].
  - rewrite <- Hs1. exact Hs.
  - exact Ha.
  - apply List.Forall_rev. exact Hb.
  - unfold trimmed. rewrite rev_involutive. split; [|exact Hhd'].
    rewrite Hs1 in Hhd. destruct (rev u); [exact I|exact Hhd].
Qed.

End StripFacts.

Section AnchorFacts.

Lemma count_char_zero (c : N) (s : pystr) :
  count_char c s = 0%nat -> ~ In c s.
Proof.
  unfold count_char. induction s as [|x s IH]; cbn [List.filter]; intros H.
  - intros [].
  - destruct (N.eqb_spec c x) as [->|Hne]; [discriminate H|].
    intros [Heq|Hin]; [congruence|exact (IH H Hin)].
Qed.

(** With exactly one occurrence of [c], [split_first] gives the text on
    its two sides. *)
Lemma split_first_one (c : N) (s : pystr) :
  count_char c s = 1%nat ->
  exists l r, s = l ++ c :: r /\ ~ In c l /\ ~ In c r
              /\ split_first c s = (l, r).
Proof.
  unfold count_char. induction s as [|x s IH]; cbn [List.filter]; intros H.
  - discriminate H.
  - cbn [split_first]. destruct (N.eqb_spec c x) as [->|Hne].
    + rewrite N.eqb_refl. exists [], s. cbn [List.length] in H.
      repeat split; [intros []|].
      apply count_char_zero. unfold count_char. lia.
    + destruct (IH H) as (l & r & -> & Hl & Hr & Hsplit).
      destruct (N.eqb_spec x c) as [->|_]; [congruence|].
      rewrite Hsplit. exists (x :: l), r. repeat split; [|exact Hr].
      intros [Heq|Hin]; [congruence|exact (Hl Hin)].
Qed.

Lemma prepare_anchor_text_or_missing (x : pyval) :
  text_or_missing x -> exists w row, prepare_anchor x = (w, inr row).
Proof.
  intros [Hna|[s ->]]; unfold prepare_anchor.
  - rewrite Hna. eauto.
  - cbn [isna]. destruct (negb (count_char equals_sign s =? 1)%nat); [eauto|].
    destruct (split_first equals_sign s). eauto.
Qed.

(** Applying [prepare_anchor] down a column of text and missing values
    raises nothing and gives one row for each row, from that row's cell
    alone. *)
Lemma apply_prepare_anchor_rows (column : list pyval) :
  Forall text_or_missing column ->
  exists w rows,
    apply_prepare_anchor column = (w, inr rows)
    /\ List.length rows = List.length column
    /\ forall i x, nth_error column i = Some x ->
         exists row, nth_error rows i = Some row
                     /\ snd (prepare_anchor x) = inr row.
Proof.
  induction 1 as [|x column Hx Hcol (w' & rows & Happly & Hlen & Hnth)].
  - exists [], []. repeat split. intros [|i] x H; discriminate H.
  - destruct (prepare_anchor_text_or_missing x Hx) as (w & row & Hrow).
    exists (w ++ w'), (row :: rows). cbn [apply_prepare_anchor].
    rewrite Hrow, Happly. repeat split.
    + cbn [List.length]. rewrite Hlen. reflexivity.
    + intros [|i] y Hy; cbn [nth_error] in *.
      * injection Hy as <-. exists row. rewrite Hrow. split; reflexivity.
      * exact (Hnth i y Hy).
Qed.

End AnchorFacts.

(** C4: for text with exactly one [=], [prepare_anchor] returns the two
    sides, each with the white space at its ends removed, and logs
    nothing; for text with no or several [=] and for a missing value it
    returns two missing values and logs one warning; it raises in none of
    these cases, and down a column every row is kept. *)
Theorem C4_prepare_anchor :
  (forall s : pystr,
      count_char equals_sign s = 1%nat ->
      exists l r,
        s = l ++ equals_sign :: r /\ ~ In equals_sign l /\ ~ In equals_sign r
        /\ prepare_anchor (PyStr s) = ([], inr (PyStr (strip l), PyStr (strip r))))
  /\ (forall s : pystr,
        count_char equals_sign s <> 1%nat ->
        prepare_anchor (PyStr s) = ([warn_equals s], inr (PdNA, PdNA)))
  /\ (forall x : pyval,
        isna x = true ->
        prepare_anchor x = ([warn_missing], inr (PdNA, PdNA)))
  /\ (forall s : pystr,
        exists a b, s = a ++ strip s ++ b
                    /\ Forall (fun c => isspace c = true) a
                    /\ Forall (fun c => isspace c = true) b
                    /\ trimmed (strip s))
  /\ (forall column : list pyval,
        Forall text_or_missing column ->
        exists w rows,
          apply_prepare_anchor column = (w, inr rows)
          /\ List.length rows = List.length column
          /\ forall i x, nth_error column i = Some x ->
               exists row, nth_error rows i = Some row
                           /\ snd (prepare_anchor x) = inr row).
Proof.
  split; [|split; [|split; [|split]]].
  - intros s Hone.
    destruct (split_first_one _ _ Hone) as (l & r & Hs & Hl & Hr & Hsplit).
    exists l, r. repeat split; try assumption.
    unfold prepare_anchor. cbn [isna]. rewrite Hone, Hsplit. reflexivity.
  - intros s Hne. unfold prepare_anchor. cbn [isna].
    destruct (Nat.eqb_spec (count_char equals_sign s) 1); [contradiction|].
    reflexivity.
  - intros x Hna. unfold prepare_anchor. rewrite Hna. reflexivity.
  - exact strip_spec.
  - exact apply_prepare_anchor_rows.
Qed.

(** C4 at work: one [=], none, two, and a missing value. *)
Lemma C4_prepare_anchor_witness :
  (exists l r,
      py "MPC 01.12.2023 = 12,50 €" = l ++ equals_sign :: r
      /\ ~ In equals_sign l /\ ~ In equals_sign r
      /\ prepare_anchor (PyStr (py "MPC 01.12.2023 = 12,50 €"))
         = ([], inr (PyStr (strip l), PyStr (strip r))))
  /\ prepare_anchor (PyStr (py "12,50")) = ([warn_equals (py "12,50")], inr (PdNA, PdNA))
  /\ prepare_anchor (PyStr (py "a=b=c")) = ([warn_equals (py "a=b=c")], inr (PdNA, PdNA))
  /\ prepare_anchor (PyFloat S754_nan) = ([warn_missing], inr (PdNA, PdNA)).
Proof.
  destruct C4_prepare_anchor as (Hone & Hother & Hmissing & _ & _).
  split; [|split; [|split]].
  - exact (Hone (py "MPC 01.12.2023 = 12,50 €") eq_refl).
  - apply Hother. vm_compute. discriminate.
  - apply Hother. vm_compute. discriminate.
  - apply Hmissing. reflexivity.
Defined.

(** ** Tidy Transform: decimal text *)

Section DecimalFacts.

Local Open Scope N_scope.

Lemma isdigit_bounds (c : N) : isdigit c = true -> 48 <= c <= 57.
Proof.
  unfold isdigit. intros H. apply andb_prop in H. destruct H as [H1 H2].
  apply N.leb_le in H1, H2. lia.
Qed.

(** Replacing a one-character text by another is a map over the code
    points. *)
Lemma replace_char (a b : N) (s : pystr) :
  replace [a] [b] s = List.map (fun c => if c =? a then b else c) s.
Proof.
  unfold replace. induction s as [|c s IH]; [reflexivity|].
  cbn [replace_from startswith List.length Nat.sub List.map app].
  rewrite (N.eqb_sym a c). destruct (c =? a); cbn [andb]; rewrite IH; reflexivity.
Qed.

Lemma replace_comma_dot (s : pystr) :
  replace Tidy.comma_text Tidy.dot_text s = List.map comma_to_dot s.
Proof. apply replace_char. Qed.

Lemma comma_to_dot_digit (c : N) :
  isdigit (comma_to_dot c) = isdigit c.
Proof.
  unfold comma_to_dot. destruct (N.eqb_spec c comma) as [->|]; reflexivity.
Qed.

Lemma comma_to_dot_of_digit (c : N) :
  isdigit c = true -> comma_to_dot c = c.
Proof.
  intros H. apply isdigit_bounds in H. unfold comma_to_dot.
  destruct (N.eqb_spec c comma) as [->|]; [unfold comma in H; lia|reflexivity].
Qed.

Lemma take_digits_split (s : pystr) :
  s = fst (take_digits s) ++ snd (take_digits s)
  /\ Forall (fun c => isdigit c = true) (fst (take_digits s)).
Proof.
  induction s as [|c s [IHs IHd]]; cbn [take_digits].
  - split; [reflexivity|constructor].
  - destruct (isdigit c) eqn:Hc.
    + destruct (take_digits s) as [ds r]. cbn [fst snd app] in *.
      split; [congruence|constructor; assumption].
    + split; [reflexivity|constructor].
Qed.

Lemma take_digits_map (s : pystr) :
  take_digits (List.map comma_to_dot s)
  = (fst (take_digits s), List.map comma_to_dot (snd (take_digits s))).
Proof.
  induction s as [|c s IH]; [reflexivity|].
  cbn [List.map take_digits]. rewrite comma_to_dot_digit.
  destruct (isdigit c) eqn:Hc.
  - rewrite IH. destruct (take_digits s) as [ds r]. cbn [fst snd].
    rewrite (comma_to_dot_of_digit c Hc). reflexivity.
  - reflexivity.
Qed.

Lemma parse_unsigned_comma_to_dot (s : pystr) (q : Q) :
  parse_unsigned comma s = Some q ->
  parse_unsigned dot (List.map comma_to_dot s) = Some q.
Proof.
  unfold parse_unsigned. rewrite take_digits_map.
  destruct (take_digits s) as [ip r]. cbn [fst snd].
  destruct r as [|c r']; [intros H; exact H|].
  cbn [List.map]. destruct (N.eqb_spec c comma) as [->|Hne]; [|discriminate].
  change (comma_to_dot comma =? dot) with true. cbv iota.
  rewrite take_digits_map. destruct (take_digits r') as [fp r'']. cbn [fst snd].
  destruct r''; [intros H; exact H|discriminate].
Qed.

(** A numeral with a decimal comma, once its comma is replaced, is the
    numeral with a decimal dot of the same number. *)
Lemma parse_decimal_comma_to_dot (s : pystr) (q : Q) :
  parse_decimal comma s = Some q ->
  parse_decimal dot (List.map comma_to_dot s) = Some q.
Proof.
  unfold parse_decimal. destruct s as [|c r]; [discriminate|].
  cbn [List.map].
  destruct (N.eqb_spec c minus) as [->|Hm].
  - change (comma_to_dot minus =? minus) with true. cbv iota.
    destruct (parse_unsigned comma r) as [q'|] eqn:E; [|discriminate].
    rewrite (parse_unsigned_comma_to_dot r q' E). intros H; exact H.
  - destruct (N.eqb_spec c plus) as [->|Hp].
    + change (comma_to_dot plus =? minus) with false.
      change (comma_to_dot plus =? plus) with true. cbv iota.
      apply parse_unsigned_comma_to_dot.
    + intros H. apply parse_unsigned_comma_to_dot in H. cbn [List.map] in H.
      assert (E1 : (comma_to_dot c =? minus) = false).
      { apply N.eqb_neq. unfold comma_to_dot.
        destruct (N.eqb_spec c comma); [discriminate|exact Hm]. }
      assert (E2 : (comma_to_dot c =? plus) = false).
      { apply N.eqb_neq. unfold comma_to_dot.
        destruct (N.eqb_spec c comma); [discriminate|exact Hp]. }
      rewrite E1, E2. exact H.
Qed.

Lemma parse_unsigned_chars (sep : N) (s : pystr) (q : Q) :
  parse_unsigned sep s = Some q ->
  s <> [] /\ Forall (numeral_char sep) s.
Proof.
  unfold parse_unsigned.
  destruct (take_digits_split s) as [Hs Hip].
  destruct (take_digits s) as [ip r]. cbn [fst snd] in *.
  assert (Hdig : forall l, Forall (fun c => isdigit c = true) l ->
                           Forall (numeral_char sep) l).
  { intros l Hl. eapply List.Forall_impl; [|exact Hl].
    intros c Hc. left. exact Hc. }
  destruct r as [|c r'].
  - destruct ip; [discriminate|]. intros _. subst s. rewrite app_nil_r.
    split; [discriminate|apply Hdig, Hip].
  - destruct (N.eqb_spec c sep) as [->|]; [|discriminate].
    destruct (take_digits_split r') as [Hr' Hfp].
    destruct (take_digits r') as [fp r'']. cbn [fst snd] in *.
    destruct r''; [|discriminate]. intros _. subst s r'.
    rewrite app_nil_r. split; [destruct ip; discriminate|].
    apply List.Forall_app. split; [apply Hdig, Hip|].
    constructor; [right; left; reflexivity|apply Hdig, Hfp].
Qed.

Lemma parse_decimal_chars (sep : N) (s : pystr) (q : Q) :
  parse_decimal sep s = Some q ->
  s <> [] /\ Forall (numeral_char sep) s.
Proof.
  unfold parse_decimal. destruct s as [|c r]; [discriminate|].
  intros H. split; [discriminate|].
  destruct (N.eqb_spec c minus) as [->|Hm].
  - destruct (parse_unsigned sep r) as [q'|] eqn:E; [|discriminate].
    constructor; [right; right; left; reflexivity|].
    exact (proj2 (parse_unsigned_chars _ _ _ E)).
  - destruct (N.eqb_spec c plus) as [->|Hp].
    + constructor; [right; right; right; reflexivity|].
      exact (proj2 (parse_unsigned_chars _ _ _ H)).
    + exact (proj2 (parse_unsigned_chars _ _ _ H)).
Qed.

End DecimalFacts.

(** C6: for a numeral written with a decimal comma the result is the
    same numeral written with a decimal dot, denoting the same number;
    a number that is not a missing value is returned as it is; the empty
    string and every missing value give [pd.NA]. *)
Theorem C6_replace_with_dot_if_number :
  (forall (s : pystr) (q : Q),
      parse_decimal comma s = Some q ->
      exists s',
        replace_with_dot_if_number (PyStr s) = PyStr s'
        /\ s' = List.map comma_to_dot s
        /\ parse_decimal dot s' = Some q)
  /\ (forall f : B64.float,
        B64.is_nan f = false ->
        replace_with_dot_if_number (PyFloat f) = PyFloat f)
  /\ (forall z : Z, replace_with_dot_if_number (PyInt z) = PyInt z)
  /\ replace_with_dot_if_number (PyStr []) = PdNA
  /\ (forall x : pyval, isna x = true -> replace_with_dot_if_number x = PdNA).
Proof.
  split; [|split; [|split; [|split]]].
  - intros s q Hq. exists (List.map comma_to_dot s).
    split; [|split; [reflexivity|apply parse_decimal_comma_to_dot, Hq]].
    unfold replace_with_dot_if_number. cbn [isna].
    destruct s as [|c r]; [discriminate Hq|].
    cbn [List.length Nat.eqb]. rewrite replace_comma_dot. reflexivity.
  - intros f Hf. unfold replace_with_dot_if_number. cbn [isna].
    rewrite Hf. reflexivity.
  - reflexivity.
  - reflexivity.
  - intros x Hx. unfold replace_with_dot_if_number. rewrite Hx. reflexivity.
Qed.

(** C6 at work: ["12,50"] becomes ["12.50"], which reads as 25/2. *)
Lemma C6_replace_with_dot_if_number_witness :
  (exists s',
      replace_with_dot_if_number (PyStr (py "12,50")) = PyStr s'
      /\ s' = List.map comma_to_dot (py "12,50")
      /\ parse_decimal dot s' = Some (25 # 2))
  /\ replace_with_dot_if_number (PyFloat (B64.decimal 125 1))
     = PyFloat (B64.decimal 125 1)
  /\ replace_with_dot_if_number (PyFloat S754_nan) = PdNA.
Proof.
  destruct C6_replace_with_dot_if_number as (Htext & Hfloat & _ & _ & Hna).
  split; [|split].
  - exact (Htext (py "12,50") (25 # 2) eq_refl).
  - apply Hfloat. reflexivity.
  - apply Hna. reflexivity.
Defined.

(** ** Tidy Transform: the anchor price *)

Section AnchorPriceFacts.

Local Open Scope N_scope.

Lemma endswith_last_differs (p s p' : pystr) (c0 : N) :
  rev p = c0 :: p' ->
  Forall (fun c => c <> c0) s ->
  endswith p s = false.
Proof.
  intros Hp Hs. unfold endswith. rewrite Hp.
  apply List.Forall_rev in Hs. destruct (rev s) as [|c l]; [reflexivity|].
  inversion Hs as [|? ? Hc _]; subst. cbn [startswith].
  destruct (N.eqb_spec c0 c) as [->|]; [contradiction|reflexivity].
Qed.

Lemma skip_space_head (s : pystr) :
  match s with c :: _ => isspace_ascii c = false | [] => True end ->
  skip_space s = s.
Proof. destruct s as [|c s]; [reflexivity|]. cbn [skip_space]. intros ->. reflexivity. Qed.

Lemma skip_space_app (ws s : pystr) :
  Forall (fun c => isspace_ascii c = true) ws ->
  skip_space (ws ++ s) = skip_space s.
Proof.
  induction 1 as [|c ws Hc _ IH]; [reflexivity|].
  cbn [app skip_space]. rewrite Hc. exact IH.
Qed.

(** White space after a numeral is skipped by the numeric parser. *)
Lemma to_numeric_text_padded (num ws : pystr) :
  num <> [] ->
  Forall (fun c => isspace_ascii c = false) num ->
  Forall (fun c => isspace_ascii c = true) ws ->
  to_numeric_text (num ++ ws) = parse_decimal dot num.
Proof.
  intros Hne Hnum Hws. unfold to_numeric_text.
  rewrite (skip_space_head (num ++ ws)).
  2:{ destruct num as [|c num]; [contradiction|].
      cbn [app]. inversion Hnum; subst. assumption. }
  rewrite rev_app_distr, skip_space_app by (apply List.Forall_rev, Hws).
  rewrite (skip_space_head (rev num)), rev_involutive; [reflexivity|].
  apply List.Forall_rev in Hnum. destruct (rev num); [exact I|].
  inversion Hnum; subst. assumption.
Qed.

Lemma numeral_char_not_space (c : N) :
  numeral_char dot c -> isspace_ascii c = false.
Proof.
  intros [H|[-> |[-> | ->]]]; try reflexivity.
  apply isdigit_bounds in H. unfold isspace_ascii, in_range.
  destruct (N.leb_spec 9 c); destruct (N.leb_spec c 13);
    destruct (N.eqb_spec c 32); cbn; try reflexivity; lia.
Qed.

Lemma isspace_ascii_bounds (c : N) :
  isspace_ascii c = true -> 9 <= c <= 13 \/ c = 32.
Proof.
  unfold isspace_ascii, in_range. intros H.
  apply orb_prop in H. destruct H as [H|H].
  - apply andb_prop in H. destruct H as [H1 H2].
    apply N.leb_le in H1, H2. left. lia.
  - apply N.eqb_eq in H. right. exact H.
Qed.

(** The text of a price: a numeral with a decimal comma, then white
    space.  None of its code points is one of a currency marker. *)
Lemma price_text_chars (num ws : pystr) (q : Q) (c0 : N) :
  parse_decimal comma num = Some q ->
  Forall (fun c => isspace_ascii c = true) ws ->
  c0 = 114 \/ c0 = 8364 ->
  Forall (fun c => c <> c0) (num ++ ws).
Proof.
  intros Hq Hws Hc0. apply List.Forall_app. split.
  - eapply List.Forall_impl; [|exact (proj2 (parse_decimal_chars _ _ _ Hq))].
    intros c [H|[-> |[-> | ->]]]; try (destruct Hc0 as [-> | ->]; discriminate).
    apply isdigit_bounds in H. destruct Hc0 as [-> | ->]; lia.
  - eapply List.Forall_impl; [|exact Hws].
    intros c H. apply isspace_ascii_bounds in H.
    destruct Hc0 as [-> | ->]; lia.
Qed.

(** A price numeral followed by white space, with no marker left on it,
    reads as the number the numeral denotes. *)
Lemma to_numeric_price_text (num ws : pystr) (q : Q) :
  parse_decimal comma num = Some q ->
  Forall (fun c => isspace_ascii c = true) ws ->
  to_numeric (replace_with_dot_if_number (PyStr (num ++ ws))) = Num q.
Proof.
  intros Hq Hws.
  destruct (parse_decimal_chars _ _ _ Hq) as [Hne _].
  unfold replace_with_dot_if_number. cbn [isna].
  destruct num as [|c num]; [contradiction|].
  cbn [app List.length Nat.eqb].
  rewrite replace_comma_dot. change (c :: num ++ ws) with ((c :: num) ++ ws).
  rewrite List.map_app.
  assert (Hq' := parse_decimal_comma_to_dot _ _ Hq).
  unfold to_numeric.
  destruct (List.map comma_to_dot (c :: num) ++ List.map comma_to_dot ws)
    as [|x xs] eqn:E; [discriminate E|].
  rewrite <- E. rewrite to_numeric_text_padded.
  - rewrite Hq'. reflexivity.
  - discriminate.
  - eapply List.Forall_impl; [|exact (proj2 (parse_decimal_chars _ _ _ Hq'))].
    exact numeral_char_not_space.
  - apply List.Forall_map. eapply List.Forall_impl; [|exact Hws].
    intros y Hy. unfold comma_to_dot.
    destruct (N.eqb_spec y comma) as [->|]; [discriminate Hy|exact Hy].
Qed.

(** The anchor price of a price text, whichever marker follows it. *)
Lemma anchor_price_of_price_text (num ws : pystr) (q : Q) :
  parse_decimal comma num = Some q ->
  Forall (fun c => isspace_ascii c = true) ws ->
  anchor_price (PyStr ((num ++ ws) ++ euro)) = Num q
  /\ anchor_price (PyStr ((num ++ ws) ++ euro_ur)) = Num q
  /\ anchor_price (PyStr (num ++ ws)) = Num q.
Proof.
  intros Hq Hws.
  assert (Hr : endswith euro_ur (num ++ ws) = false).
  { apply (endswith_last_differs euro_ur _ [117; 8364] 114); [reflexivity|].
    apply (price_text_chars num ws q); auto. }
  assert (He : endswith euro (num ++ ws) = false).
  { apply (endswith_last_differs euro _ [] 8364); [reflexivity|].
    apply (price_text_chars num ws q); auto. }
  unfold anchor_price, anchor_price_text, str_method.
  split; [|split].
  - rewrite removesuffix_app, (removesuffix_other _ _ Hr).
    apply to_numeric_price_text; assumption.
  - rewrite (removesuffix_other euro).
    + rewrite removesuffix_app. apply to_numeric_price_text; assumption.
    + unfold endswith. rewrite rev_app_distr. reflexivity.
  - rewrite (removesuffix_other _ _ He), (removesuffix_other _ _ Hr).
    apply to_numeric_price_text; assumption.
Qed.

End AnchorPriceFacts.

(** C3: a trailing ["€"] and a trailing ["€ur"] are both removed; what is
    left, when it is text, has its commas replaced by dots before it is
    read as a number, so that a price written with a decimal comma reads
    as its number; a number is passed on as it is; when nothing is left
    the cell is missing; and ["MPC 01.12.2023=12,50 €"] gives the date
    2023-12-01 and the price 12.50. *)
Theorem C3_anchor_price_cleanup :
  (forall t : pystr,
      endswith euro_ur t = false ->
      anchor_price_text (PyStr (t ++ euro)) = replace_with_dot_if_number (PyStr t))
  /\ (forall t : pystr,
        anchor_price_text (PyStr (t ++ euro_ur)) = replace_with_dot_if_number (PyStr t))
  /\ (forall t : pystr,
        t <> [] ->
        replace_with_dot_if_number (PyStr t) = PyStr (List.map comma_to_dot t))
  /\ (forall (num ws : pystr) (q : Q),
        parse_decimal comma num = Some q ->
        Forall (fun c => isspace_ascii c = true) ws ->
        anchor_price (PyStr ((num ++ ws) ++ euro)) = Num q
        /\ anchor_price (PyStr ((num ++ ws) ++ euro_ur)) = Num q
        /\ anchor_price (PyStr (num ++ ws)) = Num q)
  /\ (forall f : B64.float,
        B64.is_nan f = false ->
        replace_with_dot_if_number (PyFloat f) = PyFloat f
        /\ to_numeric (PyFloat f) = Float f)
  /\ (anchor_price (PyStr euro) = Missing
      /\ anchor_price (PyStr euro_ur) = Missing
      /\ anchor_price (PyStr []) = Missing)
  /\ anchor_fields (PyStr (py "MPC 01.12.2023=12,50 €"))
     = ([], inr (Some {| year := 2023; month := 12; day := 1 |}, Num (25 # 2))).
Proof.
  split; [|split; [|split; [|split; [|split; [|split]]]]].
  - intros t Ht. unfold anchor_price_text, str_method.
    rewrite removesuffix_app, (removesuffix_other _ _ Ht). reflexivity.
  - intros t. unfold anchor_price_text, str_method.
    rewrite (removesuffix_other euro).
    + rewrite removesuffix_app. reflexivity.
    + unfold endswith. rewrite rev_app_distr. reflexivity.
  - intros t Ht. unfold replace_with_dot_if_number. cbn [isna].
    destruct t as [|c t]; [contradiction|].
    cbn [List.length Nat.eqb]. rewrite replace_comma_dot. reflexivity.
  - exact anchor_price_of_price_text.
  - intros f Hf. unfold replace_with_dot_if_number, to_numeric. cbn [isna].
    rewrite Hf. split; reflexivity.
  - repeat split.
  - vm_compute. reflexivity.
Qed.

(** C3 at work: the same price with the other marker and with none. *)
Lemma C3_anchor_price_cleanup_witness :
  anchor_price (PyStr ((py "12,50" ++ py " ") ++ euro)) = Num (25 # 2)
  /\ anchor_price (PyStr ((py "12,50" ++ py " ") ++ euro_ur)) = Num (25 # 2)
  /\ anchor_price (PyStr (py "12,50" ++ py " ")) = Num (25 # 2).
Proof.
  apply (proj1 (proj2 (proj2 (proj2 C3_anchor_price_cleanup)))).
  - reflexivity.
  - repeat constructor.
Defined.

(** ** Tidy Transform: the promotion flag *)

Section FlagFacts.

Lemma flag_values_nth (cells : list pystr) (values : list Z) :
  flag_values cells = Some values ->
  List.length values = List.length cells
  /\ forall i s, nth_error cells i = Some s ->
       exists z, flag_value s = Some z /\ nth_error values i = Some z.
Proof.
  revert values. induction cells as [|s cells IH]; intros values H.
  - injection H as <-. split; [reflexivity|]. intros [|i] s Hs; discriminate Hs.
  - cbn [flag_values] in H.
    destruct (flag_value s) as [z|] eqn:Hz; [|discriminate H].
    destruct (flag_values cells) as [zs|]; [|discriminate H].
    injection H as <-. destruct (IH zs eq_refl) as [Hlen Hnth].
    split; [cbn [List.length]; rewrite Hlen; reflexivity|].
    intros [|i] s' Hs'; cbn [nth_error] in *.
    + injection Hs' as <-. exists z. split; [exact Hz|reflexivity].
    + exact (Hnth i s' Hs').
Qed.

(** The type chosen holds every value, and no narrower one does. *)
Lemma downcast_integer_smallest (values : list Z) (t : int_dtype) :
  downcast_integer values = Some t ->
  forallb (fits t) values = true
  /\ forall t', (bits t' < bits t)%Z -> forallb (fits t') values = false.
Proof.
  unfold downcast_integer. cbn [List.find].
  destruct (forallb (fits int8) values) eqn:H8.
  { intros [= <-]. split; [exact H8|]. intros []; cbn [bits]; lia. }
  destruct (forallb (fits int16) values) eqn:H16.
  { intros [= <-]. split; [exact H16|]. intros []; cbn [bits]; try lia; auto. }
  destruct (forallb (fits int32) values) eqn:H32.
  { intros [= <-]. split; [exact H32|]. intros []; cbn [bits]; try lia; auto. }
  destruct (forallb (fits int64) values) eqn:H64; [|discriminate].
  intros [= <-]. split; [exact H64|]. intros []; cbn [bits]; try lia; auto.
Qed.

Lemma is_akcija_flags_only (column : list (option pystr)) :
  Forall (fun x => x = Some flag_A \/ x = None) column ->
  flag_values (List.map (fun x => fillna_0 (replace_A x)) column)
  = Some (List.map (fun x => match x with Some _ => 1 | None => 0 end)%Z column)
  /\ forallb (fits int8)
       (List.map (fun x => match x with Some _ => 1 | None => 0 end)%Z column)
     = true.
Proof.
  induction 1 as [|x column Hx _ [IHv IHf]]; [split; reflexivity|].
  cbn [List.map flag_values forallb]. rewrite IHv, IHf.
  destruct Hx as [-> | ->]; split; reflexivity.
Qed.

End FlagFacts.

(** C7: in the tidied column a row whose flag is ["A"] holds exactly 1
    and a row whose flag is missing holds exactly 0; the column has the
    narrowest signed integer type that holds all its values, which for a
    column of ["A"] and missing flags is the 8-bit one. *)
Theorem C7_is_akcija_flag :
  (forall (column : list (option pystr)) (t : int_dtype) (values : list Z),
      is_akcija column = Some (t, values) ->
      List.length values = List.length column
      /\ (forall i, nth_error column i = Some (Some flag_A) ->
                    nth_error values i = Some 1%Z)
      /\ (forall i, nth_error column i = Some None ->
                    nth_error values i = Some 0%Z)
      /\ forallb (fits t) values = true
      /\ (forall t', (bits t' < bits t)%Z -> forallb (fits t') values = false))
  /\ (forall column : list (option pystr),
        Forall (fun x => x = Some flag_A \/ x = None) column ->
        is_akcija column
        = Some (int8,
                List.map (fun x => match x with Some _ => 1 | None => 0 end)%Z
                         column)).
Proof.
  split.
  - intros column t values H. unfold is_akcija in H.
    destruct (flag_values _) as [vs|] eqn:Hvs; [|discriminate H].
    destruct (downcast_integer vs) as [t0|] eqn:Ht; [|discriminate H].
    injection H as <- <-.
    destruct (flag_values_nth _ _ Hvs) as [Hlen Hnth].
    destruct (downcast_integer_smallest _ _ Ht) as [Hfit Hmin].
    rewrite List.length_map in Hlen.
    split; [exact Hlen|]. split; [|split; [|split; assumption]].
    + intros i Hi.
      destruct (Hnth i text_1) as (z & Hz & Hv).
      { rewrite nth_error_map, Hi. reflexivity. }
      rewrite Hv. f_equal. vm_compute in Hz. congruence.
    + intros i Hi.
      destruct (Hnth i text_0) as (z & Hz & Hv).
      { rewrite nth_error_map, Hi. reflexivity. }
      rewrite Hv. f_equal. vm_compute in Hz. congruence.
  - intros column Hcol. unfold is_akcija.
    destruct (is_akcija_flags_only column Hcol) as [-> Hfit].
    unfold downcast_integer. cbn [List.find]. rewrite Hfit. reflexivity.
Qed.

(** C7 at work: three rows, the flag set on two of them. *)
Lemma C7_is_akcija_flag_witness :
  is_akcija [Some flag_A; None; Some flag_A] = Some (int8, [1; 0; 1]%Z).
Proof.
  apply (proj2 C7_is_akcija_flag [Some flag_A; None; Some flag_A]).
  constructor; [left; reflexivity|].
  constructor; [right; reflexivity|].
  constructor; [left; reflexivity|constructor].
Defined.

(** ** Watch-list Filters *)

Section SearchFacts.

Lemma matches_here_spec (pat s : pystr) :
  matches_here pat s = true
  <-> exists m r, s = m ++ r /\ Forall2 (fun p c => ci_matches p c = true) pat m.
Proof.
  revert s. induction pat as [|p pat IH]; intros s.
  - split; [|reflexivity]. intros _. exists [], s. split; [reflexivity|constructor].
  - destruct s as [|c s]; cbn [matches_here].
    + split; [discriminate|]. intros (m & r & Hs & Hm).
      inversion Hm; subst. discriminate Hs.
    + rewrite andb_true_iff, IH. split.
      * intros (Hc & m & r & -> & Hm). exists (c :: m), r.
        split; [reflexivity|constructor; assumption].
      * intros (m & r & Hs & Hm). inversion Hm as [|? c' ? m' Hc Hm']; subst.
        injection Hs as <- ->. split; [exact Hc|]. exists m', r.
        split; [reflexivity|exact Hm'].
Qed.

Lemma search_here (alternatives : list pystr) (s : pystr) :
  existsb (fun pat => matches_here pat s) alternatives = true ->
  search alternatives s = true.
Proof. intros H. destruct s; cbn [search]; rewrite H; reflexivity. Qed.

(** [search] finds exactly the texts that contain one of the
    alternatives, ignoring case. *)
Lemma search_spec (alternatives : list pystr) (s : pystr) :
  search alternatives s = true
  <-> exists pat, In pat alternatives /\ contains_ignoring_case pat s.
Proof.
  split.
  - induction s as [|c s IH]; cbn [search]; intros H;
      apply orb_prop in H; destruct H as [H|H]; try discriminate H.
    + apply List.existsb_exists in H. destruct H as (pat & Hin & Hm).
      apply matches_here_spec in Hm. destruct Hm as (m & r & Hs & Hm).
      exists pat. split; [exact Hin|]. exists [], m, r. split; assumption.
    + apply List.existsb_exists in H. destruct H as (pat & Hin & Hm).
      apply matches_here_spec in Hm. destruct Hm as (m & r & Hs & Hm).
      exists pat. split; [exact Hin|]. exists [], m, r. split; assumption.
    + destruct (IH H) as (pat & Hin & l & m & r & -> & Hm).
      exists pat. split; [exact Hin|]. exists (c :: l), m, r.
      split; [reflexivity|exact Hm].
  - intros (pat & Hin & l & m & r & -> & Hm).
    induction l as [|c l IH].
    + apply search_here, List.existsb_exists. exists pat.
      split; [exact Hin|]. apply matches_here_spec. exists m, r.
      split; [reflexivity|exact Hm].
    + cbn [app search]. rewrite IH. apply orb_true_r.
Qed.

End SearchFacts.

(** C8: a row is selected exactly when its product name contains one of
    [halloumi], [parmi], [pecorino], [padano], ignoring case, and its
    quantity is at least 0.2; a row with a missing name or quantity is
    not selected; a cheese of quantity 0.15 is rejected and one of
    quantity 0.25 is accepted. *)
Theorem C8_cheese_filter :
  (forall r : row,
      selects (FILT_SIR r) = true
      <-> (exists name, product_name r = Some name
                        /\ exists pat, In pat cheese_names
                                       /\ contains_ignoring_case pat name)
          /\ (exists q, quantity r = Some q /\ B64.leb point_2 q = true))
  /\ selects (FILT_SIR {| product_name := Some (py "GRANA PADANO RIBANI");
                          quantity := Some (B64.decimal 15 2) |}) = false
  /\ selects (FILT_SIR {| product_name := Some (py "GRANA PADANO RIBANI");
                          quantity := Some (B64.decimal 25 2) |}) = true.
Proof.
  split; [|split; vm_compute; reflexivity].
  intros [name q]. unfold FILT_SIR. cbn [product_name quantity]. split.
  - intros H. destruct name as [name|]; destruct q as [q|]; cbn in H;
      try discriminate H;
      try (destruct (search cheese_names name); discriminate H);
      try (destruct (B64.leb point_2 q); discriminate H).
    destruct (search cheese_names name) eqn:Hs;
      destruct (B64.leb point_2 q) eqn:Hq; try discriminate H.
    split.
    + exists name. split; [reflexivity|]. apply search_spec. exact Hs.
    + exists q. split; [reflexivity|exact Hq].
  - intros [(name' & -> & Hpat) (q' & -> & Hq)].
    apply search_spec in Hpat. cbn [option_map]. rewrite Hpat, Hq. reflexivity.
Qed.

(** C8 at work: a lower-case name in the middle of a product name. *)
Lemma C8_cheese_filter_witness :
  selects (FILT_SIR {| product_name := Some (py "Sir Pecorino Romano 250g");
                       quantity := Some (B64.decimal 25 2) |}) = true.
Proof.
  apply (proj1 C8_cheese_filter). split.
  - exists (py "Sir Pecorino Romano 250g"). split; [reflexivity|].
    exists (py "pecorino"). split; [right; right; left; reflexivity|].
    exists (py "Sir "), (py "Pecorino"), (py " Romano 250g").
    split; [reflexivity|]. repeat constructor.
  - exists (B64.decimal 25 2). split; reflexivity.
Defined.

(** ** binary64 arithmetic *)

Section FloatFacts.

Local Open Scope Z_scope.

Variables prec emax : Z.

Lemma shr_1_nonneg (mrs : shr_record) : 0 <= shr_m mrs -> 0 <= shr_m (shr_1 mrs).
Proof.
  destruct mrs as [m r s]. cbn [shr_m].
  destruct m as [|p|p]; [| |lia]; intros _.
  - reflexivity.
  - destruct p; cbn; lia.
Qed.

Lemma iter_pos_nonneg (n : positive) (mrs : shr_record) :
  0 <= shr_m mrs -> 0 <= shr_m (SpecFloat.iter_pos shr_1 n mrs).
Proof.
  revert mrs. induction n as [n IH|n IH|]; intros mrs H; cbn [SpecFloat.iter_pos].
  - apply IH, IH, shr_1_nonneg, H.
  - apply IH, IH, H.
  - apply shr_1_nonneg, H.
Qed.

Lemma shr_nonneg (mrs : shr_record) (e n : Z) :
  0 <= shr_m mrs -> 0 <= shr_m (fst (shr mrs e n)).
Proof.
  intros H. unfold shr. destruct n; cbn [fst]; try exact H.
  apply iter_pos_nonneg, H.
Qed.

Lemma shr_fexp_nonneg (m e : Z) (l : location) :
  0 <= m -> 0 <= shr_m (fst (shr_fexp prec emax m e l)).
Proof.
  intros H. unfold shr_fexp. apply shr_nonneg.
  destruct l as [|[]]; exact H.
Qed.

Lemma round_nearest_even_nonneg (m : Z) (l : location) :
  0 <= m -> 0 <= round_nearest_even m l.
Proof.
  intros H. unfold round_nearest_even.
  destruct l as [|[]]; try destruct (Z.even m); lia.
Qed.

(** Rounding a non-negative mantissa never gives NaN. *)
Lemma binary_round_aux_not_nan (sx : bool) (mx ex : Z) (lx : location) :
  0 <= mx -> binary_round_aux prec emax sx mx ex lx <> S754_nan.
Proof.
  intros H. unfold binary_round_aux.
  assert (H1 := shr_fexp_nonneg mx ex lx H).
  destruct (shr_fexp prec emax mx ex lx) as [mrs' e']. cbn [fst] in H1.
  assert (H2 := shr_fexp_nonneg
                  (round_nearest_even (shr_m mrs') (loc_of_shr_record mrs'))
                  e' loc_Exact (round_nearest_even_nonneg _ _ H1)).
  destruct (shr_fexp prec emax _ e' loc_Exact) as [mrs'' e'']. cbn [fst] in H2.
  destruct (shr_m mrs'') as [|p|p]; [discriminate| |lia].
  destruct (e'' <=? emax - prec); discriminate.
Qed.

Lemma binary_normalize_not_nan (m e : Z) (szero : bool) :
  binary_normalize prec emax m e szero <> S754_nan.
Proof.
  unfold binary_normalize, binary_round.
  destruct m as [|p|p]; [discriminate| |];
    destruct (shl_align _ _ _) as [mz ez]; apply binary_round_aux_not_nan; lia.
Qed.

(** The difference of two finite numbers is a number. *)
Lemma SFsub_finite (x y : spec_float) :
  B64.is_finite x = true -> B64.is_finite y = true ->
  SFsub prec emax x y <> S754_nan.
Proof.
  destruct x as [sx|sx| |sx mx ex]; try discriminate;
    destruct y as [sy|sy| |sy my ey]; try discriminate; intros _ _;
    cbn [SFsub]; try discriminate.
  - destruct sx, sy; discriminate.
  - apply binary_normalize_not_nan.
Qed.

(** A number divided by a finite number other than zero is a number. *)
Lemma SFdiv_by_finite (x : spec_float) (sy : bool) (my : positive) (ey : Z) :
  x <> S754_nan -> SFdiv prec emax x (S754_finite sy my ey) <> S754_nan.
Proof.
  destruct x as [sx|sx| |sx mx ex]; intros Hx; cbn [SFdiv]; try discriminate.
  - contradiction.
  - unfold SFdiv_core_binary.
    set (m' := match _ - _ - _ with Z0 => Zpos mx | Zpos _ => _ | Zneg _ => 0 end).
    assert (Hm' : 0 <= m').
    { subst m'. destruct (_ - _ - _); try lia. apply Z.shiftl_nonneg. lia. }
    assert (Hq : 0 <= fst (Z.div_eucl m' (Zpos my))).
    { change (fst (Z.div_eucl m' (Zpos my))) with (m' / Zpos my).
      apply Z.div_pos; lia. }
    destruct (Z.div_eucl m' (Zpos my)) as [q r]. cbn [fst] in Hq.
    apply binary_round_aux_not_nan, Hq.
Qed.

End FloatFacts.

(** ** Tidy Transform: the discount ratio *)

(** Against C1 as first stated, that a zero anchor price gives a missing
    ratio: with price 1 and anchor price 0 the ratio is plus infinity. *)
Lemma C1_zero_anchor_counterexample :
  price_anchor_diff (B64.of_Z 1) (S754_zero false) = S754_infinity false
  /\ ~ (forall price anchor : B64.float,
          B64.is_nan anchor = true \/ B64.is_zero anchor = true ->
          B64.is_nan (price_anchor_diff price anchor) = true).
Proof.
  split; [reflexivity|].
  intros H.
  specialize (H (B64.of_Z 1) (S754_zero false) (or_intror eq_refl)).
  discriminate H.
Qed.

(** C1, as the code has it: the ratio is missing (NaN) whenever the
    anchor price or the price is missing; for a finite price and a finite
    anchor price other than zero it is the binary64 quotient of their
    difference by the anchor price, and not missing; nothing guards a
    zero anchor price, for which the ratio is an infinity when the price
    is finite and not zero, and missing when the price is zero too. *)
Theorem C1_price_anchor_diff :
  (forall price : B64.float, price_anchor_diff price S754_nan = S754_nan)
  /\ (forall anchor : B64.float, price_anchor_diff S754_nan anchor = S754_nan)
  /\ (forall price anchor : B64.float,
        B64.is_finite price = true ->
        B64.is_finite anchor = true ->
        B64.is_zero anchor = false ->
        price_anchor_diff price anchor = B64.div (B64.sub price anchor) anchor
        /\ B64.is_nan (price_anchor_diff price anchor) = false)
  /\ (forall price anchor : B64.float,
        B64.is_zero anchor = true ->
        B64.is_finite price = true ->
        B64.is_zero price = false ->
        price_anchor_diff price anchor
        = S754_infinity (xorb (B64.sign price) (B64.sign anchor)))
  /\ (forall price anchor : B64.float,
        B64.is_zero anchor = true ->
        B64.is_zero price = true ->
        price_anchor_diff price anchor = S754_nan)
  /\ price_anchor_diff (B64.decimal 125 1) (B64.of_Z 10) = B64.decimal 25 2.
Proof.
  split; [|split; [|split; [|split; [|split]]]].
  - intros price. unfold price_anchor_diff, B64.div, B64.sub.
    destruct price; reflexivity.
  - intros anchor. unfold price_anchor_diff, B64.div, B64.sub.
    destruct anchor; reflexivity.
  - intros price anchor Hp Ha Hz. split; [reflexivity|].
    unfold price_anchor_diff, B64.div, B64.sub.
    assert (Hsub := SFsub_finite B64.prec B64.emax price anchor Hp Ha).
    destruct anchor as [s|s| |s m e]; try discriminate.
    assert (Hdiv := SFdiv_by_finite B64.prec B64.emax _ s m e Hsub).
    destruct (SFdiv B64.prec B64.emax _ _); try reflexivity. contradiction.
  - intros price anchor Ha Hp Hz.
    destruct anchor as [sa|sa| |sa ma ea]; try discriminate.
    destruct price as [sp|sp| |sp mp ep]; try discriminate. reflexivity.
  - intros price anchor Ha Hp.
    destruct anchor as [sa|sa| |sa ma ea]; try discriminate.
    destruct price as [sp|sp| |sp mp ep]; try discriminate.
    destruct sp, sa; reflexivity.
  - vm_compute. reflexivity.
Qed.

(** C1 at work: price 12.5 against anchor price 10, and against 0. *)
Lemma C1_price_anchor_diff_witness :
  B64.is_nan (price_anchor_diff (B64.decimal 125 1) (B64.of_Z 10)) = false
  /\ price_anchor_diff (B64.decimal 125 1) (S754_zero false)
     = S754_infinity false.
Proof.
  destruct C1_price_anchor_diff as (_ & _ & Hfinite & Hzero & _ & _).
  split.
  - apply (Hfinite (B64.decimal 125 1) (B64.of_Z 10)); reflexivity.
  - apply (Hzero (B64.decimal 125 1) (S754_zero false)); reflexivity.
Defined.

(** ** Source Locator *)

Section LocatorFacts.

Variable decimal : N -> bool.

Lemma take_decimal_split (s : pystr) :
  s = fst (take_decimal decimal s) ++ snd (take_decimal decimal s)
  /\ Forall (fun c => decimal c = true) (fst (take_decimal decimal s)).
Proof.
  induction s as [|c s [IHs IHd]]; cbn [take_decimal].
  - split; [reflexivity|constructor].
  - destruct (decimal c) eqn:Hc.
    + destruct (take_decimal decimal s) as [ds r]. cbn [fst snd app] in *.
      split; [congruence|constructor; assumption].
    + split; [reflexivity|constructor].
Qed.

Lemma take_decimal_run (d r : pystr) :
  Forall (fun c => decimal c = true) d ->
  match r with c :: _ => decimal c = false | [] => True end ->
  take_decimal decimal (d ++ r) = (d, r).
Proof.
  intros Hd Hr. induction Hd as [|c d Hc _ IH]; cbn [app].
  - destruct r as [|c r]; [reflexivity|]. cbn [take_decimal]. rewrite Hr. reflexivity.
  - cbn [take_decimal]. rewrite Hc, IH. reflexivity.
Qed.

Lemma startswith_prefix (p s : pystr) :
  startswith p s = true -> s = p ++ skipn (List.length p) s.
Proof.
  revert s. induction p as [|a p IH]; intros s H; [reflexivity|].
  destruct s as [|b s]; cbn [startswith] in H; [discriminate|].
  apply andb_prop in H. destruct H as [Hab H].
  apply N.eqb_eq in Hab. subst b. cbn [List.length skipn app].
  f_equal. exact (IH s H).
Qed.

Lemma core_at_sound (s d : pystr) :
  core_at decimal s = Some d -> asset_occurrence decimal s [] d.
Proof.
  unfold core_at. destruct (startswith asset_prefix s) eqn:Hp; [|discriminate].
  apply startswith_prefix in Hp.
  destruct (take_decimal_split (skipn (List.length asset_prefix) s)) as [Hs Hd].
  destruct (take_decimal decimal _) as [ds r]. cbn [fst snd] in *.
  destruct ds as [|c ds]; [discriminate|]. cbn [Pandas.nonempty andb].
  destruct (startswith json_suffix r) eqn:Hj; [|discriminate].
  intros [= <-]. apply startswith_prefix in Hj.
  split; [discriminate|]. split; [exact Hd|].
  exists (skipn (List.length json_suffix) r).
  change ([] ++ asset_prefix ++ (c :: ds) ++ json_suffix
            ++ skipn (List.length json_suffix) r)
    with (asset_prefix ++ (c :: ds) ++ json_suffix
            ++ skipn (List.length json_suffix) r).
  rewrite <- Hj, <- Hs. exact Hp.
Qed.

Hypothesis dot_is_no_digit : decimal 46%N = false.

Lemma core_at_complete (s d : pystr) :
  asset_occurrence decimal s [] d -> core_at decimal s = Some d.
Proof using dot_is_no_digit.
  intros (Hne & Hd & post & ->). unfold core_at. cbn [app].
  rewrite startswith_app.
  rewrite skipn_app, Nat.sub_diag, skipn_all, skipn_O. cbn [app].
  rewrite (take_decimal_run d (json_suffix ++ post) Hd dot_is_no_digit).
  destruct d; [contradiction|]. cbn [Pandas.nonempty andb].
  rewrite startswith_app. reflexivity.
Qed.

Lemma core_at_no_quote (c : N) (s : pystr) :
  is_quote c = true -> core_at decimal (c :: s) = None.
Proof.
  intros Hq. unfold core_at, asset_prefix. cbn [startswith].
  destruct (N.eqb_spec 97 c) as [<-|]; [discriminate Hq|reflexivity].
Qed.

Lemma core_at_head (s d : pystr) :
  core_at decimal s = Some d -> match_at decimal s = Some d.
Proof.
  intros H. destruct s as [|c s]; [exact H|]. cbn [match_at].
  destruct (is_quote c) eqn:Hq; [|exact H].
  rewrite (core_at_no_quote c s Hq) in H. discriminate H.
Qed.

(** The optional quote never changes which group is found. *)
Lemma search_group_step (c : N) (s : pystr) :
  search_group decimal (c :: s)
  = match core_at decimal (c :: s) with
    | Some d => Some d
    | None => search_group decimal s
    end.
Proof.
  cbn [search_group match_at]. destruct (is_quote c) eqn:Hq.
  - rewrite (core_at_no_quote c s Hq).
    destruct (core_at decimal s) as [d|] eqn:Hs; [|reflexivity].
    destruct s as [|c' s']; cbn [search_group];
      rewrite (core_at_head _ _ Hs); reflexivity.
  - reflexivity.
Qed.

Lemma asset_occurrence_cons (c : N) (s pre d : pystr) :
  asset_occurrence decimal (c :: s) (c :: pre) d
  <-> asset_occurrence decimal s pre d.
Proof.
  unfold asset_occurrence. split; intros (Hne & Hd & post & Hs);
    (split; [exact Hne|split; [exact Hd|exists post]]).
  - cbn [app] in Hs. congruence.
  - cbn [app]. congruence.
Qed.

Lemma asset_occurrence_head (c : N) (s pre d : pystr) :
  asset_occurrence decimal (c :: s) pre d ->
  pre = [] \/ exists pre', pre = c :: pre' /\ asset_occurrence decimal s pre' d.
Proof.
  intros H. destruct pre as [|c' pre']; [left; reflexivity|right].
  assert (c' = c).
  { destruct H as (_ & _ & post & Hs). cbn [app] in Hs. congruence. }
  subst c'. exists pre'. split; [reflexivity|].
  exact (proj1 (asset_occurrence_cons c s pre' d) H).
Qed.

Lemma search_group_none (s : pystr) :
  search_group decimal s = None
  <-> forall pre d, ~ asset_occurrence decimal s pre d.
Proof using dot_is_no_digit.
  induction s as [|c s IH].
  - split; [|reflexivity]. intros _ pre d (_ & _ & post & Hs).
    destruct pre; discriminate Hs.
  - rewrite search_group_step. split.
    + intros H pre d Hocc.
      destruct (core_at decimal (c :: s)) as [d0|] eqn:Hc; [discriminate H|].
      destruct (asset_occurrence_head _ _ _ _ Hocc) as [-> | (pre' & -> & Hocc')].
      * rewrite (core_at_complete _ _ Hocc) in Hc. discriminate Hc.
      * exact (proj1 IH H pre' d Hocc').
    + intros H. destruct (core_at decimal (c :: s)) as [d0|] eqn:Hc.
      * exfalso. exact (H [] d0 (core_at_sound _ _ Hc)).
      * apply IH. intros pre d Hocc.
        apply (H (c :: pre) d).
        exact (proj2 (asset_occurrence_cons c s pre d) Hocc).
Qed.

Lemma search_group_first (s d : pystr) :
  search_group decimal s = Some d ->
  exists pre,
    asset_occurrence decimal s pre d
    /\ forall pre' d', asset_occurrence decimal s pre' d' ->
         (List.length pre <= List.length pre')%nat
         /\ (List.length pre = List.length pre' -> d' = d).
Proof using dot_is_no_digit.
  revert d. induction s as [|c s IH]; intros d H; [discriminate H|].
  rewrite search_group_step in H.
  destruct (core_at decimal (c :: s)) as [d0|] eqn:Hc.
  - injection H as <-. exists []. split; [exact (core_at_sound _ _ Hc)|].
    intros pre' d' Hocc. split; [cbn; lia|].
    intros Hlen. destruct pre'; [|discriminate Hlen].
    rewrite (core_at_complete _ _ Hocc) in Hc. congruence.
  - destruct (IH d H) as (pre & Hocc & Hmin).
    exists (c :: pre).
    split; [exact (proj2 (asset_occurrence_cons c s pre d) Hocc)|].
    intros pre' d' Hocc'.
    destruct (asset_occurrence_head _ _ _ _ Hocc') as [-> | (pre2 & -> & Hocc2)].
    + rewrite (core_at_complete _ _ Hocc') in Hc. discriminate Hc.
    + destruct (Hmin pre2 d' Hocc2) as [Hle Heq]. cbn [List.length].
      split; [lia|]. intros Hlen. apply Heq. lia.
Qed.

End LocatorFacts.

(** X1: when the page is fetched with a success status and holds
    [assetList_<digits>.json] somewhere, the function returns the digits
    of the leftmost such place and prints nothing; quotes around the
    name play no part. *)
Theorem X1_locator_returns_leftmost_digits
  (decimal : N -> bool) (get : pystr -> Locator.exn + response)
  (base_url : pystr) (r : response) (pre d : pystr) :
  decimal 46%N = false ->
  get base_url = inr r ->
  raise_for_status r = None ->
  asset_occurrence decimal (text r) pre d ->
  exists pre0 d0,
    find_assetlist_url_static decimal get base_url = ([], inr (Some d0))
    /\ asset_occurrence decimal (text r) pre0 d0
    /\ forall pre' d', asset_occurrence decimal (text r) pre' d' ->
         (List.length pre0 <= List.length pre')%nat
         /\ (List.length pre0 = List.length pre' -> d' = d0).
Proof.
  intros Hdot Hget Hstatus Hocc. unfold find_assetlist_url_static.
  rewrite Hget, Hstatus.
  destruct (search_group decimal (text r)) as [d0|] eqn:Hs.
  - destruct (search_group_first decimal Hdot _ _ Hs) as (pre0 & Hocc0 & Hmin).
    exists pre0, d0. split; [reflexivity|]. split; assumption.
  - exfalso. exact (proj1 (search_group_none decimal Hdot _) Hs pre d Hocc).
Qed.

Lemma X1_locator_returns_leftmost_digits_witness :
  let r := {| status_code := 200;
              text := py "<a href='assetList_1726.json'>x assetList_9.json" |} in
  exists pre0 d0,
    find_assetlist_url_static isdigit (fun _ => inr r) BASE_URL
    = ([], inr (Some d0))
    /\ asset_occurrence isdigit (text r) pre0 d0
    /\ forall pre' d',
         asset_occurrence isdigit (text r) pre' d' ->
         (List.length pre0 <= List.length pre')%nat
         /\ (List.length pre0 = List.length pre' -> d' = d0).
Proof.
  intros r.
  apply (X1_locator_returns_leftmost_digits isdigit (fun _ => inr r) BASE_URL
           r (py "<a href='") (py "1726")).
  - reflexivity.
  - reflexivity.
  - reflexivity.
  - split; [discriminate|]. split; [repeat constructor|].
    exists (py "'>x assetList_9.json"). vm_compute. reflexivity.
Defined.

(** X2: when the page is fetched with a success status, the function
    returns [None], after printing one line and without raising, exactly
    when the page holds no [assetList_<digits>.json]. *)
Theorem X2_locator_absent_pattern
  (decimal : N -> bool) (get : pystr -> Locator.exn + response)
  (base_url : pystr) (r : response) :
  decimal 46%N = false ->
  get base_url = inr r ->
  raise_for_status r = None ->
  (find_assetlist_url_static decimal get base_url = ([not_found_line], inr None)
   <-> forall pre d, ~ asset_occurrence decimal (text r) pre d).
Proof.
  intros Hdot Hget Hstatus. unfold find_assetlist_url_static.
  rewrite Hget, Hstatus. rewrite <- (search_group_none decimal Hdot).
  destruct (search_group decimal (text r)); split; intros H;
    try reflexivity; discriminate H.
Qed.

Lemma X2_locator_absent_pattern_witness :
  let r := {| status_code := 200; text := py "<html></html>" |} in
  find_assetlist_url_static isdigit (fun _ => inr r) BASE_URL
  = ([not_found_line], inr None)
  <-> forall pre d, ~ asset_occurrence isdigit (text r) pre d.
Proof.
  intros r.
  apply (X2_locator_absent_pattern isdigit (fun _ => inr r) BASE_URL r);
    reflexivity.
Defined.

(** X3: a failed request, or a response with a status from 400 to 599,
    raises before the page is read: nothing is searched, printed or
    returned, whatever the body holds. *)
Theorem X3_locator_http_failure
  (decimal : N -> bool) (get : pystr -> Locator.exn + response)
  (base_url : pystr) :
  (forall e, get base_url = inl e ->
             find_assetlist_url_static decimal get base_url = ([], inl e))
  /\ (forall r, get base_url = inr r ->
                (400 <= status_code r < 600)%Z ->
                find_assetlist_url_static decimal get base_url
                = ([], inl (HTTPError (status_code r))))
  /\ (forall r, get base_url = inr r ->
                (status_code r < 400 \/ 600 <= status_code r)%Z ->
                exists result,
                  find_assetlist_url_static decimal get base_url
                  = (match result with Some _ => [] | None => [not_found_line] end,
                     inr result)).
Proof.
  unfold find_assetlist_url_static, raise_for_status.
  split; [|split].
  - intros e ->. reflexivity.
  - intros r -> Hs.
    destruct (Z.leb_spec 400 (status_code r)); [|lia].
    destruct (Z.ltb_spec (status_code r) 600); [|lia]. reflexivity.
  - intros r -> Hs.
    assert (E : ((400 <=? status_code r) && (status_code r <? 600))%Z = false).
    { destruct (Z.leb_spec 400 (status_code r));
        destruct (Z.ltb_spec (status_code r) 600); try reflexivity; lia. }
    rewrite E. exists (search_group decimal (text r)).
    destruct (search_group decimal (text r)); reflexivity.
Qed.

Lemma X3_locator_http_failure_witness :
  let r := {| status_code := 503; text := py "assetList_1.json" |} in
  find_assetlist_url_static isdigit (fun _ => inr r) BASE_URL
  = ([], inl (HTTPError 503)).
Proof.
  intros r.
  apply (proj1 (proj2 (X3_locator_http_failure isdigit (fun _ => inr r) BASE_URL)) r).
  - reflexivity.
  - cbn [status_code r]. lia.
Defined.

(** ** Manifest Fetcher: round trips and rows *)

Section SplitJoinFacts.

Local Open Scope N_scope.

Lemma split_runs_token (us : N) (t cur s : pystr) (in_run : bool) :
  t <> [] -> ~ In us t ->
  split_runs us cur in_run (t ++ s) = split_runs us (rev t ++ cur) false s.
Proof.
  revert cur in_run. induction t as [|c t IH]; intros cur in_run Hne Hin;
    [contradiction|].
  cbn [app split_runs].
  destruct (N.eqb_spec c us) as [->|Hc]; [exfalso; apply Hin; left; reflexivity|].
  destruct t as [|c' t'].
  - reflexivity.
  - rewrite IH; [|discriminate|intros H; apply Hin; right; exact H].
    cbn [rev]. rewrite <- !app_assoc. reflexivity.
Qed.

(** Splitting what [join] put together with one separator gives the
    tokens back. *)
Lemma split_runs_join (us : N) (toks : list pystr) (in_run : bool) :
  toks <> [] ->
  Forall (fun t => t <> [] /\ ~ In us t) toks ->
  split_runs us [] in_run (join [us] toks) = toks.
Proof.
  intros Hne Htoks. revert in_run.
  induction Htoks as [|t toks [Ht Hin] Hrest IH]; intros in_run; [contradiction|].
  destruct toks as [|t2 toks].
  - cbn [join]. rewrite <- (app_nil_r t) at 1.
    rewrite (split_runs_token us t [] [] in_run Ht Hin).
    cbn [split_runs]. rewrite app_nil_r, rev_involutive. reflexivity.
  - change (join [us] (t :: t2 :: toks)) with (t ++ [us] ++ join [us] (t2 :: toks)).
    rewrite (split_runs_token us t [] _ in_run Ht Hin).
    cbn [app split_runs]. rewrite N.eqb_refl.
    rewrite app_nil_r, rev_involutive. f_equal. apply IH. discriminate.
Qed.

Lemma lstrip_head (s : pystr) :
  match s with c :: _ => isspace c = false | [] => True end -> lstrip s = s.
Proof. destruct s as [|c s]; [reflexivity|]. cbn [lstrip]. intros ->. reflexivity. Qed.

(** Text with no white space at either end is left alone by [strip]. *)
Lemma strip_trimmed (s : pystr) : trimmed s -> strip s = s.
Proof.
  intros [Hhd Hlast]. unfold strip, rstrip.
  rewrite (lstrip_head s Hhd), (lstrip_head (rev s) Hlast).
  apply rev_involutive.
Qed.

Lemma replace_from_absent (old new s : pystr) :
  ~ occurs old s -> replace_from old new O s = s.
Proof.
  induction s as [|c s IH]; intros Hno; [reflexivity|].
  cbn [replace_from].
  destruct (startswith old (c :: s)) eqn:Hp.
  - exfalso. apply Hno. exists [], (skipn (List.length old) (c :: s)).
    exact (startswith_prefix old (c :: s) Hp).
  - f_equal. apply IH. intros (l & r & ->). apply Hno.
    exists (c :: l), r. reflexivity.
Qed.

(** [replace] changes nothing when [old] does not occur. *)
Lemma replace_absent (old new s : pystr) :
  old <> [] -> ~ occurs old s -> replace old new s = s.
Proof.
  intros Hne Hno. unfold replace. destruct old; [contradiction|].
  apply replace_from_absent, Hno.
Qed.

(** The city replacements change nothing in a text that holds none of
    the names they look for. *)
Lemma replacements_absent (x : pystr) :
  Forall (fun '(old, _) => ~ occurs old x) replacements ->
  fold_left (fun x '(old, new) => replace old new x) replacements x = x.
Proof.
  unfold replacements. intros Hall.
  repeat match goal with
         | H : Forall _ (_ :: _) |- _ =>
             apply List.Forall_cons_iff in H; destruct H as [? H]
         end.
  cbn [fold_left].
  repeat (rewrite (replace_absent _ _ x); [|discriminate|assumption]).
  reflexivity.
Qed.

End SplitJoinFacts.

(** X4: a label made of non-empty tokens without underscores, joined by
    single underscores and followed by [.csv], is normalised back to
    exactly those tokens, provided the joined text has no white space at
    its ends and holds none of the five city names written with an
    underscore. *)
Theorem X4_normalize_join_round_trip (toks : list pystr) :
  toks <> [] ->
  Forall (fun t => t <> [] /\ ~ In underscore t) toks ->
  trimmed (join [underscore] toks) ->
  Forall (fun '(old, _) => ~ occurs old (join [underscore] toks)) replacements ->
  normalize_filename_txt_kf (join [underscore] toks ++ csv_suffix) = toks.
Proof.
  intros Hne Htoks Htrim Hrepl. unfold normalize_filename_txt_kf.
  rewrite removesuffix_app, (strip_trimmed _ Htrim).
  rewrite (replacements_absent _ Hrepl). apply split_runs_join; assumption.
Qed.

Lemma X4_normalize_join_round_trip_witness :
  normalize_filename_txt_kf
    (join [underscore] [py "Hiper"; py "Ilica"; py "123"; py "Zagreb"; py "2030";
                        py "01012024"; py "1200"] ++ csv_suffix)
  = [py "Hiper"; py "Ilica"; py "123"; py "Zagreb"; py "2030";
     py "01012024"; py "1200"].
Proof.
  apply X4_normalize_join_round_trip.
  - discriminate.
  - repeat (constructor;
            [split; [discriminate|vm_compute; intuition discriminate]|]).
    constructor.
  - split; reflexivity.
  - repeat (constructor;
            [intros (l & r & H); vm_compute in H;
             repeat (destruct l as [|? l]; [discriminate H|injection H as <- H]);
             destruct l; discriminate H|]).
    constructor.
Defined.

(** X5: whenever the matcher returns a record, the token list is the
    store size, then the tokens the address was joined from, then city,
    store id, date and time: no token is lost or reordered. *)
Theorem X5_matcher_record_rebuilds_tokens (parts : list pystr) (m : metadata) :
  filename_structure_match_kf parts = inr m ->
  exists address_parts,
    parts = store_size m :: address_parts ++ [city m; store_id m; date m; time m]
    /\ address m = join space address_parts
    /\ List.length parts = (5 + List.length address_parts)%nat.
Proof.
  intros H.
  destruct (Nat.lt_ge_cases (List.length parts) 5) as [Hlt|Hge].
  - rewrite (match_short parts Hlt) in H. discriminate H.
  - destruct (long_shape parts Hge) as (size & addr & c & n & d & t & ->).
    rewrite match_shape in H. injection H as <-. exists addr.
    cbn [store_size city store_id date time address].
    split; [reflexivity|]. split; [reflexivity|].
    cbn [List.length]. rewrite List.length_app. cbn [List.length]. lia.
Qed.

Lemma X5_matcher_record_rebuilds_tokens_witness :
  exists address_parts,
    [py "Hiper"; py "Ilica"; py "123"; py "Zagreb"; py "2030"; py "01012024"; py "1200"]
    = py "Hiper" :: address_parts ++ [py "Zagreb"; py "2030"; py "01012024"; py "1200"]
    /\ py "Ilica 123" = join space address_parts
    /\ 7%nat = (5 + List.length address_parts)%nat.
Proof.
  exact (X5_matcher_record_rebuilds_tokens
           [py "Hiper"; py "Ilica"; py "123"; py "Zagreb"; py "2030";
            py "01012024"; py "1200"]
           {| store_size := py "Hiper"; address := py "Ilica 123";
              city := py "Zagreb"; store_id := py "2030";
              date := py "01012024"; time := py "1200" |}
           eq_refl).
Defined.

Section FetchRowsFacts.

Lemma match_all_rows (names : list (list pystr)) (ms : list metadata) :
  match_all names = inr ms ->
  List.length ms = List.length names
  /\ forall i nf, nth_error names i = Some nf ->
       exists m, nth_error ms i = Some m
                 /\ filename_structure_match_kf nf = inr m.
Proof.
  revert ms. induction names as [|nf names IH]; intros ms H.
  - injection H as <-. split; [reflexivity|]. intros [|i] nf H; discriminate H.
  - cbn [match_all] in H.
    destruct (filename_structure_match_kf nf) as [e|m] eqn:Hm; [discriminate H|].
    destruct (match_all names) as [e|ms']; [discriminate H|].
    injection H as <-. destruct (IH ms' eq_refl) as [Hlen Hnth].
    split; [cbn [List.length]; rewrite Hlen; reflexivity|].
    intros [|i] nf' Hi; cbn [nth_error] in *.
    + injection Hi as <-. exists m. split; [reflexivity|exact Hm].
    + exact (Hnth i nf' Hi).
Qed.

Lemma assign_all_rows (rows : list (metadata * pystr)) (es : list entry) :
  assign_all rows = Some es ->
  List.length es = List.length rows
  /\ forall i m p, nth_error rows i = Some (m, p) ->
       exists e, nth_error es i = Some e /\ assign m p = Some e.
Proof.
  revert es. induction rows as [|[m p] rows IH]; intros es H.
  - injection H as <-. split; [reflexivity|]. intros [|i] m p H; discriminate H.
  - cbn [assign_all] in H.
    destruct (assign m p) as [e|] eqn:He; [|discriminate H].
    destruct (assign_all rows) as [es'|]; [|discriminate H].
    injection H as <-. destruct (IH es' eq_refl) as [Hlen Hnth].
    split; [cbn [List.length]; rewrite Hlen; reflexivity|].
    intros [|i] m' p' Hi; cbn [nth_error] in *.
    + injection Hi as <- <-. exists e. split; [reflexivity|exact He].
    + exact (Hnth i m' p' Hi).
Qed.

Lemma assign_url (m : metadata) (p : pystr) (e : entry) :
  assign m p = Some e ->
  e_url e = host ++ p /\ e_store_size e = store_size m
  /\ e_address e = address m /\ e_city e = city m /\ e_time e = time m.
Proof.
  unfold assign. intros H.
  destruct (to_numeric_text (store_id m)) as [q|];
    [destruct (astype_Int16 q) as [z|]|];
    destruct (to_datetime_dmY (date m)); try discriminate H;
    injection H as <-; repeat split.
Qed.

End FetchRowsFacts.

(** X6: when [fetch_stores_dates] returns a table, it has one row for
    each element of the manifest, in the manifest's order and with
    nothing merged; row [i] carries the host followed by the path of
    element [i], and the fields matched from the label of element [i].
    An empty manifest gives no table: [KeyError]. *)
Theorem X6_fetch_rows_follow_manifest :
  (forall (csv_links : list csv_link) (df_url : list entry),
      fetch_stores_dates csv_links = inr (Some df_url) ->
      List.length df_url = List.length csv_links
      /\ forall i link, nth_error csv_links i = Some link ->
           exists e m,
             nth_error df_url i = Some e
             /\ filename_structure_match_kf
                  (normalize_filename_txt_kf (label link)) = inr m
             /\ e_url e = host ++ path link
             /\ e_store_size e = store_size m /\ e_address e = address m
             /\ e_city e = city m /\ e_time e = time m)
  /\ fetch_stores_dates [] = inl (KeyError date_column).
Proof.
  split; [|reflexivity].
  intros csv_links df_url H. unfold fetch_stores_dates in H.
  destruct (match_all _) as [e|ms] eqn:Hms; [discriminate H|].
  destruct (match_all_rows _ _ Hms) as [Hlen Hnth].
  rewrite !List.length_map in Hlen.
  assert (Hassign : assign_all (combine ms (List.map path csv_links)) = Some df_url).
  { destruct ms; [discriminate H|]. injection H as H. exact H. }
  destruct (assign_all_rows _ _ Hassign) as [Hlen' Hnth'].
  rewrite List.length_combine, List.length_map in Hlen'.
  split; [lia|].
  intros i link Hi.
  destruct (Hnth i (normalize_filename_txt_kf (label link))) as (m & Hm & Hmatch).
  { rewrite !nth_error_map, Hi. reflexivity. }
  destruct (Hnth' i m (path link)) as (e & He & Ha).
  { clear -Hm Hi. revert i ms Hm Hi.
    induction csv_links as [|l ls IH]; intros [|i] [|m0 ms] Hm Hi;
      cbn in *; try discriminate.
    - injection Hm as <-. injection Hi as <-. reflexivity.
    - exact (IH i ms Hm Hi). }
  exists e, m. split; [exact He|]. split; [exact Hmatch|].
  exact (assign_url m (path link) e Ha).
Qed.

Lemma X6_fetch_rows_follow_manifest_witness :
  List.length
    [ {| e_store_size := py "Super"; e_address := []; e_city := py "Zadar";
         e_store_id := 2030;
         e_date := Some {| year := 2024; month := 3; day := 5 |};
         e_time := py "0700"; e_url := host ++ py "/a.csv" |} ]
  = List.length [ {| label := py "Super_Zadar_2030_05032024_0700.csv";
                     path := py "/a.csv" |} ].
Proof.
  exact (proj1 (proj1 X6_fetch_rows_follow_manifest
                  [ {| label := py "Super_Zadar_2030_05032024_0700.csv";
                       path := py "/a.csv" |} ]
                  _ eq_refl)).
Defined.

(** ** Field Normalizer: a second pass, and distinct headers *)

Section RenameFacts.

Context {cell : Type}.

(** No name the tables give is itself a source header. *)
Lemma merged_targets_are_not_sources (k v : pystr) :
  dict_or PRICE_MAP FIELD_MAP !! k = Some v ->
  dict_or PRICE_MAP FIELD_MAP !! v = None.
Proof.
  revert k v.
  change (map_Forall (fun _ v => dict_or PRICE_MAP FIELD_MAP !! v = None)
                     (dict_or PRICE_MAP FIELD_MAP)).
  refine (bool_decide_unpack _ _). vm_compute. exact I.
Qed.

(** No two source headers are given the same name. *)
Lemma merged_targets_distinct (k1 k2 v : pystr) :
  dict_or PRICE_MAP FIELD_MAP !! k1 = Some v ->
  dict_or PRICE_MAP FIELD_MAP !! k2 = Some v ->
  k1 = k2.
Proof.
  intros H1 H2.
  assert (H : map_Forall
                (fun k1 v1 =>
                   map_Forall (fun k2 v2 => v1 = v2 -> k1 = k2)
                              (dict_or PRICE_MAP FIELD_MAP))
                (dict_or PRICE_MAP FIELD_MAP)).
  { refine (bool_decide_unpack _ _). vm_compute. exact I. }
  exact (H k1 v H1 k2 v H2 eq_refl).
Qed.

Lemma new_header_fixed (header : pystr) :
  new_header (new_header header) = new_header header.
Proof.
  unfold new_header.
  destruct (dict_or PRICE_MAP FIELD_MAP !! header) as [v|] eqn:H; simpl.
  - rewrite (merged_targets_are_not_sources _ _ H). reflexivity.
  - rewrite H. reflexivity.
Qed.

Lemma normalize_fields_headers (df : DataFrame cell) :
  List.map fst (normalize_fields df) = List.map new_header (List.map fst df).
Proof.
  unfold normalize_fields, rename. rewrite !List.map_map.
  apply List.map_ext. intros [header cells]. reflexivity.
Qed.

End RenameFacts.

(** X7: normalising the fields a second time changes nothing, because
    no name the tables give is a source header. *)
Theorem X7_normalize_fields_idempotent {cell : Type} (df : DataFrame cell) :
  normalize_fields (normalize_fields df) = normalize_fields df.
Proof.
  unfold normalize_fields, rename. rewrite List.map_map.
  apply List.map_ext. intros [header cells].
  change (default header (dict_or PRICE_MAP FIELD_MAP !! header))
    with (new_header header).
  change (default (new_header header)
                  (dict_or PRICE_MAP FIELD_MAP !! new_header header))
    with (new_header (new_header header)).
  rewrite new_header_fixed. reflexivity.
Qed.

(** X8: a table whose headers are pairwise distinct, none of them
    already one of the names the tables give, has pairwise distinct
    headers after the Field Normalizer; a table that holds both a source
    header and its new name ends with two columns of that name. *)
Theorem X8_normalize_fields_keeps_headers_distinct {cell : Type} :
  (forall df : DataFrame cell,
      List.NoDup (List.map fst df) ->
      Forall (fun header => ~ is_target_name header) (List.map fst df) ->
      List.NoDup (List.map fst (normalize_fields df)))
  /\ (forall cells1 cells2 : list cell,
        List.map fst
          (normalize_fields [(py "Sidrena cijena", cells1);
                             (py "anchor_price_date", cells2)])
        = [py "anchor_price_date"; py "anchor_price_date"]).
Proof.
  split; [|reflexivity].
  intros df Hnodup Hfresh. rewrite normalize_fields_headers.
  induction (List.map fst df) as [|h hs IH]; [constructor|].
  apply List.NoDup_cons_iff in Hnodup. destruct Hnodup as [Hh Hhs].
  inversion Hfresh as [|? ? Hfh Hfhs]; subst.
  cbn [List.map]. apply List.NoDup_cons; [|exact (IH Hhs Hfhs)].
  intros Hin. apply List.in_map_iff in Hin. destruct Hin as (h' & Heq & Hin').
  assert (Hf' : ~ is_target_name h').
  { clear -Hfhs Hin'. induction Hfhs as [|x xs Hx _ IHx]; [destruct Hin'|].
    destruct Hin' as [<-|Hin']; [exact Hx|exact (IHx Hin')]. }
  assert (h' = h); [|subst h'; exact (Hh Hin')].
  unfold new_header in Heq.
  destruct (dict_or PRICE_MAP FIELD_MAP !! h') as [v'|] eqn:H';
    destruct (dict_or PRICE_MAP FIELD_MAP !! h) as [v|] eqn:H; simpl in Heq.
  - subst v'. exact (merged_targets_distinct _ _ _ H' H).
  - subst v'. exfalso. apply Hfh. exists h'. exact H'.
  - subst h'. exfalso. apply Hf'. exists h. exact H.
  - exact Heq.
Qed.

Lemma X8_normalize_fields_keeps_headers_distinct_witness :
  List.NoDup (List.map fst
           (normalize_fields [(py "Sidrena cijena", [1%Z]);
                              (py "barkod", [2%Z]);
                              (py "napomena", [3%Z])])).
Proof.
  apply (proj1 X8_normalize_fields_keeps_headers_distinct).
  - repeat (constructor; [vm_compute; intuition discriminate|]). constructor.
  - repeat (constructor;
            [intros (source & H);
             match type of H with
             | _ = Some ?h =>
                 assert (Hall : map_Forall (fun _ v => v <> h)
                                           (dict_or PRICE_MAP FIELD_MAP))
                   by (refine (bool_decide_unpack _ _); vm_compute; exact I);
                 exact (Hall source h H eq_refl)
             end|]).
    constructor.
Defined.

(** ** Choosing and loading today's file *)

Section MainFacts.

Lemma date_eqb_eq (a b : Pandas.date) : Main.date_eqb a b = true -> a = b.
Proof.
  unfold Main.date_eqb. destruct a as [ya ma da], b as [yb mb db].
  cbn [year month day]. intros H.
  apply andb_prop in H. destruct H as [H Hd].
  apply andb_prop in H. destruct H as [Hy Hm].
  apply Z.eqb_eq in Hy, Hm, Hd. congruence.
Qed.

Lemma todays_file_spec (TODAY : Pandas.date) (e : entry) :
  Main.todays_file TODAY e = true ->
  e_date e = Some TODAY /\ e_store_id e = 2030%Z.
Proof.
  unfold Main.todays_file. intros H.
  apply andb_prop in H. destruct H as [Hd Hid].
  apply Z.eqb_eq in Hid. split; [|exact Hid].
  destruct (e_date e) as [d|]; [|discriminate Hd].
  f_equal. apply date_eqb_eq, Hd.
Qed.

Lemma filter_none {A : Type} (f : A -> bool) (l : list A) :
  Forall (fun x => f x = false) l -> List.filter f l = [].
Proof.
  induction 1 as [|x l Hx _ IH]; [reflexivity|].
  cbn [List.filter]. rewrite Hx. exact IH.
Qed.

End MainFacts.

(** X9: the address handed to the loader is one string exactly when one
    row of the manifest table has today's date and store id 2030, and it
    is then that row's address; a row with a missing date is never
    chosen; with no such row, or with several, what is handed on is a
    Series (empty, or holding all their addresses). *)
Theorem X9_url_filtered_single_row (TODAY : Pandas.date) :
  (forall (before after : list entry) (e : entry),
      Forall (fun x => Main.todays_file TODAY x = false) before ->
      Main.todays_file TODAY e = true ->
      Forall (fun x => Main.todays_file TODAY x = false) after ->
      Main.url_filtered TODAY (before ++ e :: after) = Main.Scalar (e_url e))
  /\ (forall (df_url : list entry) (u : pystr),
        Main.url_filtered TODAY df_url = Main.Scalar u ->
        exists before e after,
          df_url = before ++ e :: after /\ e_url e = u
          /\ e_date e = Some TODAY /\ e_store_id e = 2030%Z
          /\ Forall (fun x => Main.todays_file TODAY x = false) before
          /\ Forall (fun x => Main.todays_file TODAY x = false) after)
  /\ (forall df_url : list entry,
        Forall (fun x => Main.todays_file TODAY x = false) df_url ->
        Main.url_filtered TODAY df_url = Main.Series [])
  /\ (forall e : entry, e_date e = None -> Main.todays_file TODAY e = false).
Proof.
  split; [|split; [|split]].
  - intros before after e Hb He Ha. unfold Main.url_filtered.
    rewrite List.filter_app. cbn [List.filter]. rewrite He.
    rewrite (filter_none _ _ Hb), (filter_none _ _ Ha). reflexivity.
  - intros df_url u. unfold Main.url_filtered.
    induction df_url as [|x xs IH]; [discriminate|].
    cbn [List.filter]. destruct (Main.todays_file TODAY x) eqn:Hx.
    + cbn [List.map]. intros H.
      destruct (List.map e_url (List.filter (Main.todays_file TODAY) xs))
        as [|u2 us] eqn:Hrest; [|destruct us; discriminate H].
      injection H as <-.
      destruct (todays_file_spec _ _ Hx) as [Hd Hid].
      exists [], x, xs. repeat split; try assumption; try constructor.
      apply List.Forall_forall. intros y Hy.
      destruct (Main.todays_file TODAY y) eqn:E; [|reflexivity].
      assert (Hin : In y (List.filter (Main.todays_file TODAY) xs))
        by (apply List.filter_In; split; assumption).
      destruct (List.filter (Main.todays_file TODAY) xs); [destruct Hin|discriminate Hrest].
    + intros H. destruct (IH H) as (b & e & a & -> & Hu & Hd & Hid & Hb & Ha).
      exists (x :: b), e, a. repeat split; try assumption.
      constructor; assumption.
  - intros df_url H. unfold Main.url_filtered.
    rewrite (filter_none _ _ H). reflexivity.
  - intros e He. unfold Main.todays_file. rewrite He. reflexivity.
Qed.

Lemma X9_url_filtered_single_row_witness :
  let e := {| e_store_size := py "Super"; e_address := []; e_city := py "Zadar";
              e_store_id := 2030;
              e_date := Some {| year := 2024; month := 3; day := 5 |};
              e_time := py "0700"; e_url := host ++ py "/a.csv" |} in
  let old := {| e_store_size := py "Super"; e_address := []; e_city := py "Zadar";
                e_store_id := 2030;
                e_date := Some {| year := 2024; month := 3; day := 4 |};
                e_time := py "0700"; e_url := host ++ py "/b.csv" |} in
  Main.url_filtered {| year := 2024; month := 3; day := 5 |} ([old] ++ e :: [])
  = Main.Scalar (e_url e).
Proof.
  intros e old.
  apply (proj1 (X9_url_filtered_single_row {| year := 2024; month := 3; day := 5 |})).
  - repeat constructor.
  - reflexivity.
  - constructor.
Defined.

(** X10: a failure of the first read that is no decode error is raised
    to the caller as it is, with no second read and nothing printed; so
    is a failure of the second read that is no [Exception].  Whenever a
    table is returned it is the one the last read gave, and exactly one
    line was printed. *)
Theorem X10_read_csv_kf_failures_and_results
  (DataFrame : Type) (read_csv : read_csv_call -> Loader.exn + DataFrame)
  (filename : pystr) :
  let result := read_csv_kf DataFrame read_csv filename in
  (forall e, read_csv (call filename utf_8) = inl e ->
             (forall msg, e <> UnicodeDecodeError msg) ->
             result = ([Read (call filename utf_8)], Raise e))
  /\ (forall msg e,
        read_csv (call filename utf_8) = inl (UnicodeDecodeError msg) ->
        read_csv (call filename windows_1250) = inl e ->
        is_Exception e = false ->
        result = ([Read (call filename utf_8); Read (call filename windows_1250)],
                  Raise e))
  /\ (forall df, snd result = Return (Some df) ->
        exists c line,
          List.last (attempts (fst result)) (call filename utf_8) = c
          /\ read_csv c = inr df
          /\ List.filter (fun ev => match ev with Print _ => true | Read _ => false end)
                         (fst result)
             = [Print line]).
Proof.
  cbv zeta. unfold read_csv_kf. split; [|split].
  - intros e He Hne. rewrite He. destruct e; try reflexivity.
    exfalso. exact (Hne msg eq_refl).
  - intros msg e H1 H2 He. rewrite H1, H2, He. reflexivity.
  - intros df.
    destruct (read_csv (call filename utf_8)) as [[msg|msg|msg]|df1] eqn:H1;
      cbn [snd fst]; try discriminate.
    + destruct (read_csv (call filename windows_1250)) as [e|df2] eqn:H2.
      * destruct (is_Exception e); discriminate.
      * cbn [snd fst]. intros [= <-]. eexists; eexists.
        split; [reflexivity|]. split; [exact H2|reflexivity].
    + intros [= <-]. eexists; eexists.
      split; [reflexivity|]. split; [exact H1|reflexivity].
Qed.

Lemma X10_read_csv_kf_failures_and_results_witness :
  read_csv_kf unit (fun _ => inl (OtherException (py "HTTP Error 404")))
    (py "https://www.kaufland.hr/a.csv")
  = ([Read (call (py "https://www.kaufland.hr/a.csv") utf_8)],
     Raise (OtherException (py "HTTP Error 404"))).
Proof.
  apply (proj1 (X10_read_csv_kf_failures_and_results unit
                  (fun _ => inl (OtherException (py "HTTP Error 404")))
                  (py "https://www.kaufland.hr/a.csv"))).
  - reflexivity.
  - intros msg. discriminate.
Defined.

(** X11: the main block does not test what the loader returns.  When
    both encodings fail, the renaming that follows raises
    [AttributeError], after the failure was printed; when a read
    succeeds, the table that goes on holds the cells that were read,
    column by column, under the new headers. *)
Theorem X11_load_and_rename {cell : Type}
  (read_csv : read_csv_call -> Loader.exn + DataFrame cell) (url : pystr) :
  (forall msg e,
      read_csv (call url utf_8) = inl (UnicodeDecodeError msg) ->
      read_csv (call url windows_1250) = inl e ->
      is_Exception e = true ->
      Main.load_and_rename read_csv url
      = ([Read (call url utf_8); Read (call url windows_1250);
          Print (py "Both encodings failed: " ++ str_of e)],
         inl Main.AttributeError))
  /\ (forall df, snd (Main.load_and_rename read_csv url) = inr df ->
        exists c df_in,
          read_csv c = inr df_in /\ filepath c = url
          /\ df = normalize_fields df_in
          /\ List.map snd df = List.map snd df_in
          /\ List.map fst df = List.map new_header (List.map fst df_in)).
Proof.
  unfold Main.load_and_rename, read_csv_kf. split.
  - intros msg e H1 H2 He. rewrite H1, H2, He. reflexivity.
  - intros df.
    destruct (read_csv (call url utf_8)) as [[msg|msg|msg]|df1] eqn:H1;
      cbn [snd]; try discriminate.
    + destruct (read_csv (call url windows_1250)) as [e|df2] eqn:H2.
      * destruct (is_Exception e); discriminate.
      * cbn [snd]. intros [= <-]. exists (call url windows_1250), df2.
        split; [exact H2|]. split; [reflexivity|]. split; [reflexivity|].
        split; [apply rename_cells|apply normalize_fields_headers].
    + intros [= <-]. exists (call url utf_8), df1.
      split; [exact H1|]. split; [reflexivity|]. split; [reflexivity|].
      split; [apply rename_cells|apply normalize_fields_headers].
Qed.

Lemma X11_load_and_rename_witness :
  Main.load_and_rename (cell := Z)
    (fun _ => inl (UnicodeDecodeError (py "invalid start byte")))
    (py "https://www.kaufland.hr/a.csv")
  = ([Read (call (py "https://www.kaufland.hr/a.csv") utf_8);
      Read (call (py "https://www.kaufland.hr/a.csv") windows_1250);
      Print (py "Both encodings failed: "
             ++ str_of (UnicodeDecodeError (py "invalid start byte")))],
     inl Main.AttributeError).
Proof.
  exact (proj1 (X11_load_and_rename (cell := Z)
                  (fun _ => inl (UnicodeDecodeError (py "invalid start byte")))
                  (py "https://www.kaufland.hr/a.csv"))
           (py "invalid start byte")
           (UnicodeDecodeError (py "invalid start byte"))
           eq_refl eq_refl eq_refl).
Defined.

(** ** Tidy Transform: the best price *)

Section BestPriceFacts.

Local Open Scope N_scope.

Variable decimal : N -> bool.

Lemma skip_space_keeps (c : N) (s : pystr) :
  isspace_ascii c = false -> In c s -> In c (skip_space s).
Proof.
  intros Hc. induction s as [|x s IH]; intros Hin; [destruct Hin|].
  cbn [skip_space]. destruct (isspace_ascii x) eqn:Hx; [|exact Hin].
  destruct Hin as [->|Hin]; [congruence|exact (IH Hin)].
Qed.

(** Text that holds a comma is no numeral for [pd.to_numeric]. *)
Lemma to_numeric_text_comma (s : pystr) :
  In comma s -> to_numeric_text s = None.
Proof.
  intros Hin. unfold to_numeric_text.
  destruct (parse_decimal dot _) as [q|] eqn:Hq; [|reflexivity].
  exfalso. destruct (parse_decimal_chars _ _ _ Hq) as [_ Hchars].
  assert (Hc : In comma (rev (skip_space (rev (skip_space s))))).
  { rewrite <- in_rev. apply skip_space_keeps; [reflexivity|].
    rewrite <- in_rev. apply skip_space_keeps; [reflexivity|exact Hin]. }
  rewrite List.Forall_forall in Hchars.
  destruct (Hchars comma Hc) as [H|[H|[H|H]]]; discriminate H.
Qed.

Lemma to_numeric_text_numeral (num : pystr) (q : Q) :
  parse_decimal dot num = Some q -> to_numeric_text num = Some q.
Proof.
  intros Hq. destruct (parse_decimal_chars _ _ _ Hq) as [Hne Hchars].
  rewrite <- (app_nil_r num). rewrite to_numeric_text_padded.
  - exact Hq.
  - exact Hne.
  - eapply List.Forall_impl; [|exact Hchars]. exact numeral_char_not_space.
  - constructor.
Qed.

Lemma sanitize_junk (pre num post : pystr) :
  Forall (fun c => kept decimal c = false) pre ->
  Forall (fun c => kept decimal c = true) num ->
  Forall (fun c => kept decimal c = false) post ->
  sanitize decimal (pre ++ num ++ post) = num.
Proof.
  intros Hpre Hnum Hpost. unfold sanitize.
  rewrite !List.filter_app, (filter_none _ _ Hpre), (filter_none _ _ Hpost).
  rewrite app_nil_r. cbn [app].
  induction Hnum as [|c num Hc _ IH]; [reflexivity|].
  cbn [List.filter]. rewrite Hc, IH. reflexivity.
Qed.

End BestPriceFacts.

(** X12: a best price written with a decimal comma is read as missing.
    The clean-up keeps commas, and [pd.to_numeric] reads no numeral that
    holds one; so is any cell that is not text. *)
Theorem X12_best_price_comma_is_missing (decimal : N -> bool) :
  (forall s : pystr,
      In comma s -> best_price_30 decimal (PyStr s) = Missing)
  /\ (forall z : Z, best_price_30 decimal (PyInt z) = Missing)
  /\ (forall f : B64.float, best_price_30 decimal (PyFloat f) = Missing).
Proof.
  split; [|split; reflexivity].
  intros s Hin. unfold best_price_30, to_numeric_coerce, str_method, to_numeric.
  assert (Hc : In comma (sanitize decimal s)).
  { unfold sanitize. apply List.filter_In. split; [exact Hin|].
    unfold kept. rewrite N.eqb_refl. rewrite !orb_true_r. reflexivity. }
  destruct (sanitize decimal s) as [|c t] eqn:E; [reflexivity|].
  rewrite (to_numeric_text_comma (c :: t) Hc). reflexivity.
Qed.

Lemma X12_best_price_comma_is_missing_witness :
  best_price_30 isdigit (PyStr (py "12,50 €")) = Missing.
Proof.
  apply (proj1 (X12_best_price_comma_is_missing isdigit)).
  vm_compute. intuition.
Defined.

(** X13: whatever the clean-up leaves is what is read: when the code
    points kept from a cell form a numeral with a decimal dot, the best
    price is that number; in particular text around a numeral that holds
    no digit, dot, comma or minus sign is ignored. *)
Theorem X13_best_price_ignores_other_text (decimal : N -> bool) :
  (forall (s : pystr) (q : Q),
      parse_decimal dot (sanitize decimal s) = Some q ->
      best_price_30 decimal (PyStr s) = Num q)
  /\ (forall (pre num post : pystr) (q : Q),
        Forall (fun c => kept decimal c = false) pre ->
        Forall (fun c => kept decimal c = true) num ->
        Forall (fun c => kept decimal c = false) post ->
        parse_decimal dot num = Some q ->
        best_price_30 decimal (PyStr (pre ++ num ++ post)) = Num q).
Proof.
  assert (H : forall (s : pystr) (q : Q),
             parse_decimal dot (sanitize decimal s) = Some q ->
             best_price_30 decimal (PyStr s) = Num q).
  { intros s q Hq.
    unfold best_price_30, to_numeric_coerce, str_method, to_numeric.
    rewrite (to_numeric_text_numeral _ _ Hq).
    destruct (sanitize decimal s); [discriminate Hq|reflexivity]. }
  split; [exact H|].
  intros pre num post q Hpre Hnum Hpost Hq. apply H.
  rewrite (sanitize_junk decimal pre num post Hpre Hnum Hpost). exact Hq.
Qed.

Lemma X13_best_price_ignores_other_text_witness :
  best_price_30 isdigit (PyStr (py "*" ++ py "12.50" ++ py " €")) = Num (25 # 2).
Proof.
  apply (proj2 (X13_best_price_ignores_other_text isdigit)).
  - repeat constructor.
  - repeat constructor.
  - repeat constructor.
  - reflexivity.
Defined.

(** ** Tidy Transform: the anchor cell as a whole *)

Section AnchorCellFacts.

Local Open Scope N_scope.

Lemma digit_char_bounds (v : Z) :
  (0 <= v <= 9)%Z -> 48 <= digit_char v <= 57.
Proof. intros Hv. unfold digit_char. lia. Qed.

Lemma isspace_digit (c : N) : 48 <= c <= 57 -> isspace c = false.
Proof.
  intros Hc. unfold isspace.
  repeat match goal with
         | |- context [?a <=? ?b] => destruct (N.leb_spec a b); try lia
         | |- context [?a =? ?b] => destruct (N.eqb_spec a b); try lia
         end; reflexivity.
Qed.

Lemma two_digits_bounds (v : Z) :
  (0 <= v <= 99)%Z ->
  (0 <= v / 10 <= 9)%Z /\ (0 <= v mod 10 <= 9)%Z /\ (10 * (v / 10) + v mod 10 = v)%Z.
Proof. intros Hv. repeat split; Z.to_euclidean_division_equations; lia. Qed.

Lemma parse_2digit_two_digits (v : Z) :
  (0 <= v <= 99)%Z ->
  parse_2digit (digit_char (v / 10)) (digit_char (v mod 10)) = Some v.
Proof.
  intros Hv. destruct (two_digits_bounds v Hv) as (H1 & H0 & Hsum).
  unfold parse_2digit. rewrite !isdigit_digit_char by assumption. cbn [andb].
  unfold digits_value. cbn [fold_left].
  rewrite !digit_val_digit_char by lia. f_equal. lia.
Qed.

(** Reading [DD.MM.YYYY] day first gives back the date written. *)
Lemma to_datetime_dayfirst_DD_MM_YYYY (dt : Pandas.date) :
  valid_date (year dt) (month dt) (day dt) = true ->
  (1000 <= year dt)%Z ->
  to_datetime_dayfirst (DD_MM_YYYY dt) = Some dt.
Proof.
  intros Hvalid Hy. destruct dt as [y m d]. cbn [year month day] in *.
  destruct (valid_date_bounds _ _ _ Hvalid) as (Hy' & Hm & Hd).
  unfold DD_MM_YYYY, two_digits, four_digits. cbn [app year month day].
  unfold to_datetime_dayfirst.
  change (is_delimiter dot) with true. cbn [andb].
  assert (H3 : (0 <= y / 1000 <= 9)%Z) by (Z.to_euclidean_division_equations; lia).
  assert (H2 : (0 <= y / 100 mod 10 <= 9)%Z) by (Z.to_euclidean_division_equations; lia).
  assert (H1 : (0 <= y / 10 mod 10 <= 9)%Z) by (Z.to_euclidean_division_equations; lia).
  assert (H0 : (0 <= y mod 10 <= 9)%Z) by (Z.to_euclidean_division_equations; lia).
  rewrite !isdigit_digit_char by assumption. cbn [andb].
  rewrite !parse_2digit_two_digits by lia.
  assert (Hval : digits_value [digit_char (y / 1000); digit_char (y / 100 mod 10);
                               digit_char (y / 10 mod 10); digit_char (y mod 10)]
                 = y).
  { unfold digits_value. cbn [fold_left].
    rewrite !digit_val_digit_char by lia.
    Z.to_euclidean_division_equations; lia. }
  rewrite Hval.
  destruct (Z.leb_spec m 12); [|lia].
  destruct (Z.leb_spec 1000 y); [|lia].
  cbn [andb]. rewrite Hvalid. reflexivity.
Qed.

Lemma count_char_absent (c : N) (s : pystr) :
  ~ In c s -> count_char c s = 0%nat.
Proof.
  unfold count_char. induction s as [|x s IH]; intros Hno; [reflexivity|].
  cbn [List.filter]. destruct (N.eqb_spec c x) as [->|_].
  - exfalso. apply Hno. left. reflexivity.
  - apply IH. intros H. apply Hno. right. exact H.
Qed.

Lemma count_char_once (c : N) (l r : pystr) :
  ~ In c l -> ~ In c r -> count_char c (l ++ c :: r) = 1%nat.
Proof.
  intros Hl Hr. unfold count_char.
  rewrite List.filter_app, List.length_app. cbn [List.filter].
  rewrite N.eqb_refl. cbn [List.length].
  fold (count_char c l) (count_char c r).
  rewrite (count_char_absent c l Hl), (count_char_absent c r Hr). reflexivity.
Qed.

Lemma split_first_at (c : N) (l r : pystr) :
  ~ In c l -> split_first c (l ++ c :: r) = (l, r).
Proof.
  induction l as [|x l IH]; intros Hl; cbn [app split_first].
  - rewrite N.eqb_refl. reflexivity.
  - destruct (N.eqb_spec x c) as [->|_]; [exfalso; apply Hl; left; reflexivity|].
    rewrite IH; [reflexivity|]. intros H. apply Hl. right. exact H.
Qed.

Lemma removeprefix_MPC (s : pystr) : removeprefix MPC (MPC ++ s) = s.
Proof.
  unfold removeprefix. rewrite startswith_app.
  rewrite skipn_app, Nat.sub_diag, skipn_all, skipn_O. reflexivity.
Qed.

Lemma numeral_char_bounds (sep c : N) :
  numeral_char sep c -> 48 <= c <= 57 \/ c = sep \/ c = 45 \/ c = 43.
Proof.
  intros [H|[H|[H|H]]]; [left; apply isdigit_bounds, H|auto..].
Qed.

End AnchorCellFacts.

(** X14: for every date of the calendar and every price written with a
    decimal comma, the cell [MPC DD.MM.YYYY=<price> €] (with any white
    space before the euro sign) gives that date as anchor date and that
    number as anchor price, and logs nothing. *)
Theorem X14_anchor_cell_round_trip
  (dt : Pandas.date) (price space_after : pystr) (q : Q) :
  valid_date (year dt) (month dt) (day dt) = true ->
  (1678 <= year dt <= 2261)%Z ->
  parse_decimal comma price = Some q ->
  Forall (fun c => isspace_ascii c = true) space_after ->
  anchor_fields (PyStr (anchor_cell dt price space_after))
  = ([], inr (Some dt, Num q)).
Proof.
  intros Hvalid Hyear Hq Hws.
  destruct (valid_date_bounds _ _ _ Hvalid) as (Hy' & Hm & Hd).
  destruct (parse_decimal_chars _ _ _ Hq) as [Hne Hchars].
  assert (H3 : (0 <= year dt / 1000 <= 9)%Z) by (Z.to_euclidean_division_equations; lia).
  assert (H2 : (0 <= year dt / 100 mod 10 <= 9)%Z) by (Z.to_euclidean_division_equations; lia).
  assert (H1 : (0 <= year dt / 10 mod 10 <= 9)%Z) by (Z.to_euclidean_division_equations; lia).
  assert (H0 : (0 <= year dt mod 10 <= 9)%Z) by (Z.to_euclidean_division_equations; lia).
  destruct (two_digits_bounds (day dt) ltac:(lia)) as (Hd1 & Hd0 & _).
  destruct (two_digits_bounds (month dt) ltac:(lia)) as (Hm1 & Hm0 & _).
  pose proof (digit_char_bounds _ H3) as B3.
  pose proof (digit_char_bounds _ H2) as B2.
  pose proof (digit_char_bounds _ H1) as B1.
  pose proof (digit_char_bounds _ H0) as B0.
  pose proof (digit_char_bounds _ Hd1) as Bd1.
  pose proof (digit_char_bounds _ Hd0) as Bd0.
  pose proof (digit_char_bounds _ Hm1) as Bm1.
  pose proof (digit_char_bounds _ Hm0) as Bm0.
  set (left_text := MPC ++ [32%N] ++ DD_MM_YYYY dt).
  set (right_text := (price ++ space_after) ++ euro).
  assert (Hleft : ~ In equals_sign left_text).
  { subst left_text. unfold DD_MM_YYYY, two_digits, four_digits, MPC, equals_sign.
    cbn [app In]. unfold dot. intuition lia. }
  assert (Hright : ~ In equals_sign right_text).
  { subst right_text. intros Hin.
    apply in_app_or in Hin. destruct Hin as [Hin|Hin].
    - apply in_app_or in Hin. destruct Hin as [Hin|Hin].
      + rewrite List.Forall_forall in Hchars.
        apply Hchars, numeral_char_bounds in Hin.
        unfold equals_sign, comma in Hin. lia.
      + rewrite List.Forall_forall in Hws.
        apply Hws, isspace_ascii_bounds in Hin. unfold equals_sign in Hin. lia.
    - unfold euro, equals_sign in Hin. cbn [In] in Hin. intuition lia. }
  unfold anchor_fields, prepare_anchor, anchor_cell. cbn [isna].
  fold left_text right_text.
  rewrite (count_char_once _ _ _ Hleft Hright). cbn [Nat.eqb negb].
  rewrite (split_first_at _ _ _ Hleft).
  assert (Hsl : strip left_text = left_text).
  { apply strip_trimmed. subst left_text.
    unfold DD_MM_YYYY, two_digits, four_digits, MPC. cbn [app rev].
    split; [reflexivity|]. apply isspace_digit. exact B0. }
  assert (Hsr : strip right_text = right_text).
  { apply strip_trimmed. subst right_text. split.
    - destruct price as [|c price]; [contradiction|]. cbn [app].
      inversion Hchars as [|? ? Hc _]; subst.
      apply numeral_char_bounds in Hc. unfold comma in Hc. unfold isspace.
      repeat match goal with
             | |- context [(?a <=? ?b)%N] => destruct (N.leb_spec a b); try lia
             | |- context [(?a =? ?b)%N] => destruct (N.eqb_spec a b); try lia
             end; reflexivity.
    - rewrite rev_app_distr. reflexivity. }
  rewrite Hsl, Hsr. f_equal. f_equal. f_equal.
  - unfold anchor_date, str_method. subst left_text.
    rewrite removeprefix_MPC. cbn [app]. unfold strip. cbn [lstrip].
    change (isspace 32) with true. cbv iota.
    fold (strip (DD_MM_YYYY dt)).
    rewrite strip_trimmed.
    + apply to_datetime_dayfirst_DD_MM_YYYY; [exact Hvalid|lia].
    + unfold DD_MM_YYYY, two_digits, four_digits. cbn [app rev]. split.
      * apply isspace_digit. exact Bd1.
      * apply isspace_digit. exact B0.
  - subst right_text.
    exact (proj1 (anchor_price_of_price_text price space_after q Hq Hws)).
Qed.

Lemma X14_anchor_cell_round_trip_witness :
  anchor_fields
    (PyStr (anchor_cell {| year := 2023; month := 12; day := 1 |}
                        (py "12,50") (py " ")))
  = ([], inr (Some {| year := 2023; month := 12; day := 1 |}, Num (25 # 2))).
Proof.
  apply X14_anchor_cell_round_trip.
  - reflexivity.
  - cbn [year]. lia.
  - reflexivity.
  - repeat constructor.
Defined.

(** ** Tidy Transform: the log, the decimal mark, equal prices *)

Section LogFacts.

Lemma prepare_anchor_log (x : pyval) :
  text_or_missing x ->
  List.length (fst (prepare_anchor x)) = (if malformed x then 1 else 0)%nat
  /\ (malformed x = true -> snd (prepare_anchor x) = inr (PdNA, PdNA)).
Proof.
  intros [Hna|[s ->]]; unfold prepare_anchor, malformed.
  - rewrite Hna. split; reflexivity.
  - cbn [isna orb].
    destruct (negb (count_char equals_sign s =? 1)%nat); [split; reflexivity|].
    destruct (split_first equals_sign s). split; [reflexivity|discriminate].
Qed.

End LogFacts.

(** X15: down a column of text and missing values, exactly one warning
    is logged for each cell that is missing or does not hold exactly one
    [=], none for the others, and the warnings come in row order; each
    such row gets two missing values. *)
Theorem X15_one_warning_per_malformed_row (column : list pyval) :
  Forall text_or_missing column ->
  fst (apply_prepare_anchor column)
  = flat_map (fun x => fst (prepare_anchor x)) column
  /\ List.length (fst (apply_prepare_anchor column))
     = List.length (List.filter malformed column)
  /\ forall rows i x,
       snd (apply_prepare_anchor column) = inr rows ->
       nth_error column i = Some x -> malformed x = true ->
       nth_error rows i = Some (PdNA, PdNA).
Proof.
  intros Hcol.
  assert (Hlog : fst (apply_prepare_anchor column)
                 = flat_map (fun x => fst (prepare_anchor x)) column).
  { induction Hcol as [|x column Hx Hcol IH]; [reflexivity|].
    cbn [apply_prepare_anchor flat_map].
    destruct (prepare_anchor_text_or_missing x Hx) as (w & row & Hrow).
    rewrite Hrow in *. cbn [fst].
    destruct (apply_prepare_anchor column) as [w' [e|rows]];
      cbn [fst] in *; rewrite IH; reflexivity. }
  split; [exact Hlog|]. split.
  - rewrite Hlog. clear Hlog.
    induction Hcol as [|x column Hx Hcol IH]; [reflexivity|].
    cbn [flat_map List.filter]. rewrite List.length_app, IH.
    rewrite (proj1 (prepare_anchor_log x Hx)).
    destruct (malformed x); reflexivity.
  - intros rows i x Hrows Hi Hbad.
    destruct (apply_prepare_anchor_rows column Hcol) as (w & rows' & Ha & _ & Hnth).
    rewrite Ha in Hrows. cbn [snd] in Hrows. injection Hrows as <-.
    destruct (Hnth i x Hi) as (row & Hrow & Hsnd).
    assert (Hx : text_or_missing x).
    { rewrite List.Forall_forall in Hcol. apply Hcol.
      eapply nth_error_In. exact Hi. }
    rewrite (proj2 (prepare_anchor_log x Hx) Hbad) in Hsnd.
    injection Hsnd as <-. exact Hrow.
Qed.

Lemma X15_one_warning_per_malformed_row_witness :
  List.length
    (fst (apply_prepare_anchor
            [PyStr (py "MPC 01.12.2023=12,50 €"); PyFloat S754_nan;
             PyStr (py "a=b=c")]))
  = List.length
      (List.filter malformed
         [PyStr (py "MPC 01.12.2023=12,50 €"); PyFloat S754_nan;
          PyStr (py "a=b=c")]).
Proof.
  apply (X15_one_warning_per_malformed_row
           [PyStr (py "MPC 01.12.2023=12,50 €"); PyFloat S754_nan;
            PyStr (py "a=b=c")]).
  constructor; [right; eexists; reflexivity|].
  constructor; [left; reflexivity|].
  constructor; [right; eexists; reflexivity|constructor].
Defined.

(** X16: what [replace_with_dot_if_number] returns never holds a comma,
    and applying it to its own result changes nothing. *)
Theorem X16_replace_with_dot_leaves_no_comma (x : pyval) :
  (forall s, replace_with_dot_if_number x = PyStr s -> ~ In comma s)
  /\ replace_with_dot_if_number (replace_with_dot_if_number x)
     = replace_with_dot_if_number x.
Proof.
  assert (Hmap : forall s, ~ In comma (List.map comma_to_dot s)).
  { intros s Hin. apply List.in_map_iff in Hin. destruct Hin as (c & Hc & _).
    unfold comma_to_dot in Hc.
    destruct (N.eqb_spec c comma) as [E|Hne]; [discriminate Hc|].
    exact (Hne Hc). }
  assert (Hidem : forall s, List.map comma_to_dot (List.map comma_to_dot s)
                            = List.map comma_to_dot s).
  { intros s. rewrite List.map_map. apply List.map_ext. intros c.
    unfold comma_to_dot. destruct (N.eqb_spec c comma) as [E|Hne];
      [reflexivity|].
    destruct (N.eqb_spec c comma); [contradiction|reflexivity]. }
  unfold replace_with_dot_if_number.
  destruct x as [| |f|z|s]; cbn [isna].
  - split; [discriminate|reflexivity].
  - split; [discriminate|reflexivity].
  - destruct (B64.is_nan f) eqn:Hf; cbn [isna]; [split; [discriminate|reflexivity]|].
    rewrite Hf. split; [discriminate|reflexivity].
  - split; [discriminate|reflexivity].
  - destruct s as [|c s]; cbn [List.length Nat.eqb isna].
    + split; [discriminate|reflexivity].
    + rewrite replace_comma_dot. split.
      * intros s' [= <-]. exact (Hmap (c :: s)).
      * cbn [List.map List.length Nat.eqb].
        change (comma_to_dot c :: List.map comma_to_dot s)
          with (List.map comma_to_dot (c :: s)).
        rewrite replace_comma_dot, Hidem. reflexivity.
Qed.

Lemma X16_replace_with_dot_leaves_no_comma_witness :
  ~ In comma (py "1.234.50").
Proof.
  apply (proj1 (X16_replace_with_dot_leaves_no_comma (PyStr (py "1,234,50")))).
  reflexivity.
Defined.

(** X17: a row whose price equals its anchor price, both finite and not
    zero, has ratio exactly zero, with the sign of the price. *)
Theorem X17_equal_prices_give_zero (s : bool) (m : positive) (e : Z) :
  price_anchor_diff (S754_finite s m e) (S754_finite s m e) = S754_zero s.
Proof.
  unfold price_anchor_diff, B64.div, B64.sub. cbn [SFsub].
  rewrite Z.sub_diag. cbn [binary_normalize SFdiv xorb]. reflexivity.
Qed.

(** ** Watch-list Filters: favourites, wheat beer, the report *)

Import Watchlist.

Section KleeneFacts.

Lemma selects_some (b : bool) : selects (Some b) = b.
Proof. destruct b; reflexivity. Qed.

(** A row is kept by [a | b] exactly when it is kept by one of them: a
    missing value on one side never hides a [True] on the other. *)
Lemma selects_or (a b : option bool) :
  selects (or_kleene a b) = selects a || selects b.
Proof. destruct a as [[]|], b as [[]|]; reflexivity. Qed.

Lemma selects_and (a b : option bool) :
  selects (and_kleene a b) = selects a && selects b.
Proof. destruct a as [[]|], b as [[]|]; reflexivity. Qed.

Lemma atoms_here_spec (ic : bool) (atoms : list atom) (s : pystr) :
  atoms_here ic atoms s = true
  <-> exists m r, s = m ++ r
                  /\ Forall2 (fun a c => atom_matches ic a c = true) atoms m.
Proof.
  revert s. induction atoms as [|a atoms IH]; intros s.
  - split; [|reflexivity]. intros _. exists [], s. split; [reflexivity|constructor].
  - destruct s as [|c s]; cbn [atoms_here].
    + split; [discriminate|]. intros (m & r & Hs & Hm).
      inversion Hm; subst. discriminate Hs.
    + rewrite andb_true_iff, IH. split.
      * intros (Hc & m & r & -> & Hm). exists (c :: m), r.
        split; [reflexivity|constructor; assumption].
      * intros (m & r & Hs & Hm). inversion Hm as [|? c' ? m' Hc Hm']; subst.
        injection Hs as <- ->. split; [exact Hc|]. exists m', r.
        split; [reflexivity|exact Hm'].
Qed.

Lemma search_atoms_here (ic : bool) (alts : list (list atom)) (s : pystr) :
  existsb (fun atoms => atoms_here ic atoms s) alts = true ->
  search_atoms ic alts s = true.
Proof. intros H. destruct s; cbn [search_atoms]; rewrite H; reflexivity. Qed.

(** [contains] finds exactly the texts a stretch of which matches an
    alternative of the pattern. *)
Lemma contains_spec (ic : bool) (pattern s : pystr) :
  contains ic pattern s = true <-> matches_somewhere ic pattern s.
Proof.
  unfold contains, matches_somewhere. generalize (compile pattern) as alts.
  intros alts. split.
  - induction s as [|c s IH]; cbn [search_atoms]; intros H;
      apply orb_prop in H; destruct H as [H|H]; try discriminate H.
    + apply List.existsb_exists in H. destruct H as (atoms & Hin & Hm).
      apply atoms_here_spec in Hm. destruct Hm as (m & r & Hs & Hm).
      exists atoms, [], m, r. repeat split; assumption.
    + apply List.existsb_exists in H. destruct H as (atoms & Hin & Hm).
      apply atoms_here_spec in Hm. destruct Hm as (m & r & Hs & Hm).
      exists atoms, [], m, r. repeat split; assumption.
    + destruct (IH H) as (atoms & l & m & r & Hin & -> & Hm).
      exists atoms, (c :: l), m, r. repeat split; assumption.
  - intros (atoms & l & m & r & Hin & -> & Hm).
    induction l as [|c l IH].
    + apply search_atoms_here, List.existsb_exists. exists atoms.
      split; [exact Hin|]. apply atoms_here_spec. exists m, r.
      split; [reflexivity|exact Hm].
    + cbn [app search_atoms]. rewrite IH. apply orb_true_r.
Qed.

End KleeneFacts.

Section FavouritesFacts.

Lemma favourites_without_name (r : row) :
  name r = None -> selects (FILT_FAVORITES r) = false.
Proof.
  intros Hname. unfold FILT_FAVORITES, str_contains, str_startswith. cbv zeta.
  rewrite Hname. cbn [option_map].
  rewrite !selects_or, !selects_and. reflexivity.
Qed.

Lemma favourites_standalone (r : row) (n : pystr) (pattern : string) :
  name r = Some n ->
  In pattern standalone_patterns ->
  contains false (py pattern) n = true ->
  selects (FILT_FAVORITES r) = true.
Proof.
  intros Hname Hin Hm. unfold FILT_FAVORITES, str_contains, str_startswith.
  cbv zeta. rewrite Hname. cbn [option_map].
  rewrite !selects_or, !selects_and, !selects_some.
  unfold standalone_patterns in Hin. cbn [In] in Hin.
  repeat (destruct Hin as [<-|Hin];
          [rewrite Hm, ?orb_true_r; reflexivity|]).
  destruct Hin.
Qed.

End FavouritesFacts.

(** X18: in the favourites filter a product name that matches one of
    the patterns standing alone in their rule (TOFU, MOLISANA, ...)
    selects the row whatever brand and quantity are, missing or not; a
    row with a missing name is never selected; and the dot in a pattern
    such as [KLC.LEĆA] stands for any code point but a line feed, so
    that any name holding [KLC], one code point and [LEĆA] is
    selected. *)
Theorem X18_favourites_standalone_rules :
  (forall r : row, name r = None -> selects (FILT_FAVORITES r) = false)
  /\ (forall (r : row) (n : pystr) (pattern : string),
        name r = Some n ->
        In pattern standalone_patterns ->
        matches_somewhere false (py pattern) n ->
        selects (FILT_FAVORITES r) = true)
  /\ (forall (r : row) (before after : pystr) (c : N),
        c <> line_feed ->
        name r = Some (before ++ (py "KLC" ++ [c] ++ py "LEĆA") ++ after) ->
        selects (FILT_FAVORITES r) = true).
Proof.
  split; [exact favourites_without_name|]. split.
  - intros r n pattern Hname Hin Hm.
    apply (favourites_standalone r n pattern Hname Hin).
    apply contains_spec. exact Hm.
  - intros r before after c Hc Hname.
    apply (favourites_standalone r _ "KLC.LEĆA" Hname).
    + unfold standalone_patterns. cbn [In]. tauto.
    + apply contains_spec.
      exists [Lit 75; Lit 76; Lit 67; AnyChar; Lit 76; Lit 69; Lit 262; Lit 65]%N,
             before, (py "KLC" ++ [c] ++ py "LEĆA"), after.
      split; [vm_compute; left; reflexivity|]. split; [reflexivity|].
      change (py "KLC" ++ [c] ++ py "LEĆA")
        with [75; 76; 67; c; 76; 69; 262; 65]%N.
      repeat (constructor; [try reflexivity|]); [|constructor].
      cbn [atom_matches]. destruct (N.eqb_spec c line_feed);
        [contradiction|reflexivity].
Qed.

Lemma X18_favourites_standalone_rules_witness :
  selects (FILT_FAVORITES {| name := Some ([] ++ (py "KLC" ++ [32%N] ++ py "LEĆA") ++ py " 500G");
                             brand := None; qty := None |}) = true.
Proof.
  apply (proj2 (proj2 X18_favourites_standalone_rules)
           _ [] (py " 500G") 32%N).
  - discriminate.
  - reflexivity.
Defined.

(** X19: the quantity bounds of the favourites are strict where the
    script writes [>] and not where it writes [>=].  Any row whose name
    holds HUMUS or HUMMUS and whose quantity is above 0.15 is selected,
    and any row whose name holds PANETTONE and whose quantity is at
    least 0.5, whatever the brand.  A product named just HUMUS is
    selected exactly when its quantity is above 0.15 (0.15 itself is not
    enough), one named just PANETTONE exactly when its quantity is at
    least 0.5 (0.5 itself is enough); with a missing quantity neither is
    selected. *)
Theorem X19_favourites_quantity_bounds :
  (forall (r : row) (n : pystr) (x : B64.float),
      name r = Some n -> qty r = Some x ->
      matches_somewhere false (py "HUMUS|HUMMUS") n ->
      SFltb point_15 x = true ->
      selects (FILT_FAVORITES r) = true)
  /\ (forall (r : row) (n : pystr) (x : B64.float),
        name r = Some n -> qty r = Some x ->
        matches_somewhere false (py "PANETTONE") n ->
        SFleb point_5 x = true ->
        selects (FILT_FAVORITES r) = true)
  /\ (forall (b : option pystr) (q : option B64.float),
        selects (FILT_FAVORITES {| name := Some (py "HUMUS"); brand := b; qty := q |})
        = match q with Some x => SFltb point_15 x | None => false end)
  /\ (forall (b : option pystr) (q : option B64.float),
        selects (FILT_FAVORITES {| name := Some (py "PANETTONE"); brand := b; qty := q |})
        = match q with Some x => SFleb point_5 x | None => false end)
  /\ SFltb point_15 point_15 = false
  /\ SFleb point_5 point_5 = true.
Proof.
  split; [|split; [|split; [|split; [|split; reflexivity]]]].
  - intros r n x Hname Hqty Hm Hx. apply contains_spec in Hm.
    unfold FILT_FAVORITES, str_contains, str_startswith, gt, ge. cbv zeta.
    rewrite Hname, Hqty. cbn [option_map].
    rewrite !selects_or, !selects_and, !selects_some.
    rewrite Hm, Hx. cbn [andb]. rewrite ?orb_true_r. reflexivity.
  - intros r n x Hname Hqty Hm Hx. apply contains_spec in Hm.
    unfold FILT_FAVORITES, str_contains, str_startswith, gt, ge. cbv zeta.
    rewrite Hname, Hqty. cbn [option_map].
    rewrite !selects_or, !selects_and, !selects_some.
    rewrite Hm, Hx. cbn [andb]. rewrite ?orb_true_r. reflexivity.
  - intros b q. unfold FILT_FAVORITES, str_contains, str_startswith. cbv zeta.
    cbn [name brand qty option_map].
    rewrite !selects_or, !selects_and, !selects_some.
    destruct q as [x|]; cbn [gt ge option_map]; rewrite ?selects_some;
      [destruct (SFltb point_15 x)|]; destruct b; vm_compute; reflexivity.
  - intros b q. unfold FILT_FAVORITES, str_contains, str_startswith. cbv zeta.
    cbn [name brand qty option_map].
    rewrite !selects_or, !selects_and, !selects_some.
    destruct q as [x|]; cbn [gt ge option_map]; rewrite ?selects_some;
      [destruct (SFleb point_5 x)|]; destruct b; vm_compute; reflexivity.
Qed.

Lemma X19_favourites_quantity_bounds_witness :
  let r := {| name := Some (py "NATURELA HUMMUS 200G"); brand := None;
              qty := Some (B64.decimal 2 1) |} in
  selects (FILT_FAVORITES r) = true.
Proof.
  intros r.
  apply (proj1 X19_favourites_quantity_bounds r
           (py "NATURELA HUMMUS 200G") (B64.decimal 2 1)).
  - reflexivity.
  - reflexivity.
  - apply contains_spec. vm_compute. reflexivity.
  - vm_compute. reflexivity.
Defined.

(** X20: the wheat-beer filter selects a row exactly when its name
    holds, in any mix of upper and lower case, one of the seven texts of
    the pattern; the dots written with a backslash are plain dots; a
    row with a missing name is not selected. *)
Theorem X20_wheat_beer_filter :
  (forall r : row,
      selects (FILT_WEIZEN r) = true
      <-> exists n, name r = Some n /\ matches_somewhere true weizen_pattern n)
  /\ compile weizen_pattern = List.map (fun t => List.map Lit (py t)) weizen_names
  /\ (forall (r : row) (text : string) (before m after : pystr),
        In text weizen_names ->
        Forall2 (fun p c => ci_literal p c = true) (py text) m ->
        name r = Some (before ++ m ++ after) ->
        selects (FILT_WEIZEN r) = true).
Proof.
  assert (Hiff : forall r : row,
             selects (FILT_WEIZEN r) = true
             <-> exists n, name r = Some n /\ matches_somewhere true weizen_pattern n).
  { intros r. unfold FILT_WEIZEN. destruct (name r) as [n|]; cbn [option_map].
    - rewrite selects_some, contains_spec. split.
      + intros H. exists n. split; [reflexivity|exact H].
      + intros (n' & [= <-] & H). exact H.
    - split; [discriminate|]. intros (n' & Hn & _). discriminate Hn. }
  assert (Hc : compile weizen_pattern
               = List.map (fun t => List.map Lit (py t)) weizen_names)
    by (vm_compute; reflexivity).
  split; [exact Hiff|]. split; [exact Hc|].
  intros r text before m after Hin Hm Hname. apply Hiff.
  exists (before ++ m ++ after). split; [exact Hname|].
  exists (List.map Lit (py text)), before, m, after.
  split; [|split; [reflexivity|]].
  - rewrite Hc. apply List.in_map_iff. exists text. split; [reflexivity|exact Hin].
  - clear -Hm. induction Hm as [|p c ps cs Hpc _ IH]; [constructor|].
    cbn [List.map]. constructor; [exact Hpc|exact IH].
Qed.

Lemma X20_wheat_beer_filter_witness :
  selects (FILT_WEIZEN {| name := Some (py "PIVO " ++ py "ERDINGER PIVO SVJ." ++ py " 0,5L");
                          brand := None; qty := None |}) = true.
Proof.
  apply (proj2 (proj2 X20_wheat_beer_filter) _ "Erdinger Pivo svj."%string
           (py "PIVO ") (py "ERDINGER PIVO SVJ.") (py " 0,5L")).
  - unfold weizen_names. cbn [In]. tauto.
  - vm_compute. repeat constructor.
  - reflexivity.
Defined.

(** X21: a row goes into the report exactly when one of the three
    filters gives [True] for it; a missing value in one filter (a
    missing brand or quantity) never removes a row that another filter
    selects; and a row with a missing product name is never in the
    report. *)
Theorem X21_report_mask (r : row) :
  selects (report_mask r)
  = selects (FILT_WEIZEN r) || selects (FILT_FAVORITES r) || selects (FILT_SIR r)
  /\ (name r = None -> selects (report_mask r) = false).
Proof.
  assert (H : selects (report_mask r)
              = selects (FILT_WEIZEN r) || selects (FILT_FAVORITES r)
                || selects (FILT_SIR r)).
  { unfold report_mask. rewrite !selects_or. reflexivity. }
  split; [exact H|]. intros Hname. rewrite H.
  rewrite (favourites_without_name r Hname).
  unfold FILT_WEIZEN, FILT_SIR, Filters.FILT_SIR. cbn [Filters.product_name Filters.quantity].
  rewrite Hname. cbn [option_map].
  destruct (option_map _ (qty r)) as [[]|]; reflexivity.
Qed.

Lemma X21_report_mask_witness :
  selects (report_mask {| name := None; brand := Some (py "K-Favourites");
                          qty := Some point_5 |}) = false.
Proof.
  apply (proj2 (X21_report_mask _)). reflexivity.
Defined.

(** ** Report Renderer *)

Section RendererFacts.



End RendererFacts.




